(** * autogit: daemon lifecycle and autonomous commit loop

    A shallow embedding of the Go sources of autogit
    ([internal/config], [internal/git], [internal/ai], [internal/notify],
    [internal/daemon], [internal/tui] and [cmd/autogit]) and the
    properties of its commit loop, state store, control commands and
    settings.

    Conventions of the embedding.
    - A Go [string] is a Rocq [string]: a sequence of bytes, [len] counts
      bytes and slicing cuts bytes.
    - A Go [int] (64-bit platform), an [int64] and a [time.Duration] are
      integers of [Z]; the wrap-around of 64-bit arithmetic is written
      out with [wrap64].
    - A Go [error] is its text; [nil] is [None].
    - Everything a function does to the outside (subprocesses, HTTP
      requests, notifications, signals, printed lines) is recorded, in
      order, in a trace of [Effect]s; the files of the configuration
      directory, the logs among them, are a finite map.
    - What the outside answers (the output of a git command, the reply
      of the backend, the result of a signal) is an argument of the
      function that asks for it.

    What is taken from outside the sources: [time.Ticker] sends no tick
    once stopped; viper looks a key up in the environment, then in the
    file, then in the defaults, and reads JSON numbers as float64;
    [encoding/json] writes invalid UTF-8 as U+FFFD; [git status
    --porcelain] lists untracked files and [git diff] does not;
    [strings.TrimSpace], [strings.ToLower] and [strings.ToUpper] are
    taken on ASCII, and [filepath.Base] on Unix paths. *)

From Stdlib Require Import ZArith String Ascii Bool List Lia DecimalString.
From stdpp Require Import base strings gmap list.
Import ListNotations.

Local Open Scope string_scope.
Local Open Scope Z_scope.

(** ** Go values *)

Module Go.

(** [(T, error)] results: exactly one of a value and an error text. *)
Inductive result (A : Type) : Type :=
| Ok (a : A)
| Err (e : string).
Arguments Ok {A} a.
Arguments Err {A} e.

Definition error : Type := option string.

Definition LF : string := String (ascii_of_nat 10) EmptyString.
Definition DQUOTE : ascii := ascii_of_nat 34.

Definition byteOf (c : ascii) : Z := Z.of_N (N_of_ascii c).

(** [len(s)]: the number of bytes. *)
Definition len (s : string) : Z := Z.of_nat (String.length s).

(** [s[:n]] for [0 <= n <= len(s)]. *)
Definition sliceTo (s : string) (n : Z) : string :=
  String.substring 0 (Z.to_nat n) s.

Global Arguments sliceTo : simpl never.

(** Two's complement wrap-around of a 64-bit signed integer. *)
Definition wrap64 (z : Z) : Z := (z + 2 ^ 63) mod 2 ^ 64 - 2 ^ 63.

Definition inInt64 (z : Z) : bool := (- 2 ^ 63 <=? z) && (z <? 2 ^ 63).

(** The integer nearest to [n] among the float64 values (ties to even):
    what [encoding/json] yields when it reads the number [n] into an
    [interface{}]. *)
Definition float64OfInt (n : Z) : Z :=
  let a := Z.abs n in
  let e := Z.log2 a - 52 in
  if e <=? 0 then n
  else
    let q := Z.shiftr a e in
    let r := Z.land a (Z.ones e) in
    let h := Z.shiftl 1 (e - 1) in
    let q' := if r <? h then q
              else if h <? r then q + 1
              else if Z.even q then q else q + 1 in
    Z.sgn n * Z.shiftl q' e.

(** [int64(f)] of an integral float64; out of range the conversion is
    implementation-defined, amd64 yields the minimum integer. *)
Definition intOfFloat64 (f : Z) : Z :=
  if inInt64 f then f else - 2 ^ 63.

(** ASCII letters only: [strings.ToUpper] and [strings.ToLower] on the
    identifiers the program passes to them. *)
Definition upperChar (c : ascii) : ascii :=
  let b := byteOf c in
  if (97 <=? b) && (b <=? 122) then ascii_of_N (Z.to_N (b - 32)) else c.

Fixpoint ToUpper (s : string) : string :=
  match s with
  | EmptyString => EmptyString
  | String c t => String (upperChar c) (ToUpper t)
  end.

(** The white space [strings.TrimSpace] strips, at the ASCII level:
    tab, line feed, vertical tab, form feed, carriage return, space. *)
Definition isSpace (c : ascii) : bool :=
  let b := byteOf c in
  ((9 <=? b) && (b <=? 13)) || (b =? 32).

Fixpoint trimLeft (p : ascii -> bool) (s : string) : string :=
  match s with
  | EmptyString => EmptyString
  | String c t => if p c then trimLeft p t else s
  end.

(** Drops the longest suffix of bytes satisfying [p]. *)
Fixpoint trimRight (p : ascii -> bool) (s : string) : string :=
  match s with
  | EmptyString => EmptyString
  | String c t =>
      match trimRight p t with
      | EmptyString => if p c then EmptyString else String c EmptyString
      | t' => String c t'
      end
  end.

Definition TrimSpace (s : string) : string :=
  trimRight isSpace (trimLeft isSpace s).

Fixpoint inCutset (cutset : string) (c : ascii) : bool :=
  match cutset with
  | EmptyString => false
  | String d t => if Ascii.eqb c d then true else inCutset t c
  end.

(** [strings.Trim(s, cutset)] for an ASCII cutset. *)
Definition Trim (s cutset : string) : string :=
  trimRight (inCutset cutset) (trimLeft (inCutset cutset) s).

(** UTF-8 well-formedness of the sequences starting with [b0], as
    [utf8.DecodeRuneInString] accepts them. *)
Definition isCont (b : Z) : bool := (128 <=? b) && (b <=? 191).

Definition seq2 (b0 b1 : Z) : bool :=
  (194 <=? b0) && (b0 <=? 223) && isCont b1.

Definition seq3 (b0 b1 b2 : Z) : bool :=
  (((b0 =? 224) && (160 <=? b1) && (b1 <=? 191))
   || ((225 <=? b0) && (b0 <=? 236) && isCont b1)
   || ((b0 =? 237) && (128 <=? b1) && (b1 <=? 159))
   || ((238 <=? b0) && (b0 <=? 239) && isCont b1))
  && isCont b2.

Definition seq4 (b0 b1 b2 b3 : Z) : bool :=
  (((b0 =? 240) && (144 <=? b1) && (b1 <=? 191))
   || ((241 <=? b0) && (b0 <=? 243) && isCont b1)
   || ((b0 =? 244) && (128 <=? b1) && (b1 <=? 143)))
  && isCont b2 && isCont b3.

(** U+FFFD in UTF-8. *)
Definition replacementChar : string :=
  String (ascii_of_nat 239) (String (ascii_of_nat 191)
    (String (ascii_of_nat 189) EmptyString)).

(** What a string becomes when [encoding/json] writes it and reads it
    back: escapes are undone by the reader, but every byte that does not
    start a well-formed UTF-8 sequence has been written as U+FFFD. *)
Fixpoint toValidUTF8 (s : string) : string :=
  match s with
  | EmptyString => EmptyString
  | String c0 t0 =>
      if byteOf c0 <? 128 then String c0 (toValidUTF8 t0)
      else
        match t0 with
        | String c1 t1 =>
            if seq2 (byteOf c0) (byteOf c1)
            then String c0 (String c1 (toValidUTF8 t1))
            else
              match t1 with
              | String c2 t2 =>
                  if seq3 (byteOf c0) (byteOf c1) (byteOf c2)
                  then String c0 (String c1 (String c2 (toValidUTF8 t2)))
                  else
                    match t2 with
                    | String c3 t3 =>
                        if seq4 (byteOf c0) (byteOf c1) (byteOf c2) (byteOf c3)
                        then String c0 (String c1 (String c2
                               (String c3 (toValidUTF8 t3))))
                        else replacementChar ++ toValidUTF8 t0
                    | EmptyString => replacementChar ++ toValidUTF8 t0
                    end
              | EmptyString => replacementChar ++ toValidUTF8 t0
              end
        | EmptyString => replacementChar ++ toValidUTF8 t0
        end
  end.

Definition lowerChar (c : ascii) : ascii :=
  let b := byteOf c in
  if (65 <=? b) && (b <=? 90) then ascii_of_N (Z.to_N (b + 32)) else c.

Fixpoint ToLower (s : string) : string :=
  match s with
  | EmptyString => EmptyString
  | String c t => String (lowerChar c) (ToLower t)
  end.

(** [strings.Contains]. *)
Fixpoint Contains (s sub : string) : bool :=
  if String.prefix sub s then true
  else match s with
       | EmptyString => false
       | String _ t => Contains t sub
       end.

Definition HasSuffix (s suffix : string) : bool :=
  let n := String.length s in
  let m := String.length suffix in
  (m <=? n)%nat && String.eqb (String.substring (n - m) m s) suffix.

Definition TrimSuffix (s suffix : string) : string :=
  if HasSuffix s suffix
  then String.substring 0 (String.length s - String.length suffix) s
  else s.

(** [%d] of [fmt] and [strconv.FormatInt(n, 10)]: decimal digits. *)
Definition Itoa (z : Z) : string := NilZero.string_of_int (Z.to_int z).

(** [utf8.ValidString]. *)
Definition ValidString (s : string) : bool :=
  if string_dec (toValidUTF8 s) s then true else false.

End Go.

Import Go.


(** ** Package config: configuration record, daemon descriptor, store *)

Module config.

(** [time.Minute], in nanoseconds. *)
Definition Minute : Z := 60 * 1000000000.

Definition DefaultCheckInterval : Z := 10 * Minute.
Definition ConfigFileName : string := "config.json".
Definition DaemonFileName : string := "daemon.json".

Record Config : Type := {
  AIProvider : string;
  APIKey : string;
  BaseURL : string;
  CheckIntervalMinutes : Z;
  RootPath : string
}.

Record DaemonInfo : Type := {
  PID : Z;
  RepoPath : string;
  Status : string
}.

(** *** The configuration directory

    A file of the directory is keyed by its name in it (every path of
    the package is [filepath.Join(configDir, name)]). A file that parses
    as a JSON object is kept as the object it denotes; its members are
    strings or integer numbers, the two kinds [SaveConfig] and
    [SaveDaemonInfo] write. Any other file is [Text], given by its lines;
    the logs are such files. *)

Inductive JVal : Type :=
| JStr (s : string)
| JNum (n : Z).

Inductive File : Type :=
| Text (lines : list string)
| Doc (o : gmap string JVal).

Record Disk : Type := {
  files : gmap string File;
  readonly : bool
}.

(** [os.WriteFile]: fails on a directory that cannot be written. *)
Definition WriteFile (name : string) (f : File) (d : Disk) : Disk * error :=
  if readonly d then (d, Some "permission denied")
  else ({| files := <[name := f]> (files d); readonly := false |}, None).

(** [os.Remove]. *)
Definition Remove (name : string) (d : Disk) : Disk * error :=
  if readonly d then (d, Some "permission denied")
  else match files d !! name with
       | None => (d, Some "no such file or directory")
       | Some _ => ({| files := delete name (files d); readonly := false |}, None)
       end.

(** [json.MarshalIndent(cfg, ...)], by the [json] tags of [Config]. *)
Definition marshalConfig (cfg : Config) : gmap string JVal :=
  <["ai_provider" := JStr (toValidUTF8 (AIProvider cfg))]>
  (<["api_key" := JStr (toValidUTF8 (APIKey cfg))]>
  (<["base_url" := JStr (toValidUTF8 (BaseURL cfg))]>
  (<["check_interval_minutes" := JNum (CheckIntervalMinutes cfg)]>
  (<["root_path" := JStr (toValidUTF8 (RootPath cfg))]> ∅)))).

Definition SaveConfig (cfg : Config) (d : Disk) : Disk * error :=
  let data := marshalConfig cfg in
  match WriteFile ConfigFileName (Doc data) d with
  | (d', Some e) => (d', Some ("failed to write config: " ++ e))
  | (d', None) => (d', None)
  end.

(** *** viper

    The values viper holds: a string, a Go [int] (from [SetDefault]) or a
    float64 (every number read from the JSON file). *)
Inductive Value : Type :=
| VStr (s : string)
| VInt (n : Z)
| VFloat (f : Z).

(** The three [viper.SetDefault] calls of [LoadConfig]. *)
Definition defaults : gmap string Value :=
  <["ai_provider" := VStr "gemini"]>
  (<["check_interval_minutes" := VInt 10]>
  (<["base_url" := VStr ""]> ∅)).

Definition readValue (v : JVal) : Value :=
  match v with
  | JStr s => VStr s
  | JNum n => VFloat (float64OfInt n)
  end.

(** A number beyond the float64 range makes the JSON reader fail. *)
Definition representable (v : JVal) : bool :=
  match v with
  | JStr _ => true
  | JNum n => Z.abs (float64OfInt n) <? 2 ^ 1024
  end.

(** [viper.ReadInConfig] on the object found in [config.json]. *)
Definition ReadInConfig (o : gmap string JVal) : option (gmap string Value) :=
  if decide (map_Forall (λ _ v, representable v = true) o)
  then Some (readValue <$> o)
  else None.

(** [SetEnvPrefix("AUTOGIT")] and [AutomaticEnv()]: the variable
    consulted for a key. *)
Definition envKey (key : string) : string := ToUpper ("AUTOGIT" ++ "_" ++ key).

(** viper ignores a variable that is set to the empty string. *)
Definition getEnv (env : gmap string string) (name : string) : option string :=
  match env !! name with
  | Some v => if decide (v = "") then None else Some v
  | None => None
  end.

(** [viper.Get]: the environment first, then the file, then the defaults. *)
Definition find (env : gmap string string) (cfg : gmap string Value)
    (key : string) : option Value :=
  match getEnv env (envKey key) with
  | Some s => Some (VStr s)
  | None =>
      match cfg !! key with
      | Some v => Some v
      | None => defaults !! key
      end
  end.

(** [viper.AllSettings] at [key]: only the keys of the file and of the
    defaults are listed, each with what [Get] finds for it. *)
Definition AllSettings (env : gmap string string) (cfg : gmap string Value)
    (key : string) : option Value :=
  if decide (key ∈ dom cfg ∪ dom defaults) then find env cfg key else None.

Section Unmarshal.

(** The weakly typed decoder of viper turns a string into an integer
    with [strconv.ParseInt(s, 0, 64)]; the numeral syntax it accepts is
    kept abstract ([None] when the string is rejected). *)
Variable ParseInt : string → option Z.

Definition decodeString (v : option Value) : string :=
  match v with
  | None => ""
  | Some (VStr s) => s
  | Some (VInt n) => Itoa n
  | Some (VFloat f) => Itoa f
  end.

Definition decodeInt (v : option Value) : option Z :=
  match v with
  | None => Some 0
  | Some (VInt n) => Some n
  | Some (VFloat f) => Some (intOfFloat64 f)
  | Some (VStr s) => ParseInt s
  end.

(** [viper.Unmarshal(&cfg)], by the [mapstructure] tags of [Config]. *)
Definition Unmarshal (settings : string → option Value) : option Config :=
  match decodeInt (settings "check_interval_minutes") with
  | None => None
  | Some n =>
      Some {| AIProvider := decodeString (settings "ai_provider");
              APIKey := decodeString (settings "api_key");
              BaseURL := decodeString (settings "base_url");
              CheckIntervalMinutes := n;
              RootPath := decodeString (settings "root_path") |}
  end.

Definition LoadConfig (env : gmap string string) (d : Disk)
    : Disk * result Config :=
  match files d !! ConfigFileName with
  | None =>
      (* Config file not found; create default *)
      let cfg := {| AIProvider := "gemini"; APIKey := ""; BaseURL := "";
                    CheckIntervalMinutes := 10; RootPath := "" |} in
      match SaveConfig cfg d with
      | (d', Some e) => (d', Err ("failed to create default config: " ++ e))
      | (d', None) => (d', Ok cfg)
      end
  | Some (Text _) => (d, Err "failed to read config")
  | Some (Doc o) =>
      match ReadInConfig o with
      | None => (d, Err "failed to read config")
      | Some cfg =>
          match Unmarshal (AllSettings env cfg) with
          | None => (d, Err "failed to unmarshal config")
          | Some c => (d, Ok c)
          end
      end
  end.

End Unmarshal.

(** [json.Marshal] and [json.Unmarshal] of the daemon descriptor, by the
    [json] tags of [DaemonInfo]; the reader is strict on types and gives
    a missing member its zero value. *)
Definition marshalDaemonInfo (info : DaemonInfo) : gmap string JVal :=
  <["pid" := JNum (PID info)]>
  (<["repo_path" := JStr (toValidUTF8 (RepoPath info))]>
  (<["status" := JStr (toValidUTF8 (Status info))]> ∅)).

Definition memberString (o : gmap string JVal) (key : string) : option string :=
  match o !! key with
  | None => Some ""
  | Some (JStr s) => Some s
  | Some (JNum _) => None
  end.

Definition memberInt (o : gmap string JVal) (key : string) : option Z :=
  match o !! key with
  | None => Some 0
  | Some (JNum n) => if inInt64 n then Some n else None
  | Some (JStr _) => None
  end.

Definition unmarshalDaemonInfo (o : gmap string JVal) : option DaemonInfo :=
  match memberInt o "pid", memberString o "repo_path", memberString o "status" with
  | Some p, Some r, Some s => Some {| PID := p; RepoPath := r; Status := s |}
  | _, _, _ => None
  end.

(** [(nil, nil)] is [Ok None], [(nil, err)] is [Err], [(&info, nil)] is
    [Ok (Some info)]. *)
Definition LoadDaemonInfo (d : Disk) : result (option DaemonInfo) :=
  match files d !! DaemonFileName with
  | None => Ok None (* No daemon running *)
  | Some (Text _) => Err "failed to unmarshal daemon info"
  | Some (Doc o) =>
      match unmarshalDaemonInfo o with
      | None => Err "failed to unmarshal daemon info"
      | Some info => Ok (Some info)
      end
  end.

Definition SaveDaemonInfo (info : DaemonInfo) (d : Disk) : Disk * error :=
  match WriteFile DaemonFileName (Doc (marshalDaemonInfo info)) d with
  | (d', Some e) => (d', Some ("failed to write daemon info: " ++ e))
  | (d', None) => (d', None)
  end.

Definition DeleteDaemonInfo (d : Disk) : Disk * error :=
  Remove DaemonFileName d.

(** [time.Duration(c.CheckIntervalMinutes) * time.Minute] is a product
    of two [int64]. *)
Definition GetCheckInterval (c : Config) : Z :=
  if CheckIntervalMinutes c <=? 0 then DefaultCheckInterval
  else wrap64 (CheckIntervalMinutes c * Minute).

End config.

(** ** Package ai: the text-generation backends *)

Module ai.

Definition SystemPrompt : string :=
  "You are a git automation bot. Analyze the provided code diff. Respond ONLY with a concise, Conventional Commit message (e.g., 'fix(ui): adjust button padding'). Do not add quotes or markdown.".

(** The maximum diff length of the three providers. *)
Definition MaxDiffLen : Z := 100000.

Definition TruncationMarker : string := LF ++ "... (truncated)".

(** *** Request and response shapes *)

Record Message : Type := { Role : string; Content : string }.

Record GeminiPart : Type := { PartText : string }.
Record GeminiContent : Type := { Parts : list GeminiPart }.
Record GeminiRequest : Type := { Contents : list GeminiContent }.
Record GeminiCandidate : Type := { CandidateContent : GeminiContent }.
Record GeminiResponse : Type := { Candidates : list GeminiCandidate }.

Record OpenAIRequest : Type := {
  OpenAIModel : string;
  OpenAIMessages : list Message
}.
Record Choice : Type := { ChoiceMessage : Message }.
Record OpenAIResponse : Type := { Choices : list Choice }.

Record AnthropicRequest : Type := {
  AnthropicModel : string;
  MaxTokens : Z;
  AnthropicMessages : list Message
}.
Record AnthropicContent : Type := { AnthropicText : string }.
Record AnthropicResponse : Type := { ResponseContent : list AnthropicContent }.

(** The value a provider hands to [json.Marshal] as request body. *)
Inductive RequestBody : Type :=
| GeminiBody (r : GeminiRequest)
| OpenAIBody (r : OpenAIRequest)
| AnthropicBody (r : AnthropicRequest).

(** One call of [doRequest]. *)
Record HTTPRequest : Type := {
  url : string;
  headers : gmap string string;
  body : RequestBody
}.

(** A response body: its text and what [json.Unmarshal] makes of it for
    each response shape ([None] when it fails). *)
Record ResponseBody : Type := {
  raw : string;
  asGemini : option GeminiResponse;
  asOpenAI : option OpenAIResponse;
  asAnthropic : option AnthropicResponse
}.

(** What the network answers to a request. *)
Inductive HTTPOutcome : Type :=
| BadRequest (e : string)
| TransportError (e : string)
| ReadError (e : string)
| Response (status : Z) (b : ResponseBody).

Definition StatusOK : Z := 200.

(** [BaseProvider.doRequest]. *)
Definition doRequest (net : HTTPOutcome) : result ResponseBody :=
  match net with
  | BadRequest e => Err ("failed to create request: " ++ e)
  | TransportError e => Err ("request failed: " ++ e)
  | ReadError e => Err ("failed to read response: " ++ e)
  | Response status b =>
      if negb (status =? StatusOK)
      then Err ("API error (status " ++ Itoa status ++ "): " ++ raw b)
      else Ok b
  end.

(** *** Shared steps of the three [GenerateCommitMsg] *)

(** [if len(diff) > 100000 { diff = diff[:100000] + "\n... (truncated)" }] *)
Definition truncateDiff (diff : string) : string :=
  if MaxDiffLen <? len diff
  then sliceTo diff MaxDiffLen ++ TruncationMarker
  else diff.

(** [fmt.Sprintf("%s\n\nCode diff:\n%s", SystemPrompt, diff)] *)
Definition promptOf (diff : string) : string :=
  SystemPrompt ++ LF ++ LF ++ "Code diff:" ++ LF ++ diff.

Definition quotes : string := String DQUOTE "'`".

(** [strings.Trim(strings.TrimSpace(text), ...)] *)
Definition cleanMessage (text : string) : string :=
  Trim (TrimSpace text) quotes.

Definition userMessage (prompt : string) : Message :=
  {| Role := "user"; Content := prompt |}.

(** What one call of [GenerateCommitMsg] does: the request it passes to
    [doRequest], if it gets that far, and what it returns. *)
Record Generation : Type := {
  sent : option HTTPRequest;
  answer : result string
}.

Definition failEarly (e : string) : Generation :=
  {| sent := None; answer := Err e |}.

Definition jsonHeaders : gmap string string :=
  {[ "Content-Type" := "application/json" ]}.

(** *** Gemini *)

Definition GeminiProvider_GenerateCommitMsg (apiKey : string) (diff : string)
    (net : HTTPOutcome) : Generation :=
  if decide (apiKey = "") then failEarly "Gemini API key is not set"
  else
    let diff := truncateDiff diff in
    let prompt := promptOf diff in
    let url :=
      "https://generativelanguage.googleapis.com/v1beta/models/gemini-3-flash-preview:generateContent?key="
      ++ apiKey in
    let reqBody := {| Contents := [ {| Parts := [ {| PartText := prompt |} ] |} ] |} in
    let req := {| url := url; headers := jsonHeaders; body := GeminiBody reqBody |} in
    {| sent := Some req;
       answer :=
         match doRequest net with
         | Err e => Err e
         | Ok respBody =>
             match asGemini respBody with
             | None => Err "failed to unmarshal response"
             | Some resp =>
                 match Candidates resp with
                 | [] => Err "no response from Gemini API"
                 | c :: _ =>
                     match Parts (CandidateContent c) with
                     | [] => Err "no response from Gemini API"
                     | part :: _ => Ok (cleanMessage (PartText part))
                     end
                 end
             end
         end |}.

(** *** OpenAI and OpenRouter *)

Definition OpenAIProvider_headers (apiKey baseURL : string) : gmap string string :=
  let headers := <["Authorization" := "Bearer " ++ apiKey]> jsonHeaders in
  if Contains baseURL "openrouter"
  then <["X-Title" := "Autogit"]>
       (<["HTTP-Referer" := "https://github.com/aadityansha/autogit"]> headers)
  else headers.

Definition OpenAIProvider_GenerateCommitMsg (apiKey baseURL : string)
    (diff : string) (net : HTTPOutcome) : Generation :=
  if decide (apiKey = "") then failEarly "OpenAI API key is not set"
  else
    let diff := truncateDiff diff in
    let prompt := promptOf diff in
    let url := TrimSuffix baseURL "/" ++ "/chat/completions" in
    let model :=
      if Contains baseURL "openrouter" then "openai/gpt-3.5-turbo"
      else "gpt-3.5-turbo" in
    let reqBody := {| OpenAIModel := model;
                      OpenAIMessages := [ userMessage prompt ] |} in
    let req := {| url := url; headers := OpenAIProvider_headers apiKey baseURL;
                  body := OpenAIBody reqBody |} in
    {| sent := Some req;
       answer :=
         match doRequest net with
         | Err e => Err e
         | Ok respBody =>
             match asOpenAI respBody with
             | None => Err "failed to unmarshal response"
             | Some resp =>
                 match Choices resp with
                 | [] => Err "no response from OpenAI API"
                 | c :: _ => Ok (cleanMessage (Content (ChoiceMessage c)))
                 end
             end
         end |}.

(** *** Anthropic *)

Definition AnthropicProvider_headers (apiKey : string) : gmap string string :=
  <["anthropic-version" := "2023-06-01"]>
  (<["x-api-key" := apiKey]> jsonHeaders).

Definition AnthropicProvider_GenerateCommitMsg (apiKey : string)
    (diff : string) (net : HTTPOutcome) : Generation :=
  if decide (apiKey = "") then failEarly "Anthropic API key is not set"
  else
    let diff := truncateDiff diff in
    let prompt := promptOf diff in
    let url := "https://api.anthropic.com/v1/messages" in
    let reqBody := {| AnthropicModel := "claude-3-haiku-20240307";
                      MaxTokens := 1024;
                      AnthropicMessages := [ userMessage prompt ] |} in
    let req := {| url := url; headers := AnthropicProvider_headers apiKey;
                  body := AnthropicBody reqBody |} in
    {| sent := Some req;
       answer :=
         match doRequest net with
         | Err e => Err e
         | Ok respBody =>
             match asAnthropic respBody with
             | None => Err "failed to unmarshal response"
             | Some resp =>
                 match ResponseContent resp with
                 | [] => Err "no response from Anthropic API"
                 | c :: _ => Ok (cleanMessage (AnthropicText c))
                 end
             end
         end |}.

(** *** The [AIProvider] interface and its three implementations *)

Inductive AIProvider : Type :=
| GeminiProvider (apiKey : string)
| OpenAIProvider (apiKey baseURL : string)
| AnthropicProvider (apiKey : string).

Definition keyOf (p : AIProvider) : string :=
  match p with
  | GeminiProvider k | OpenAIProvider k _ | AnthropicProvider k => k
  end.

Definition GenerateCommitMsg (p : AIProvider) (diff : string)
    (net : HTTPOutcome) : Generation :=
  match p with
  | GeminiProvider k => GeminiProvider_GenerateCommitMsg k diff net
  | OpenAIProvider k u => OpenAIProvider_GenerateCommitMsg k u diff net
  | AnthropicProvider k => AnthropicProvider_GenerateCommitMsg k diff net
  end.

Definition NewProvider (provider apiKey baseURL : string) : result AIProvider :=
  let p := ToLower provider in
  if decide (p = "gemini") then Ok (GeminiProvider apiKey)
  else if decide (p = "openai" ∨ p = "openrouter") then
    let baseURL :=
      if decide (baseURL = "" ∧ provider = "openai")
      then "https://api.openai.com/v1"
      else if decide (baseURL = "") then "https://openrouter.ai/api/v1"
      else baseURL in
    Ok (OpenAIProvider apiKey baseURL)
  else if decide (p = "anthropic" ∨ p = "claude") then Ok (AnthropicProvider apiKey)
  else Err ("unknown AI provider: " ++ provider).

(** The prompt text carried by a request body. *)
Definition promptIn (b : RequestBody) : list string :=
  match b with
  | GeminiBody r => PartText <$> concat (Parts <$> Contents r)
  | OpenAIBody r => Content <$> OpenAIMessages r
  | AnthropicBody r => Content <$> AnthropicMessages r
  end.

End ai.

(** ** The world outside the program *)

Module rt.

Inductive Signal : Type :=
| Signal0   (* syscall.Signal(0), the existence probe *)
| SIGTERM.

(** What the program does to the outside, apart from its files. *)
Inductive Effect : Type :=
| GitExec (args : list string)          (* exec.Command("git", args...) *)
| Chdir (path : string)                 (* os.Chdir *)
| Generate (diff : string)              (* AIProvider.GenerateCommitMsg *)
| HTTPPost (r : ai.HTTPRequest)         (* BaseProvider.doRequest *)
| Notify (title message : string)       (* beeep.Notify *)
| TickerStop                            (* time.Ticker: Stop *)
| SignalSent (pid : Z) (sig : Signal)   (* os.Process: Signal *)
| StartProcess (argv : list string)     (* exec.Cmd: Start *)
| Stdout (text : string).               (* fmt.Println, fmt.Printf *)

(** The state of the outside: the configuration directory, the answers
    of the operating system to [os.FindProcess] and [Process.Signal],
    and the effects so far. The null signal leaves no effect: it is
    answered by [signalErr]. *)
Record World : Type := {
  disk : config.Disk;
  findProcessErr : Z → error;
  signalErr : Z → Signal → error;
  trace : list Effect
}.

Definition withDisk (d : config.Disk) (w : World) : World :=
  {| disk := d; findProcessErr := findProcessErr w;
     signalErr := signalErr w; trace := trace w |}.

Definition withTrace (t : list Effect) (w : World) : World :=
  {| disk := disk w; findProcessErr := findProcessErr w;
     signalErr := signalErr w; trace := t |}.

(** *** A state monad over the world *)

Definition M (A : Type) : Type := World → A * World.

#[export] Instance M_ret : MRet M := λ A a w, (a, w).

#[export] Instance M_bind : MBind M :=
  λ A B k m w, let (a, w') := m w in k a w'.

Definition emit (e : Effect) : M unit :=
  λ w, (tt, withTrace (trace w ++ [e]) w).

(** Runs an operation of package config on the disk of the world. *)
Definition onDisk {A : Type} (f : config.Disk → config.Disk * A) : M A :=
  λ w, let (d, a) := f (disk w) in (a, withDisk d w).

(** Reads the world without changing it. *)
Definition ask {A : Type} (f : World → A) : M A := λ w, (f w, w).

Definition readDisk {A : Type} (f : config.Disk → A) : M A :=
  ask (λ w, f (disk w)).

(** The lines of the text file [path]; a missing file has none. *)
Definition linesOf (path : string) (d : config.Disk) : list string :=
  match config.files d !! path with
  | Some (config.Text ls) => ls
  | _ => []
  end.

(** A write of one line to a file opened with [O_APPEND]. *)
Definition appendLine (path line : string) (d : config.Disk) : config.Disk :=
  {| config.files :=
       <[path := config.Text (linesOf path d ++ [line])]> (config.files d);
     config.readonly := config.readonly d |}.

Definition exec {A : Type} (m : M A) (w : World) : World := snd (m w).
Definition eval {A : Type} (m : M A) (w : World) : A := fst (m w).

End rt.


(** ** Package git: the wrappers of the git commands

    Each wrapper runs one subprocess; what the subprocess yields (its
    output, or the text of its failure) is given as argument. *)

Module git.

Import rt.

(** What [HasChanges] returns on the outcome of [git status --porcelain]. *)
Definition detected (output : result string) : result bool :=
  match output with
  | Err err => Err ("failed to check git status: " ++ err)
  | Ok output => Ok (0 <? len (TrimSpace output))
  end.

(** HasChanges checks if there are uncommitted changes *)
Definition HasChanges (output : result string) : M (result bool) :=
  emit (GitExec ["status"; "--porcelain"]);;
  mret (detected output).

(** What [GetDiff] returns on the outcome of [git diff]. *)
Definition retrieved (output : result string) : result string :=
  match output with
  | Err err => Err ("failed to get git diff: " ++ err)
  | Ok output => Ok output
  end.

(** GetDiff returns the diff of uncommitted changes *)
Definition GetDiff (output : result string) : M (result string) :=
  emit (GitExec ["diff"]);;
  mret (retrieved output).

(** AddAll stages all changes *)
Definition AddAll (run : error) : M error :=
  emit (GitExec ["add"; "."]);; mret run.

(** Commit creates a commit with the given message *)
Definition Commit (message : string) (run : error) : M error :=
  emit (GitExec ["commit"; "-m"; message]);; mret run.

(** Push pushes changes to remote *)
Definition Push (run : error) : M error :=
  emit (GitExec ["push"]);; mret run.

Definition isSlash (c : ascii) : bool := byteOf c =? 47.

Fixpoint hasSlash (s : string) : bool :=
  match s with
  | EmptyString => false
  | String c t => isSlash c || hasSlash t
  end.

Fixpoint lastElement (s : string) : string :=
  match s with
  | EmptyString => EmptyString
  | String c t =>
      if hasSlash t then lastElement t
      else if isSlash c then t else s
  end.

(** [filepath.Base] on a Unix path. *)
Definition Base (path : string) : string :=
  if decide (path = "") then "."
  else
    let path := lastElement (trimRight isSlash path) in
    if decide (path = "") then "/" else path.

(** GetRepoName extracts repository name from the root path *)
Definition GetRepoName (rootPath : string) : string := Base rootPath.

(** ChangeToRoot changes the working directory to the Git root *)
Definition ChangeToRoot (rootPath : string) (run : error) : M error :=
  emit (Chdir rootPath);; mret run.

End git.

(** ** Package notify: desktop notifications *)

Module notify.

Import rt.

(** The result of [beeep.Notify] is dropped by every caller. *)
Definition Notify (title message : string) : M unit :=
  emit (rt.Notify title message).

Definition NotifyError (repoName errorMsg : string) : M unit :=
  let title := "Autogit Paused: Error in " ++ repoName in
  let message := "Merge Conflict or Network Error: " ++ errorMsg in
  Notify title message.

Definition NotifySuccess (repoName commitMsg : string) : M unit :=
  let title := "Autogit: Committed to " ++ repoName in
  let message := "Commit: " ++ commitMsg in
  Notify title message.

End notify.

(** ** Package daemon: the commit loop *)

Module daemon.

Import rt.

Definition StatusRunning : string := "running".
Definition StatusError : string := "error".
Definition StatusPaused : string := "paused".

(** A [time.Ticker]. "After Stop, no more ticks will be sent"; its
    channel is synchronous, so no tick prepared before [Stop] is received
    after it. Nothing in the program resets a ticker. *)
Record Ticker : Type := {
  period : Z;
  stopped : bool
}.

(** The [Daemon] struct. [ticker] is [None] for a nil pointer; the log
    file and its logger are given by the name of the file in the
    configuration directory; [stopChan] is the source of the
    [StopRequest] events below. *)
Record Daemon : Type := {
  config : config.Config;
  aiProvider : ai.AIProvider;
  ticker : option Ticker;
  status : string;
  rootPath : string;
  repoName : string;
  logFile : string
}.

Definition setStatus (s : string) (d : Daemon) : Daemon :=
  {| config := config d; aiProvider := aiProvider d; ticker := ticker d;
     status := s; rootPath := rootPath d; repoName := repoName d;
     logFile := logFile d |}.

Definition setTicker (t : option Ticker) (d : Daemon) : Daemon :=
  {| config := config d; aiProvider := aiProvider d; ticker := t;
     status := status d; rootPath := rootPath d; repoName := repoName d;
     logFile := logFile d |}.

(** [d.logger.Printf]: one more line in the log file (the time stamp
    that the logger puts in front of it is left out). *)
Definition Printf (d : Daemon) (line : string) : M unit :=
  λ w, (tt, withDisk (appendLine (logFile d) line (disk w)) w).

Definition importAIProvider (cfg : config.Config) : result ai.AIProvider :=
  ai.NewProvider (config.AIProvider cfg) (config.APIKey cfg) (config.BaseURL cfg).

(** [mkdir] and [open] are what [os.MkdirAll] and [os.OpenFile] yield. *)
Definition NewDaemon (cfg : config.Config) (rootPath : string)
    (mkdir open : error) : M (result Daemon) :=
  match importAIProvider cfg with
  | Err e => mret (Err ("failed to create AI provider: " ++ e))
  | Ok provider =>
      let repoName := git.GetRepoName rootPath in
      match mkdir with
      | Some e => mret (Err ("failed to create log directory: " ++ e))
      | None =>
          let logPath := "logs/" ++ repoName ++ ".log" in
          match open with
          | Some e => mret (Err ("failed to open log file: " ++ e))
          | None =>
              λ w, (Ok {| config := cfg; aiProvider := provider; ticker := None;
                          status := StatusRunning; rootPath := rootPath;
                          repoName := repoName; logFile := logPath |},
                    withDisk
                      {| config.files :=
                           <[logPath := config.Text (linesOf logPath (disk w))]>
                             (config.files (disk w));
                         config.readonly := config.readonly (disk w) |} w)
          end
      end
  end.

(** What the collaborators answer during one cycle. Every one of them
    is asked at most once in a cycle. *)
Record CycleEnv : Type := {
  gitStatus : result string;   (* git status --porcelain *)
  gitDiff : result string;     (* git diff *)
  http : ai.HTTPOutcome;       (* the backend *)
  gitAdd : error;              (* git add . *)
  gitCommit : string → error;  (* git commit -m message *)
  gitPush : error              (* git push *)
}.

(** [d.aiProvider.GenerateCommitMsg(diff)] *)
Definition generate (d : Daemon) (diff : string) (net : ai.HTTPOutcome)
    : M (result string) :=
  emit (Generate diff);;
  let g := ai.GenerateCommitMsg (aiProvider d) diff net in
  match ai.sent g with
  | Some req => emit (HTTPPost req);; mret (ai.answer g)
  | None => mret (ai.answer g)
  end.

(** [if d.ticker != nil { d.ticker.Stop() }] *)
Definition stopTicker (d : Daemon) : M Daemon :=
  match ticker d with
  | Some t =>
      emit TickerStop;;
      mret (setTicker (Some {| period := period t; stopped := true |}) d)
  | None => mret d
  end.

Definition checkAndCommit (e : CycleEnv) (d : Daemon) : M Daemon :=
  Printf d "Checking for changes...";;
  r ← git.HasChanges (gitStatus e);
  match r with
  | Err err => Printf d ("ERROR: Failed to check changes: " ++ err);; mret d
  | Ok false => Printf d "No changes detected";; mret d
  | Ok true =>
      Printf d "Changes detected, generating commit message...";;
      (* Get diff *)
      r ← git.GetDiff (gitDiff e);
      match r with
      | Err err => Printf d ("ERROR: Failed to get diff: " ++ err);; mret d
      | Ok diff =>
          (* Generate commit message *)
          r ← generate d diff (http e);
          match r with
          | Err err =>
              Printf d ("ERROR: Failed to generate commit message: " ++ err);;
              (* Don't change status to error, just log and retry next cycle *)
              mret d
          | Ok commitMsg =>
              Printf d ("Generated commit message: " ++ commitMsg);;
              (* Stage changes *)
              r ← git.AddAll (gitAdd e);
              match r with
              | Some err =>
                  Printf d ("ERROR: Failed to stage changes: " ++ err);; mret d
              | None =>
                  (* Commit *)
                  r ← git.Commit commitMsg (gitCommit e commitMsg);
                  match r with
                  | Some err =>
                      Printf d ("ERROR: Failed to commit: " ++ err);; mret d
                  | None =>
                      Printf d "Committed successfully";;
                      (* Push *)
                      r ← git.Push (gitPush e);
                      match r with
                      | Some err =>
                          Printf d ("ERROR: Failed to push: " ++ err);;
                          let d := setStatus StatusError d in
                          (* Notify user *)
                          notify.NotifyError (repoName d) err;;
                          (* Stop the ticker *)
                          stopTicker d
                      | None =>
                          Printf d "Pushed successfully";;
                          let d := setStatus StatusRunning d in
                          (* Notify success *)
                          notify.NotifySuccess (repoName d) commitMsg;;
                          mret d
                      end
                  end
              end
          end
      end
  end.

(** What reaches the [select] of [runLoop]: the expiry of a period of the
    ticker, together with what the collaborators will answer in the cycle
    it may start, or a value on [stopChan]. *)
Inductive Event : Type :=
| TimerExpiry (e : CycleEnv)
| StopRequest.

(** Where [runLoop] stands when the events are used up. *)
Inductive LoopState : Type :=
| Waiting (d : Daemon)     (* blocked in the select *)
| Returned (d : Daemon)    (* left through the stopChan case *)
| Crashed.                 (* nil ticker dereferenced *)

(** The [for { select { ... } }] of [runLoop]. A stopped ticker sends
    nothing on its channel, so the expiry of a period of a stopped ticker
    starts no cycle. A cycle runs to its end before the next event is
    taken: the loop is the only goroutine that runs cycles. *)
Fixpoint serve (events : list Event) (d : Daemon) : M LoopState :=
  match ticker d with
  | None => mret Crashed
  | Some t =>
      match events with
      | [] => mret (Waiting d)
      | TimerExpiry e :: rest =>
          if stopped t then serve rest d
          else d' ← checkAndCommit e d; serve rest d'
      | StopRequest :: _ =>
          d' ← stopTicker d;
          Printf d' "Daemon stopped";;
          mret (Returned d')
      end
  end.

Definition runLoop (first : CycleEnv) (events : list Event) (d : Daemon)
    : M LoopState :=
  (* Run initial check *)
  d' ← checkAndCommit first d;
  serve events d'.

(** How [Start] ends: with the loop started, without it, or in the panic
    of [time.NewTicker] on a non-positive period. *)
Inductive Started : Type :=
| Looping (d : Daemon)
| NotLooping (d : Daemon)
| Panicked.

Definition Start (chdir : error) (d : Daemon) : M Started :=
  Printf d ("Daemon started for repository: " ++ rootPath d);;
  (* Change to root directory *)
  err ← git.ChangeToRoot (rootPath d) chdir;
  match err with
  | Some err =>
      Printf d ("ERROR: Failed to change to root directory: " ++ err);;
      mret (NotLooping (setStatus StatusError d))
  | None =>
      let interval := config.GetCheckInterval (config d) in
      if interval <=? 0 then mret Panicked
      else mret (Looping (setTicker (Some {| period := interval; stopped := false |}) d))
  end.

Definition GetStatus (d : Daemon) : string := status d.

(** What the operating system answers when the daemon is spawned. *)
Record SpawnEnv : Type := {
  executable : result string;          (* os.Executable *)
  absolute : string → result string;   (* filepath.Abs *)
  started : result Z                   (* cmd.Start and cmd.Process.Pid *)
}.

(** StartDaemonProcess starts a new daemon process in the background *)
Definition StartDaemonProcess (se : SpawnEnv) (rootPath : string) : M error :=
  match executable se with
  | Err e => mret (Some ("failed to get executable path: " ++ e))
  | Ok execPath =>
      match absolute se execPath with
      | Err e => mret (Some ("failed to resolve executable path: " ++ e))
      | Ok absExecPath =>
          emit (StartProcess [absExecPath; "start-daemon"; rootPath]);;
          match started se with
          | Err e => mret (Some ("failed to start daemon: " ++ e))
          | Ok pid =>
              let daemonInfo := {| config.PID := pid;
                                   config.RepoPath := rootPath;
                                   config.Status := StatusRunning |} in
              err ← onDisk (config.SaveDaemonInfo daemonInfo);
              match err with
              | Some e => mret (Some ("failed to save daemon info: " ++ e))
              | None => mret None
              end
          end
      end
  end.

End daemon.

(** ** The commands of cmd/autogit *)

Module main.

Import rt.

Definition CHECKMARK : string :=
  String (ascii_of_nat 226) (String (ascii_of_nat 156)
    (String (ascii_of_nat 147) EmptyString)).

Definition FindProcess (pid : Z) : M error :=
  ask (λ w, findProcessErr w pid).

(** [process.Signal(sig)] *)
Definition Signal (pid : Z) (sig : rt.Signal) : M error :=
  match sig with
  | Signal0 => ask (λ w, signalErr w pid Signal0)
  | SIGTERM =>
      emit (SignalSent pid SIGTERM);;
      ask (λ w, signalErr w pid SIGTERM)
  end.

Definition isProcessRunning (pid : Z) : M bool :=
  err ← FindProcess pid;
  match err with
  | Some _ => mret false
  | None =>
      (* On Unix, sending signal 0 checks if process exists *)
      err ← Signal pid Signal0;
      mret (bool_decide (err = None))
  end.

Definition Println (line : string) : M unit := emit (Stdout (line ++ LF)).

Definition statusCmd : M error :=
  r ← readDisk config.LoadDaemonInfo;
  match r with
  | Err _ | Ok None => Println "Status: Not running";; mret None
  | Ok (Some daemonInfo) =>
      running ← isProcessRunning (config.PID daemonInfo);
      if negb running
      then Println "Status: Process not found (may have crashed)";; mret None
      else
        Println ("Status: " ++ config.Status daemonInfo);;
        Println ("PID: " ++ Itoa (config.PID daemonInfo));;
        Println ("Repository: " ++ config.RepoPath daemonInfo);;
        mret None
  end.

Definition pauseCmd : M error :=
  r ← readDisk config.LoadDaemonInfo;
  match r with
  | Err _ | Ok None => mret (Some "no daemon is running")
  | Ok (Some daemonInfo) =>
      (* Check if process is running *)
      running ← isProcessRunning (config.PID daemonInfo);
      if negb running
      then
        onDisk config.DeleteDaemonInfo;;
        mret (Some "daemon process not found (may have crashed)")
      else
        (* Kill the process *)
        err ← FindProcess (config.PID daemonInfo);
        match err with
        | Some e => mret (Some ("failed to find process: " ++ e))
        | None =>
            err ← Signal (config.PID daemonInfo) SIGTERM;
            match err with
            | Some e => mret (Some ("failed to stop daemon: " ++ e))
            | None =>
                (* Clean up daemon info *)
                onDisk config.DeleteDaemonInfo;;
                Println (CHECKMARK ++ " Daemon stopped successfully");;
                mret None
            end
        end
  end.

End main.

(** ** The working tree, as the two git queries show it

    [git status --porcelain] prints one line per path that differs from
    the last commit, untracked files included; [git diff] prints the
    changes of tracked files that are not staged, and nothing for an
    untracked file or for a change that is already staged. *)

Module worktree.

Inductive Change : Type :=
| Unstaged    (* a tracked file modified in the working tree *)
| Staged      (* a modification already added to the index *)
| Untracked.  (* a file git does not track yet *)

Record Entry : Type := {
  path : string;
  change : Change;
  patch : string   (* the hunks of the change *)
}.

Definition code (c : Change) : string :=
  match c with
  | Unstaged => " M"
  | Staged => "M "
  | Untracked => "??"
  end.

Definition statusLine (e : Entry) : string :=
  code (change e) ++ " " ++ path e ++ LF.

Definition statusPorcelain (wt : list Entry) : string :=
  String.concat "" (statusLine <$> wt).

Definition diffOf (e : Entry) : string :=
  match change e with
  | Unstaged =>
      "diff --git a/" ++ path e ++ " b/" ++ path e ++ LF ++ patch e
  | Staged | Untracked => ""
  end.

Definition diffOutput (wt : list Entry) : string :=
  String.concat "" (diffOf <$> wt).

(** A cycle over the working tree [wt]: both queries succeed. *)
Definition cycle (wt : list Entry) (net : ai.HTTPOutcome)
    (add : error) (commit : string → error) (push : error) : daemon.CycleEnv :=
  {| daemon.gitStatus := Ok (statusPorcelain wt);
     daemon.gitDiff := Ok (diffOutput wt);
     daemon.http := net;
     daemon.gitAdd := add;
     daemon.gitCommit := commit;
     daemon.gitPush := push |}.

End worktree.

(** ** Sample values *)

Module sample.

Definition cfg : config.Config :=
  {| config.AIProvider := "gemini";
     config.APIKey := "AIzaSyA-0123456789abcdef";
     config.BaseURL := "";
     config.CheckIntervalMinutes := 5;
     config.RootPath := "/home/dev/site" |}.

(** A reader of decimal numerals, to stand for [strconv.ParseInt]. *)
Definition parseDecimal (s : string) : option Z :=
  Z.of_int <$> NilZero.int_of_string s.

Definition emptyDisk : config.Disk :=
  {| config.files := ∅; config.readonly := false |}.

(** A world where no process is alive. *)
Definition quiet : rt.World :=
  {| rt.disk := emptyDisk;
     rt.findProcessErr := λ _, None;
     rt.signalErr := λ _ _, Some "os: process already finished";
     rt.trace := [] |}.

(** The same world with process 4242 alive. *)
Definition alive : rt.World :=
  {| rt.disk := emptyDisk;
     rt.findProcessErr := λ _, None;
     rt.signalErr := λ pid _, if pid =? 4242 then None
                              else Some "os: process already finished";
     rt.trace := [] |}.

(** [w] once every process has died, its files left as they are. *)
Definition crashed (w : rt.World) : rt.World :=
  {| rt.disk := rt.disk w;
     rt.findProcessErr := λ _, None;
     rt.signalErr := λ _ _, Some "os: process already finished";
     rt.trace := [] |}.

Definition spawn : daemon.SpawnEnv :=
  {| daemon.executable := Ok "/usr/local/bin/autogit";
     daemon.absolute := λ p, Ok p;
     daemon.started := Ok 4242 |}.

Definition running : daemon.Daemon :=
  {| daemon.config := cfg;
     daemon.aiProvider := ai.GeminiProvider (config.APIKey cfg);
     daemon.ticker := Some {| daemon.period := config.GetCheckInterval cfg;
                              daemon.stopped := false |};
     daemon.status := daemon.StatusRunning;
     daemon.rootPath := "/home/dev/site";
     daemon.repoName := "site";
     daemon.logFile := "logs/site.log" |}.

Definition reply (text : string) : ai.HTTPOutcome :=
  ai.Response 200
    {| ai.raw := text;
       ai.asGemini :=
         Some {| ai.Candidates :=
                   [ {| ai.CandidateContent :=
                          {| ai.Parts := [ {| ai.PartText := text |} ] |} |} ] |};
       ai.asOpenAI := None;
       ai.asAnthropic := None |}.

Definition modified : list worktree.Entry :=
  [ {| worktree.path := "index.html";
       worktree.change := worktree.Unstaged;
       worktree.patch := "@@ -1 +1 @@" ++ LF ++ "-old" ++ LF ++ "+new" ++ LF |} ].

Definition untracked : list worktree.Entry :=
  [ {| worktree.path := "new.txt";
       worktree.change := worktree.Untracked;
       worktree.patch := "" |} ].



(** One modified file, every step succeeds but the push. *)
Definition pushFails : daemon.CycleEnv :=
  worktree.cycle modified (reply "fix: update index") None (λ _, None)
    (Some "exit status 1").

(** One modified file, every step succeeds. *)
Definition allGood : daemon.CycleEnv :=
  worktree.cycle modified (reply "fix: update index") None (λ _, None) None.

(** A clean working tree. *)
Definition clean : daemon.CycleEnv :=
  worktree.cycle [] (reply "") None (λ _, None) None.

(** One modified file, the backend is unreachable. *)
Definition offline : daemon.CycleEnv :=
  worktree.cycle modified (ai.TransportError "dial tcp: i/o timeout")
    None (λ _, None) None.

End sample.

(** ** Observations

    The vocabulary of the statements below: what a run added to the
    trace and to the log, and the states they name. *)

Module obs.

Import rt daemon.

(** A configuration with a check interval of [n] minutes. *)
Definition withInterval (n : Z) : config.Config :=
  {| config.AIProvider := "gemini"; config.APIKey := ""; config.BaseURL := "";
     config.CheckIntervalMinutes := n; config.RootPath := "" |}.

(** The greatest number of minutes that fits a [time.Duration]. *)
Definition MaxMinutes : Z := 153722867.

(** The world after some effects and some lines of the log of [d]. *)
Definition after (d : Daemon) (effects : list Effect) (lines : list string)
    (w : World) : World :=
  withTrace (trace w ++ effects)
    (withDisk (foldl (λ dk line, appendLine (logFile d) line dk) (disk w) lines) w).

(** The effects of a run from [w] to [w']. *)
Definition since (w w' : World) : list Effect :=
  drop (length (trace w)) (trace w').

(** The diffs passed to [GenerateCommitMsg], in order. *)
Definition generations (effects : list Effect) : list string :=
  omap (λ ef, match ef with Generate diff => Some diff | _ => None end) effects.

(** The call of [doRequest] a generation makes, if it gets that far. *)
Definition attempt (d : Daemon) (diff : string) (net : ai.HTTPOutcome)
    : list Effect :=
  match ai.sent (ai.GenerateCommitMsg (aiProvider d) diff net) with
  | Some req => [HTTPPost req]
  | None => []
  end.

(** The daemon after a failed push: status [error], ticker stopped. *)
Definition paused (t : Ticker) (d : Daemon) : Daemon :=
  setTicker (Some {| period := period t; stopped := true |})
    (setStatus StatusError d).

(** [dk'] is [dk] with more lines in the text file [p], and nothing else
    changed. *)
Inductive extends (p : string) (dk : config.Disk) : config.Disk → Prop :=
| extends_refl : extends p dk dk
| extends_line (dk' : config.Disk) (line : string) :
    extends p dk dk' → extends p dk (appendLine p line dk').

(** Whether the process [pid] is found alive by [isProcessRunning]. *)
Definition live (w : World) (pid : Z) : bool :=
  eval (main.isProcessRunning pid) w.

End obs.

(** Unfolds one cycle into its steps on the world. *)
Ltac run :=
  unfold daemon.checkAndCommit, daemon.generate, daemon.stopTicker,
    daemon.Printf, git.HasChanges, git.GetDiff, git.AddAll, git.Commit,
    git.Push, notify.NotifyError, notify.NotifySuccess, notify.Notify,
    rt.emit, mbind, rt.M_bind, mret, rt.M_ret, obs.after, rt.withTrace,
    rt.withDisk in *;
  simpl.

(** Unfolds a control command into its steps on the world. *)
Ltac step :=
  unfold obs.live, rt.eval, rt.exec, obs.since in *;
  unfold main.statusCmd, main.pauseCmd, main.isProcessRunning,
    main.FindProcess, main.Signal, main.Println, rt.readDisk, rt.onDisk,
    rt.ask, rt.emit, mbind, rt.M_bind, mret, rt.M_ret in *;
  simpl in *.

(** ** Package ai, validate.go: the shape of an API key *)

Module validate.

Import ai.

(** [strings.HasPrefix]. *)
Definition HasPrefix (s prefix : string) : bool := String.prefix prefix s.

(** The provider-specific check of the [switch]. *)
Definition keyShape (provider apiKey : string) : error :=
  let p := ToLower provider in
  if decide (p = "gemini") then
    if len apiKey <? 20
    then Some "Gemini API key appears to be invalid (too short)"
    else None
  else if decide (p = "openai" ∨ p = "openrouter") then
    if negb (HasPrefix apiKey "sk-") && negb (HasPrefix apiKey "sk_")
    then Some "OpenAI/OpenRouter API key should start with 'sk-' or 'sk_'"
    else None
  else if decide (p = "anthropic" ∨ p = "claude") then
    if negb (HasPrefix apiKey "sk-ant-")
    then Some "Anthropic API key should start with 'sk-ant-'"
    else None
  else Some ("unknown AI provider: " ++ provider).

Definition ValidateAPIKey (provider apiKey baseURL : string) : error :=
  if decide (apiKey = "") then Some "API key is required"
  else
    (* Basic validation - check if key is not empty *)
    if decide (TrimSpace apiKey = "") then Some "API key cannot be empty"
    else
      (* Provider-specific basic validation *)
      match keyShape provider apiKey with
      | Some e => Some e
      | None =>
          (* Try to create provider to check for basic errors *)
          match NewProvider provider apiKey baseURL with
          | Err e => Some ("failed to create provider: " ++ e)
          | Ok _ => None
          end
      end.

End validate.

(** ** cmd/autogit: the init command, and git.GetRootPath *)

Module cli.

Import rt.

(** GetRootPath finds the Git root directory using git rev-parse
    --show-toplevel. [revparse] is what the subprocess yields and [abs]
    what [filepath.Abs] answers. *)
Definition GetRootPath (revparse : result string)
    (abs : string → result string) : M (result string) :=
  emit (GitExec ["rev-parse"; "--show-toplevel"]);;
  match revparse with
  | Err err => mret (Err ("not a git repository or git not found: " ++ err))
  | Ok output =>
      let rootPath := TrimSpace output in
      (* Convert to absolute path *)
      match abs rootPath with
      | Err _ => mret (Ok rootPath) (* Return original if abs fails *)
      | Ok absPath => mret (Ok absPath)
      end
  end.

(** [fmt.Printf] *)
Definition Printf (text : string) : M unit := emit (Stdout text).

(** [cfg.RootPath = rootPath] *)
Definition setRootPath (rootPath : string) (cfg : config.Config) : config.Config :=
  {| config.AIProvider := config.AIProvider cfg;
     config.APIKey := config.APIKey cfg;
     config.BaseURL := config.BaseURL cfg;
     config.CheckIntervalMinutes := config.CheckIntervalMinutes cfg;
     config.RootPath := rootPath |}.

(** [daemonInfo, _ := config.LoadDaemonInfo()]: the error is dropped. *)
Definition loadedDescriptor (dk : config.Disk) : option config.DaemonInfo :=
  match config.LoadDaemonInfo dk with
  | Ok info => info
  | Err _ => None
  end.

(** The check "daemon already exists for this repo" of [initCmd]. *)
Definition alreadyRunning (rootPath : string) : M (option Z) :=
  daemonInfo ← readDisk loadedDescriptor;
  match daemonInfo with
  | Some info =>
      if decide (config.RepoPath info = rootPath) then
        (* Check if process is still running *)
        running ← main.isProcessRunning (config.PID info);
        mret (if running : bool then Some (config.PID info) else None)
      else mret None
  | None => mret None
  end.

(** The [RunE] of [initCmd]. [ParseInt] is the numeral reader of viper,
    [environ] the environment of the process, [revparse] and [abs] the
    answers to [GetRootPath], [se] the answers to the spawn. *)
Definition initCmd (ParseInt : string → option Z) (environ : gmap string string)
    (revparse : result string) (abs : string → result string)
    (se : daemon.SpawnEnv) : M error :=
  (* Detect Git root *)
  r ← GetRootPath revparse abs;
  match r with
  | Err e => mret (Some ("failed to detect Git root: " ++ e))
  | Ok rootPath =>
      Printf ("Detected Git root: " ++ rootPath ++ LF);;
      (* Check if daemon already exists for this repo *)
      live ← alreadyRunning rootPath;
      match live with
      | Some pid =>
          mret (Some ("daemon is already running for this repository (PID: "
                      ++ Itoa pid ++ ")"))
      | None =>
          (* Load config *)
          r ← onDisk (config.LoadConfig ParseInt environ);
          match r with
          | Err e => mret (Some ("failed to load config: " ++ e))
          | Ok cfg =>
              (* Validate API key before starting daemon *)
              match validate.ValidateAPIKey (config.AIProvider cfg)
                      (config.APIKey cfg) (config.BaseURL cfg) with
              | Some e =>
                  mret (Some ("API key validation failed: " ++ e ++ LF
                              ++ "Please configure your API key using 'autogit --menu'"))
              | None =>
                  Printf (main.CHECKMARK ++ " API key validated successfully" ++ LF);;
                  (* Update root path in config *)
                  let cfg := setRootPath rootPath cfg in
                  err ← onDisk (config.SaveConfig cfg);
                  match err with
                  | Some e => mret (Some ("failed to save config: " ++ e))
                  | None =>
                      (* Start daemon process *)
                      err ← daemon.StartDaemonProcess se rootPath;
                      match err with
                      | Some e => mret (Some ("failed to start daemon: " ++ e))
                      | None =>
                          Printf (main.CHECKMARK ++ " Daemon started successfully" ++ LF);;
                          Printf ("Repository: " ++ rootPath ++ LF);;
                          Printf ("Use 'autogit --menu' to view the dashboard" ++ LF);;
                          mret None
                      end
                  end
              end
          end
      end
  end.

End cli.

(** ** Package tui: what the dashboard and the settings compute *)

Module tui.

Import rt.

Definition BULLET : string :=
  String (ascii_of_nat 226) (String (ascii_of_nat 151)
    (String (ascii_of_nat 143) EmptyString)).

(** The status line of [updateDashboard]. *)
Definition statusLabel (daemonInfo : option config.DaemonInfo) : string :=
  match daemonInfo with
  | None => BULLET ++ " Stopped"
  | Some info =>
      if decide (config.Status info = daemon.StatusRunning)
      then BULLET ++ " Running"
      else BULLET ++ " Error"
  end.

(** [daemonInfo, _ := config.LoadDaemonInfo()] and the status line. *)
Definition dashboardStatus (dk : config.Disk) : string :=
  statusLabel (cli.loadedDescriptor dk).

(** [s[n:]] for [0 <= n <= len(s)]. *)
Definition sliceFrom (s : string) (n : Z) : string :=
  String.substring (Z.to_nat n) (String.length s - Z.to_nat n) s.

(** The API key as [updateSettingsList] shows it. *)
Definition apiKeyDisplay (apiKey : string) : string :=
  if decide (apiKey = "") then "Not set"
  else
    (* Mask API key for display *)
    if 8 <? len apiKey
    then sliceTo apiKey 4 ++ "..." ++ sliceFrom apiKey (len apiKey - 4)
    else "***".

(** The provider after the selected one, as the "AI Provider" entry of
    the settings cycles through them. *)
Definition providers : list string :=
  ["gemini"; "openai"; "openrouter"; "anthropic"].

Fixpoint indexOf (p : string) (l : list string) (i : Z) : Z :=
  match l with
  | [] => -1
  | q :: l' => if decide (q = p) then i else indexOf p l' (i + 1)
  end.

Definition nextProvider (selected : string) : string :=
  let currentIdx := indexOf selected providers 0 in
  let nextIdx := (currentIdx + 1) mod (Z.of_nat (length providers)) in
  default "" (providers !! Z.to_nat nextIdx).

(** The text inputs of the settings tab. *)
Record Settings : Type := {
  selectedProvider : string;
  apiKeyInput : string;
  baseURLInput : string;
  intervalInput : string
}.

(** [m.config] with the three text fields of the settings. *)
Definition withInputs (st : Settings) (cfg : config.Config) : config.Config :=
  {| config.AIProvider := selectedProvider st;
     config.APIKey := apiKeyInput st;
     config.BaseURL := baseURLInput st;
     config.CheckIntervalMinutes := config.CheckIntervalMinutes cfg;
     config.RootPath := config.RootPath cfg |}.

Definition withCheckInterval (n : Z) (cfg : config.Config) : config.Config :=
  {| config.AIProvider := config.AIProvider cfg;
     config.APIKey := config.APIKey cfg;
     config.BaseURL := config.BaseURL cfg;
     config.CheckIntervalMinutes := n;
     config.RootPath := config.RootPath cfg |}.

(** The "Save" entry of [updateSettings]: the configuration held by the
    model afterwards and the message shown. [Sscan] stands for
    [fmt.Sscanf(s, "%d", &interval)], [None] when it reports an error. *)
Definition saveSettings (Sscan : string → option Z) (st : Settings)
    (cfg : config.Config) : M (config.Config * string) :=
  (* Validate and save settings *)
  let cfg := withInputs st cfg in
  (* Parse interval *)
  match Sscan (intervalInput st) with
  | None => mret (cfg, "Error: Check interval must be a positive number")
  | Some interval =>
      if interval <=? 0
      then mret (cfg, "Error: Check interval must be a positive number")
      else
        let cfg := withCheckInterval interval cfg in
        (* Validate API key *)
        match validate.ValidateAPIKey (config.AIProvider cfg)
                (config.APIKey cfg) (config.BaseURL cfg) with
        | Some e => mret (cfg, "Error: " ++ e)
        | None =>
            (* Save config *)
            err ← onDisk (config.SaveConfig cfg);
            match err with
            | Some e => mret (cfg, "Error saving config: " ++ e)
            | None => mret (cfg, main.CHECKMARK ++ " Settings saved successfully!")
            end
        end
  end.

End tui.

(** ** More observations *)

Module obs2.

Import rt daemon.

(** The configuration [LoadConfig] creates when there is no file. *)
Definition firstConfig : config.Config :=
  {| config.AIProvider := "gemini"; config.APIKey := ""; config.BaseURL := "";
     config.CheckIntervalMinutes := 10; config.RootPath := "" |}.

(** The provider names [NewProvider] knows, in lower case. *)
Definition knownProvider (p : string) : Prop :=
  p = "gemini" ∨ p = "openai" ∨ p = "openrouter" ∨ p = "anthropic" ∨ p = "claude".

(** The first and the last byte of a string. *)
Definition firstByte (s : string) : option ascii :=
  match s with
  | EmptyString => None
  | String c _ => Some c
  end.

Fixpoint lastByte (s : string) : option ascii :=
  match s with
  | EmptyString => None
  | String c EmptyString => Some c
  | String _ t => lastByte t
  end.

(** One of the three quote characters [GenerateCommitMsg] strips. *)
Definition isQuote (c : ascii) : bool := inCutset ai.quotes c.

(** The git commands among some effects, in order. *)
Definition gitCommands (effects : list Effect) : list (list string) :=
  omap (λ ef, match ef with GitExec args => Some args | _ => None end) effects.

(** The notifications among some effects, in order. *)
Definition notifications (effects : list Effect) : list (string * string) :=
  omap (λ ef, match ef with Notify t m => Some (t, m) | _ => None end) effects.

(** Whether a git command is [git status --porcelain], [git push]. *)
Definition isStatus (args : list string) : bool :=
  match args with
  | [a; b] => String.eqb a "status" && String.eqb b "--porcelain"
  | _ => false
  end.

Definition isPush (args : list string) : bool :=
  match args with
  | [a] => String.eqb a "push"
  | _ => false
  end.

(** The number of cycles begun: each begins with [git status]. *)
Definition cycles (effects : list Effect) : nat :=
  length (List.filter isStatus (gitCommands effects)).

(** Whether a push was attempted. *)
Definition pushed (effects : list Effect) : bool :=
  existsb isPush (gitCommands effects).

(** The daemon is in one of the two states its loop keeps it in: at
    work, or stopped by an error. *)
Definition settled (d : Daemon) : Prop :=
  (status d = StatusRunning ∧ ∃ t, ticker d = Some t ∧ stopped t = false)
  ∨ (status d = StatusError ∧ ∃ t, ticker d = Some t ∧ stopped t = true).

(** The number of expiries among some events. *)
Definition expiries (events : list Event) : nat :=
  length (omap (λ ev, match ev with TimerExpiry e => Some e | StopRequest => None end)
            events).

(** The five git commands of a complete cycle. *)
Definition fullCycle (msg : string) : list (list string) :=
  [["status"; "--porcelain"]; ["diff"]; ["add"; "."]; ["commit"; "-m"; msg];
   ["push"]].

(** The ticker of [d] is there and has been stopped. *)
Definition tickerStopped (d : Daemon) : Prop :=
  ∃ t, ticker d = Some t ∧ stopped t = true.

(** The ticker of [d] is there and runs. *)
Definition tickerRuns (d : Daemon) : Prop :=
  ∃ t, ticker d = Some t ∧ stopped t = false.

(** What the program does to the configuration directory, one operation
    at a time: the commands of the command line, the settings of the
    dashboard, the spawn, and the making, the start, the cycles and the
    stop of a daemon (whose log is under [logs/]). *)
Inductive step (ParseInt : string → option Z) : World → World → Prop :=
| step_status (w : World) :
    step ParseInt w (exec main.statusCmd w)
| step_pause (w : World) :
    step ParseInt w (exec main.pauseCmd w)
| step_init (environ : gmap string string) (revparse : result string)
    (abs : string → result string) (se : SpawnEnv) (w : World) :
    step ParseInt w (exec (cli.initCmd ParseInt environ revparse abs se) w)
| step_settings (Sscan : string → option Z) (st : tui.Settings)
    (cfg : config.Config) (w : World) :
    step ParseInt w (exec (tui.saveSettings Sscan st cfg) w)
| step_load (environ : gmap string string) (w : World) :
    (* start-daemon and the dashboard: config.LoadConfig() *)
    step ParseInt w (exec (onDisk (config.LoadConfig ParseInt environ)) w)
| step_new (cfg : config.Config) (rootPath : string) (mkdir open : error)
    (w : World) :
    step ParseInt w (exec (NewDaemon cfg rootPath mkdir open) w)
| step_start (chdir : error) (d : Daemon) (name : string) (w : World) :
    logFile d = ("logs/" ++ name)%string →
    step ParseInt w (exec (Start chdir d) w)
| step_cycle (e : CycleEnv) (d : Daemon) (name : string) (w : World) :
    logFile d = ("logs/" ++ name)%string →
    step ParseInt w (exec (checkAndCommit e d) w)
| step_stop (d : Daemon) (name : string) (w : World) :
    logFile d = ("logs/" ++ name)%string →
    step ParseInt w (exec (serve [StopRequest] d) w)
| step_exit (w : World) :
    (* the daemon, on its way out: config.DeleteDaemonInfo() *)
    step ParseInt w (exec (onDisk config.DeleteDaemonInfo) w).

(** The worlds the program reaches from [w0]. *)
Inductive reaches (ParseInt : string → option Z) (w0 : World) : World → Prop :=
| reaches_refl : reaches ParseInt w0 w0
| reaches_step (w w' : World) :
    reaches ParseInt w0 w → step ParseInt w w' → reaches ParseInt w0 w'.

(** Every descriptor that loads says [running]. *)
Definition descriptorsRunning (dk : config.Disk) : Prop :=
  ∀ info, config.LoadDaemonInfo dk = Ok (Some info) →
          config.Status info = StatusRunning.

(** What an operation may do to the descriptor file: leave it, remove
    it, or write a descriptor with status [running]. *)
Definition touched (dk dk' : config.Disk) : Prop :=
  config.files dk' !! config.DaemonFileName = config.files dk !! config.DaemonFileName
  ∨ config.files dk' !! config.DaemonFileName = None
  ∨ ∃ pid root,
      config.files dk' !! config.DaemonFileName
      = Some (config.Doc (config.marshalDaemonInfo
                {| config.PID := pid; config.RepoPath := root;
                   config.Status := StatusRunning |})).

End obs2.

(** ** More sample values *)

Module scenario.

(** A configured directory whose descriptor records the daemon 4242 of
    another repository. *)
Definition configured : config.Disk :=
  fst (config.SaveDaemonInfo
         {| config.PID := 4242; config.RepoPath := "/home/dev/other";
            config.Status := daemon.StatusRunning |}
         (fst (config.SaveConfig sample.cfg sample.emptyDisk))).

(** That directory, with process 4242 alive. *)
Definition busy : rt.World :=
  {| rt.disk := configured;
     rt.findProcessErr := λ _, None;
     rt.signalErr := λ pid _, if pid =? 4242 then None
                              else Some "os: process already finished";
     rt.trace := [] |}.

Definition spawn : daemon.SpawnEnv :=
  {| daemon.executable := Ok "/usr/local/bin/autogit";
     daemon.absolute := λ p, Ok p;
     daemon.started := Ok 5151 |}.

(** What [git rev-parse --show-toplevel] prints in /home/dev/site. *)
Definition toplevel : result string := Ok ("/home/dev/site" ++ LF).

Definition keyInEnvironment : gmap string string :=
  {[ "AUTOGIT_API_KEY" := "AIzaSyA-0123456789abcdef" ]}.

End scenario.

(** * Properties *)

(** ** Go values *)

Section GoFacts.

Lemma wrap64_in_range (z : Z) :
  - 2 ^ 63 <= z < 2 ^ 63 → wrap64 z = z.
Proof.
  intros Hz. unfold wrap64.
  rewrite Z.mod_small; lia.
Qed.

Lemma float64OfInt_exact (n : Z) :
  - 2 ^ 53 <= n <= 2 ^ 53 → float64OfInt n = n.
Proof.
  intros Hn. unfold float64OfInt.
  destruct (Z.eq_dec (Z.abs n) (2 ^ 53)) as [Heq | Hne].
  - assert (n = 2 ^ 53 ∨ n = - 2 ^ 53) as [-> | ->] by lia; reflexivity.
  - assert (Z.log2 (Z.abs n) < 53) as Hlog.
    { destruct (Z.eq_dec (Z.abs n) 0) as [H0 | H0].
      - rewrite H0. reflexivity.
      - apply Z.log2_lt_pow2; lia. }
    destruct (Z.leb_spec (Z.log2 (Z.abs n) - 52) 0); [reflexivity | lia].
Qed.

Lemma intOfFloat64_in_range (f : Z) :
  - 2 ^ 63 <= f < 2 ^ 63 → intOfFloat64 f = f.
Proof.
  intros Hf. unfold intOfFloat64, inInt64.
  destruct (Z.leb_spec (- 2 ^ 63) f); [| lia].
  destruct (Z.ltb_spec f (2 ^ 63)); [reflexivity | lia].
Qed.

Lemma length_substring_0 (s : string) (n : nat) :
  (n ≤ String.length s)%nat → String.length (String.substring 0 n s) = n.
Proof.
  revert n. induction s as [| c s IH]; intros [| n] Hn; simpl in *;
    try reflexivity; try lia.
  f_equal. apply IH. lia.
Qed.

Lemma substring_0_prefix (s : string) (n : nat) :
  ∃ rest, s = (String.substring 0 n s ++ rest)%string.
Proof.
  revert n. induction s as [| c s IH]; intros [| n]; simpl.
  - by exists "".
  - by exists "".
  - by exists (String c s).
  - destruct (IH n) as [rest Hrest]. exists rest.
    change (String c s = String c (String.substring 0 n s ++ rest)%string).
    by f_equal.
Qed.

(** [s[:n]] has [n] bytes and is a prefix of [s]. *)
Lemma sliceTo_spec (s : string) (n : Z) :
  0 <= n <= len s →
  len (sliceTo s n) = n ∧ ∃ rest, s = (sliceTo s n ++ rest)%string.
Proof.
  intros Hn. unfold len, sliceTo in *. split.
  - rewrite length_substring_0; lia.
  - apply substring_0_prefix.
Qed.

End GoFacts.

(** ** The poll interval *)

Section Interval.

Import config obs.

Lemma GetCheckInterval_nonpositive (c : Config) :
  CheckIntervalMinutes c <= 0 →
  GetCheckInterval c = DefaultCheckInterval ∧ DefaultCheckInterval = 600000000000.
Proof.
  intros Hn. unfold GetCheckInterval.
  destruct (Z.leb_spec (CheckIntervalMinutes c) 0); [done | lia].
Qed.

Lemma GetCheckInterval_minutes (c : Config) :
  0 < CheckIntervalMinutes c <= MaxMinutes →
  GetCheckInterval c = CheckIntervalMinutes c * Minute ∧ 0 < GetCheckInterval c.
Proof.
  intros Hn. unfold GetCheckInterval, MaxMinutes, Minute in *.
  destruct (Z.leb_spec (CheckIntervalMinutes c) 0); [lia |].
  rewrite wrap64_in_range; lia.
Qed.

(** A file without the member falls back on the default of viper, 10
    minutes, which is the default interval of the loop. *)
Lemma missing_interval_defaults (ParseInt : string → option Z)
    (env : gmap string string) (dk : Disk) (o : gmap string JVal) (c : Config) :
  files dk !! ConfigFileName = Some (Doc o) →
  o !! "check_interval_minutes" = None →
  getEnv env "AUTOGIT_CHECK_INTERVAL_MINUTES" = None →
  snd (LoadConfig ParseInt env dk) = Ok c →
  CheckIntervalMinutes c = 10 ∧ GetCheckInterval c = DefaultCheckInterval.
Proof.
  intros Hfile Hkey Henv. unfold LoadConfig. rewrite Hfile.
  destruct (ReadInConfig o) as [cfg |] eqn:Hread; [| discriminate].
  assert (cfg !! "check_interval_minutes" = None) as Hcfg.
  { unfold ReadInConfig in Hread. destruct (decide _); [| discriminate].
    injection Hread as <-. by rewrite lookup_fmap, Hkey. }
  unfold Unmarshal, AllSettings at 1, find.
  rewrite decide_True.
  2:{ apply elem_of_union_r, elem_of_dom. by eexists. }
  change (envKey "check_interval_minutes") with "AUTOGIT_CHECK_INTERVAL_MINUTES".
  rewrite Henv, Hcfg. simpl. intros [= <-]. done.
Qed.

(** C4, where the code departs from the specification: a check interval of
    153722868 minutes is positive, yet the product with [time.Minute]
    wraps around, the effective interval is negative instead of
    153722868 minutes, and [Start] ends in the panic of [time.NewTicker]
    before any cycle. Up to 153722867 minutes the interval is as specified
    ([GetCheckInterval_minutes], [GetCheckInterval_nonpositive]). *)
Theorem C4_interval_overflow :
  let c := withInterval (MaxMinutes + 1) in
  0 < CheckIntervalMinutes c ∧
  GetCheckInterval c = -9223371993709551616 ∧
  GetCheckInterval c ≠ CheckIntervalMinutes c * Minute ∧
  GetCheckInterval (withInterval (2 ^ 53)) = 0 ∧
  ∀ d w, daemon.config d = c →
    fst (daemon.Start None d w) = daemon.Panicked.
Proof.
  intros c.
  split; [reflexivity |].
  split; [reflexivity |].
  split; [vm_compute; discriminate |].
  split; [reflexivity |].
  intros d w Hc. unfold daemon.Start, mbind, rt.M_bind, mret, rt.M_ret.
  destruct (daemon.Printf d _ w) as [[] w1].
  destruct (git.ChangeToRoot _ None w1) as [r w2] eqn:Hcd.
  unfold git.ChangeToRoot, rt.emit, mbind, rt.M_bind, mret, rt.M_ret in Hcd.
  injection Hcd as <- <-.
  rewrite Hc. reflexivity.
Qed.

(** The interval survives the configuration file: saved from the
    settings and loaded by the daemon, it makes [Start] panic. *)
Example overflow_reaches_the_daemon :
  let dk := fst (SaveConfig (withInterval (MaxMinutes + 1)) sample.emptyDisk) in
  ∃ c, snd (LoadConfig sample.parseDecimal ∅ dk) = Ok c
       ∧ CheckIntervalMinutes c = 153722868
       ∧ GetCheckInterval c < 0.
Proof.
  exists (withInterval (MaxMinutes + 1)).
  split; [vm_compute; reflexivity |]. split; reflexivity.
Qed.

End Interval.

(** ** The diff sent to the backend *)

Section Truncation.

Import ai.

Lemma sent_with_key (p : AIProvider) (diff : string) (net : HTTPOutcome) :
  keyOf p ≠ "" →
  ∃ req, sent (GenerateCommitMsg p diff net) = Some req ∧
         promptIn (body req) = [promptOf (truncateDiff diff)].
Proof.
  intros Hkey.
  destruct p as [k | k u | k];
    unfold GenerateCommitMsg, keyOf, GeminiProvider_GenerateCommitMsg,
      OpenAIProvider_GenerateCommitMsg, AnthropicProvider_GenerateCommitMsg in *;
    (destruct (decide (k = "")); [contradiction |]);
    eexists; (split; [reflexivity |]); reflexivity.
Qed.




End Truncation.

(** ** One cycle of the commit loop *)

Section Cycle.

Import rt daemon obs.

Lemma linesOf_appendLine (p line : string) (dk : config.Disk) :
  linesOf p (appendLine p line dk) = (linesOf p dk ++ [line])%list.
Proof.
  unfold linesOf at 1, appendLine. simpl. by rewrite lookup_insert_eq.
Qed.

Lemma linesOf_foldl (p : string) (lines : list string) (dk : config.Disk) :
  linesOf p (foldl (λ dk line, appendLine p line dk) dk lines)
  = (linesOf p dk ++ lines)%list.
Proof.
  revert dk. induction lines as [| l ls IH]; intros dk; simpl.
  - by rewrite app_nil_r.
  - rewrite IH, linesOf_appendLine. by rewrite <- app_assoc.
Qed.

Lemma log_after (d : Daemon) (effects : list Effect) (lines : list string)
    (w : World) :
  linesOf (logFile d) (disk (after d effects lines w))
  = (linesOf (logFile d) (disk w) ++ lines)%list.
Proof. unfold after. simpl. apply linesOf_foldl. Qed.

Lemma trace_after (d : Daemon) (effects : list Effect) (lines : list string)
    (w : World) :
  trace (after d effects lines w) = (trace w ++ effects)%list.
Proof. reflexivity. Qed.

(** C3: a cycle whose detect step finds no change runs
    [git status --porcelain] and nothing else -- no diff, no generation,
    no staging, no commit, no push, no notification --, writes the two
    log lines ["Checking for changes..."] and ["No changes detected"],
    and leaves the daemon as it was. *)
Theorem C3_no_changes_noop (e : CycleEnv) (d : Daemon) (w : World) :
  git.detected (gitStatus e) = Ok false →
  checkAndCommit e d w =
    (d, after d [GitExec ["status"; "--porcelain"]]
              ["Checking for changes..."; "No changes detected"] w).
Proof.
  intros Hdet. run. rewrite Hdet. reflexivity.
Qed.

Lemma C3_no_changes_noop_witness :
  checkAndCommit sample.clean sample.running sample.quiet =
    (sample.running,
     after sample.running [GitExec ["status"; "--porcelain"]]
       ["Checking for changes..."; "No changes detected"] sample.quiet).
Proof. apply C3_no_changes_noop. reflexivity. Defined.

Lemma serve_tick (e : CycleEnv) (events : list Event) (d : Daemon) (t : Ticker) :
  ticker d = Some t → stopped t = false →
  serve (TimerExpiry e :: events) d = (d' ← checkAndCommit e d; serve events d').
Proof. intros Ht Hs. simpl. by rewrite Ht, Hs. Qed.

(** C6: when the generation fails, the cycle ends after the detect, diff
    and generation steps: nothing is staged, committed or pushed, no
    message is made up, no notification is sent, the failure is logged,
    and the daemon is as before -- its status is still what it was and
    its ticker still runs, so the next expiry starts a new cycle. *)
Theorem C6_generation_failure (e : CycleEnv) (d : Daemon) (w : World)
    (diff err : string) :
  git.detected (gitStatus e) = Ok true →
  git.retrieved (gitDiff e) = Ok diff →
  ai.answer (ai.GenerateCommitMsg (aiProvider d) diff (http e)) = Err err →
  checkAndCommit e d w =
    (d, after d
          ([GitExec ["status"; "--porcelain"]; GitExec ["diff"]; Generate diff]
           ++ attempt d diff (http e))
          ["Checking for changes...";
           "Changes detected, generating commit message...";
           ("ERROR: Failed to generate commit message: " ++ err)%string] w)
  ∧ (status d = StatusRunning →
     status (fst (checkAndCommit e d w)) = StatusRunning)
  ∧ ∀ t next events, ticker d = Some t → stopped t = false →
      serve (TimerExpiry next :: events) (fst (checkAndCommit e d w))
      = (d' ← checkAndCommit next d; serve events d').
Proof.
  intros Hdet Hdiff Hgen.
  assert (checkAndCommit e d w =
    (d, after d
          ([GitExec ["status"; "--porcelain"]; GitExec ["diff"]; Generate diff]
           ++ attempt d diff (http e))
          ["Checking for changes...";
           "Changes detected, generating commit message...";
           ("ERROR: Failed to generate commit message: " ++ err)%string] w))
    as Hrun.
  { unfold attempt. run. rewrite Hdet. simpl. rewrite Hdiff. simpl.
    destruct (ai.sent _); simpl; rewrite Hgen; simpl;
      rewrite <- ?app_assoc; reflexivity. }
  rewrite Hrun. simpl. split; [reflexivity |]. split; [done |].
  intros t next events Ht Hs. by apply serve_tick with t.
Qed.

Lemma C6_generation_failure_witness :
  fst (checkAndCommit sample.offline sample.running sample.quiet)
  = sample.running
  ∧ Forall (λ ef, match ef with
                  | GitExec ["status"; "--porcelain"] | GitExec ["diff"]
                  | Generate _ | HTTPPost _ => True
                  | _ => False
                  end)
      (trace (snd (checkAndCommit sample.offline sample.running sample.quiet))).
Proof.
  destruct (C6_generation_failure sample.offline sample.running sample.quiet
              (worktree.diffOutput sample.modified)
              "request failed: dial tcp: i/o timeout") as (Hrun & _ & _).
  - reflexivity.
  - reflexivity.
  - reflexivity.
  - rewrite Hrun. split; [reflexivity |].
    simpl. repeat constructor.
Defined.

(** With its ticker stopped the loop starts no cycle, whatever expires:
    it waits, untouched, for the stop request. *)
Lemma serve_stopped (events : list Event) (d : Daemon) (t : Ticker) (w : World) :
  ticker d = Some t → stopped t = true →
  StopRequest ∉ events →
  serve events d w = (Waiting d, w).
Proof.
  intros Ht Hs. induction events as [| ev events IH]; intros Hno; simpl.
  - by rewrite Ht.
  - rewrite Ht. destruct ev as [e |].
    + rewrite Hs. apply IH. set_solver.
    + set_solver.
Qed.

Lemma serve_stopped_until_stop (events more : list Event) (d : Daemon)
    (t : Ticker) (w : World) :
  ticker d = Some t → stopped t = true →
  StopRequest ∉ events →
  serve (events ++ StopRequest :: more) d w = serve [StopRequest] d w.
Proof.
  intros Ht Hs. induction events as [| ev events IH]; intros Hno; simpl.
  - by rewrite Ht.
  - rewrite Ht. destruct ev as [e |].
    + rewrite Hs. rewrite IH by set_solver. simpl. by rewrite Ht.
    + set_solver.
Qed.

(** The cycle whose push fails, step by step. *)
Lemma checkAndCommit_push_failure (e : CycleEnv) (d : Daemon) (w : World)
    (t : Ticker) (diff msg err : string) :
  ticker d = Some t →
  git.detected (gitStatus e) = Ok true →
  git.retrieved (gitDiff e) = Ok diff →
  ai.answer (ai.GenerateCommitMsg (aiProvider d) diff (http e)) = Ok msg →
  gitAdd e = None →
  gitCommit e msg = None →
  gitPush e = Some err →
  checkAndCommit e d w =
    (paused t d,
     after d
       ([GitExec ["status"; "--porcelain"]; GitExec ["diff"]; Generate diff]
        ++ attempt d diff (http e)
        ++ [GitExec ["add"; "."]; GitExec ["commit"; "-m"; msg];
            GitExec ["push"];
            Notify ("Autogit Paused: Error in " ++ repoName d)%string
                   ("Merge Conflict or Network Error: " ++ err)%string;
            TickerStop])
       ["Checking for changes...";
        "Changes detected, generating commit message...";
        ("Generated commit message: " ++ msg)%string;
        "Committed successfully";
        ("ERROR: Failed to push: " ++ err)%string] w).
Proof.
  intros Ht Hdet Hdiff Hgen Hadd Hcommit Hpush.
  unfold paused, attempt. run. rewrite Hdet. simpl. rewrite Hdiff. simpl.
  destruct (ai.sent _); simpl; rewrite Hgen; simpl; rewrite Hadd; simpl;
    rewrite Hcommit; simpl; rewrite Hpush; simpl; rewrite Ht; simpl;
    rewrite <- ?app_assoc; reflexivity.
Qed.

(** A daemon whose first cycle fails at the push never runs a second
    one: [runLoop] waits for the stop request. *)
Lemma runLoop_paused_at_once (first : CycleEnv) (events : list Event)
    (d : Daemon) (w : World) (t : Ticker) (diff msg err : string) :
  ticker d = Some t →
  git.detected (gitStatus first) = Ok true →
  git.retrieved (gitDiff first) = Ok diff →
  ai.answer (ai.GenerateCommitMsg (aiProvider d) diff (http first)) = Ok msg →
  gitAdd first = None →
  gitCommit first msg = None →
  gitPush first = Some err →
  StopRequest ∉ events →
  runLoop first events d w
  = (Waiting (paused t d), snd (checkAndCommit first d w)).
Proof.
  intros Ht Hdet Hdiff Hgen Hadd Hcommit Hpush Hno.
  unfold runLoop, mbind, M_bind.
  rewrite (checkAndCommit_push_failure first d w t diff msg err) by done.
  by apply serve_stopped with {| period := period t; stopped := true |}.
Qed.

(** C1: a cycle whose push fails leaves the daemon with status [error]
    and a stopped ticker, after the notification "Autogit Paused: Error
    in <repository>" with the text of the error; from then on no expiry
    of the timer starts a cycle or has any effect, and the loop only
    ends, at the stop request, by returning. *)
Theorem C1_push_failure_pauses (e : CycleEnv) (d : Daemon) (w : World)
    (t : Ticker) (diff msg err : string) :
  ticker d = Some t →
  git.detected (gitStatus e) = Ok true →
  git.retrieved (gitDiff e) = Ok diff →
  ai.answer (ai.GenerateCommitMsg (aiProvider d) diff (http e)) = Ok msg →
  gitAdd e = None →
  gitCommit e msg = None →
  gitPush e = Some err →
  let w' :=
    after d
      ([GitExec ["status"; "--porcelain"]; GitExec ["diff"]; Generate diff]
       ++ attempt d diff (http e)
       ++ [GitExec ["add"; "."]; GitExec ["commit"; "-m"; msg];
           GitExec ["push"];
           Notify ("Autogit Paused: Error in " ++ repoName d)%string
                  ("Merge Conflict or Network Error: " ++ err)%string;
           TickerStop])
      ["Checking for changes...";
       "Changes detected, generating commit message...";
       ("Generated commit message: " ++ msg)%string;
       "Committed successfully";
       ("ERROR: Failed to push: " ++ err)%string] w in
  checkAndCommit e d w = (paused t d, w')
  ∧ status (paused t d) = StatusError
  ∧ ticker (paused t d) = Some {| period := period t; stopped := true |}
  ∧ (∀ events, StopRequest ∉ events →
       serve events (paused t d) w' = (Waiting (paused t d), w'))
  ∧ (∀ events more, StopRequest ∉ events →
       serve (events ++ StopRequest :: more) (paused t d) w'
       = (Returned (paused t d),
          after d [TickerStop] ["Daemon stopped"] w')).
Proof.
  intros Ht Hdet Hdiff Hgen Hadd Hcommit Hpush w'.
  split; [| split; [reflexivity | split; [reflexivity | split]]].
  - by apply checkAndCommit_push_failure.
  - intros events Hno.
    by apply serve_stopped with {| period := period t; stopped := true |}.
  - intros events more Hno.
    rewrite serve_stopped_until_stop
      with (t := {| period := period t; stopped := true |}) by done.
    reflexivity.
Qed.

Lemma C1_push_failure_pauses_witness :
  let r := checkAndCommit sample.pushFails sample.running sample.quiet in
  status (fst r) = StatusError
  ∧ Notify "Autogit Paused: Error in site"
           "Merge Conflict or Network Error: exit status 1" ∈ trace (snd r)
  ∧ serve [TimerExpiry sample.allGood; TimerExpiry sample.pushFails]
          (fst r) (snd r) = (Waiting (fst r), snd r).
Proof.
  destruct (C1_push_failure_pauses sample.pushFails sample.running sample.quiet
              {| period := 300000000000; stopped := false |}
              (worktree.diffOutput sample.modified)
              "fix: update index" "exit status 1")
    as (Hrun & Hstatus & _ & Hidle & _); try reflexivity.
  intros r. unfold r. rewrite Hrun. split; [exact Hstatus |]. split.
  - apply list_elem_of_lookup. exists 7%nat. reflexivity.
  - apply Hidle. intros Hin.
    repeat (apply elem_of_cons in Hin as [Hin | Hin]; [discriminate |]).
    by apply elem_of_nil in Hin.
Defined.

(** The sample daemon is the one [NewDaemon] and [Start] make of the
    sample configuration. *)
Example sample_daemon_started :
  ∃ d0, eval (NewDaemon sample.cfg "/home/dev/site" None None) sample.quiet = Ok d0
        ∧ eval (Start None d0) sample.quiet = Looping sample.running.
Proof. eexists. split; reflexivity. Qed.

(** *** The descriptor during a cycle *)

Lemma extends_lookup (p q : string) (dk dk' : config.Disk) :
  extends p dk dk' → q ≠ p →
  config.files dk' !! q = config.files dk !! q.
Proof.
  intros Hext Hq. induction Hext as [| dk' line _ IH]; [done |].
  simpl. by rewrite lookup_insert_ne.
Qed.

(** All a cycle does to the configuration directory is to add lines to
    the log of the daemon. *)
Lemma checkAndCommit_extends_log (e : CycleEnv) (d : Daemon) (w : World) :
  extends (logFile d) (disk w) (disk (snd (checkAndCommit e d w))).
Proof.
  run.
  destruct (git.detected _) as [[|] | ?]; simpl; [| repeat constructor ..].
  destruct (git.retrieved _) as [diff | ?]; simpl; [| repeat constructor].
  destruct (ai.sent _); simpl;
    (destruct (ai.answer _) as [msg | ?]; simpl; [| repeat constructor]);
    (destruct (gitAdd e); simpl; [repeat constructor |]);
    (destruct (gitCommit e msg); simpl; [repeat constructor |]);
    (destruct (gitPush e); simpl; [| repeat constructor]);
    (destruct (ticker d); simpl; repeat constructor).
Qed.

(** No cycle, whatever its outcome, writes the daemon descriptor: what
    [LoadDaemonInfo] reads is the same before and after. *)
Lemma checkAndCommit_keeps_descriptor (e : CycleEnv) (d : Daemon) (w : World) :
  logFile d ≠ config.DaemonFileName →
  config.LoadDaemonInfo (disk (snd (checkAndCommit e d w)))
  = config.LoadDaemonInfo (disk w).
Proof.
  intros Hlog. unfold config.LoadDaemonInfo.
  by rewrite (extends_lookup _ _ _ _ (checkAndCommit_extends_log e d w)).
Qed.

(** C2, where the code departs from the specification: the daemon 4242 is
    spawned, which writes the descriptor with status [running]; its cycle
    fails at the push and sets its own status to [error]; the descriptor
    on disk still says [running], and so does the status command of
    another process. No cycle ever writes the descriptor
    ([checkAndCommit_keeps_descriptor]). *)
Theorem C2_descriptor_not_updated :
  let w1 := exec (StartDaemonProcess sample.spawn "/home/dev/site") sample.alive in
  let r := checkAndCommit sample.pushFails sample.running w1 in
  config.LoadDaemonInfo (disk w1)
    = Ok (Some {| config.PID := 4242; config.RepoPath := "/home/dev/site";
                  config.Status := StatusRunning |})
  ∧ GetStatus sample.running = StatusRunning
  ∧ GetStatus (fst r) = StatusError
  ∧ config.LoadDaemonInfo (disk (snd r)) = config.LoadDaemonInfo (disk w1)
  ∧ since (snd r) (exec main.statusCmd (snd r))
    = [Stdout ("Status: running" ++ LF); Stdout ("PID: 4242" ++ LF);
       Stdout ("Repository: /home/dev/site" ++ LF)].
Proof. repeat split; vm_compute; reflexivity. Qed.

(** *** Detection and diff over a working tree *)

Lemma trimRight_nonempty (p : ascii → bool) (c : ascii) (s : string) :
  p c = false → trimRight p (String c s) ≠ "".
Proof.
  intros Hc. simpl. destruct (trimRight p s); [by rewrite Hc | done].
Qed.

Lemma statusPorcelain_not_blank (en : worktree.Entry) (wt : list worktree.Entry) :
  TrimSpace (worktree.statusPorcelain (en :: wt)) ≠ "".
Proof.
  unfold worktree.statusPorcelain, worktree.statusLine, TrimSpace.
  destruct en as [path [] patch]; destruct wt as [| en' wt];
    cbn -[trimRight]; apply trimRight_nonempty; reflexivity.
Qed.

(** The detect step reports changes exactly when some path differs from
    the last commit, untracked files included. *)
Lemma detected_iff_changes (wt : list worktree.Entry) :
  git.detected (Ok (worktree.statusPorcelain wt)) = Ok (bool_decide (wt ≠ [])).
Proof.
  unfold git.detected. f_equal. destruct wt as [| en wt].
  - reflexivity.
  - pose proof (statusPorcelain_not_blank en wt) as Hne.
    destruct (TrimSpace _) as [| c s]; [done |].
    unfold len. simpl String.length.
    rewrite bool_decide_eq_true_2 by done.
    apply Z.ltb_lt. lia.
Qed.

Lemma since_after (d : Daemon) (effects : list Effect) (lines : list string)
    (w : World) :
  since w (after d effects lines w) = effects.
Proof. unfold since, after. simpl. by rewrite drop_app_length. Qed.

(** A cycle that detects changes and retrieves their diff calls the
    generation exactly once, on that diff. *)
Lemma one_generation_per_cycle (e : CycleEnv) (d : Daemon) (w : World)
    (diff : string) :
  git.detected (gitStatus e) = Ok true →
  git.retrieved (gitDiff e) = Ok diff →
  generations (since w (snd (checkAndCommit e d w))) = [diff].
Proof.
  intros Hdet Hdiff. unfold since. run. rewrite Hdet. simpl. rewrite Hdiff. simpl.
  destruct (ai.sent _); simpl;
    (destruct (ai.answer _) as [msg | ?]; simpl;
      [destruct (gitAdd e); simpl;
        [| destruct (gitCommit e msg); simpl;
          [| destruct (gitPush e); simpl; [destruct (ticker d); simpl |]]] |]);
    rewrite <- ?app_assoc; rewrite drop_app_length; reflexivity.
Qed.

(** The scenario of one modified tracked file and no untracked file:
    changes are detected, the diff is not empty, and the cycle calls the
    generation once, on that diff. *)
Lemma modified_file_scenario (path patch : string) (net : ai.HTTPOutcome)
    (add push : error) (commit : string → error) (d : Daemon) (w : World) :
  let wt := [ {| worktree.path := path; worktree.change := worktree.Unstaged;
                 worktree.patch := patch |} ] in
  let e := worktree.cycle wt net add commit push in
  git.detected (gitStatus e) = Ok true
  ∧ (∃ diff, git.retrieved (gitDiff e) = Ok diff ∧ diff ≠ ""
       ∧ generations (since w (snd (checkAndCommit e d w))) = [diff]).
Proof.
  intros wt e.
  assert (git.detected (gitStatus e) = Ok true) as Hdet.
  { change (git.detected (Ok (worktree.statusPorcelain wt)) = Ok true).
    by rewrite detected_iff_changes. }
  split; [exact Hdet |].
  exists (worktree.diffOutput wt). split; [reflexivity |]. split; [done |].
  by apply one_generation_per_cycle.
Qed.

(** C7, where the code departs from the specification: the only change of
    the working tree is a new, untracked file. The detect step reports
    changes, but the diff step, which runs plain [git diff], retrieves
    the empty text; the generation is called on that empty diff, and the
    file is then staged, committed and pushed under the message made from
    it. With a modified tracked file the cycle is as specified
    ([modified_file_scenario], [detected_iff_changes]). *)
Theorem C7_untracked_file_has_empty_diff :
  let e := worktree.cycle sample.untracked (sample.reply "chore: update")
             None (λ _, None) None in
  let r := checkAndCommit e sample.running sample.quiet in
  git.detected (gitStatus e) = Ok true
  ∧ git.retrieved (gitDiff e) = Ok ""
  ∧ generations (trace (snd r)) = [""]
  ∧ GitExec ["commit"; "-m"; "chore: update"] ∈ trace (snd r).
Proof.
  repeat split; try reflexivity.
  apply list_elem_of_lookup. exists 5%nat. reflexivity.
Qed.

End Cycle.

(** ** The control commands *)

Section Control.

Import rt config main obs.

Lemma absent_descriptor (dk : Disk) :
  files dk !! DaemonFileName = None → LoadDaemonInfo dk = Ok None.
Proof. intros Habs. unfold LoadDaemonInfo. by rewrite Habs. Qed.


(** Outside its output the status command changes nothing. *)
Lemma statusCmd_only_prints (w : World) :
  exec statusCmd w = withTrace (trace w ++ since w (exec statusCmd w)) w
  ∧ eval statusCmd w = None.
Proof.
  step. destruct (LoadDaemonInfo (disk w)) as [[info |] | ?]; simpl;
    [destruct (findProcessErr w (PID info)); simpl;
      [| destruct (bool_decide _); simpl] | ..];
    rewrite <- ?app_assoc; rewrite drop_app_length; done.
Qed.





Lemma DeleteDaemonInfo_creates_nothing (dk : Disk) :
  files dk !! DaemonFileName = None → fst (DeleteDaemonInfo dk) = dk.
Proof.
  intros Habs. unfold DeleteDaemonInfo, Remove. rewrite Habs.
  by destruct (readonly dk).
Qed.




(** The life of a descriptor: none at first; written by the spawn, with
    the process id and [running]; still there, and reported as crashed,
    once the process has been killed from outside; removed by the pause
    command, which then reports a failure. *)
Example descriptor_scenario :
  let w1 := exec (daemon.StartDaemonProcess sample.spawn "/home/dev/site")
              sample.alive in
  let w2 := sample.crashed w1 in
  let w3 := exec pauseCmd w2 in
  trace (exec statusCmd sample.alive) = [Stdout ("Status: Not running" ++ LF)]
  ∧ LoadDaemonInfo (disk w1)
    = Ok (Some {| PID := 4242; RepoPath := "/home/dev/site";
                  Status := "running" |})
  ∧ since w1 (exec statusCmd w1)
    = [Stdout ("Status: running" ++ LF); Stdout ("PID: 4242" ++ LF);
       Stdout ("Repository: /home/dev/site" ++ LF)]
  ∧ trace (exec statusCmd w2)
    = [Stdout ("Status: Process not found (may have crashed)" ++ LF)]
  ∧ LoadDaemonInfo (disk (exec statusCmd w2)) = LoadDaemonInfo (disk w1)
  ∧ eval pauseCmd w2 = Some "daemon process not found (may have crashed)"
  ∧ LoadDaemonInfo (disk w3) = Ok None
  ∧ eval pauseCmd w3 = Some "no daemon is running".
Proof. repeat split; vm_compute; reflexivity. Qed.

End Control.

(** ** The configuration record on disk *)

Section RoundTrip.

Import config.

Variable ParseInt : string → option Z.

Lemma saved_members (cfg : Config) :
  let o := readValue <$> marshalConfig cfg in
  o !! "ai_provider" = Some (VStr (toValidUTF8 (AIProvider cfg)))
  ∧ o !! "api_key" = Some (VStr (toValidUTF8 (APIKey cfg)))
  ∧ o !! "base_url" = Some (VStr (toValidUTF8 (BaseURL cfg)))
  ∧ o !! "check_interval_minutes"
    = Some (VFloat (float64OfInt (CheckIntervalMinutes cfg))).
Proof.
  intros o. unfold o, marshalConfig.
  repeat split; rewrite lookup_fmap; by simplify_map_eq.
Qed.

Lemma saved_representable (cfg : Config) :
  - 2 ^ 53 <= CheckIntervalMinutes cfg <= 2 ^ 53 →
  map_Forall (λ _ v, representable v = true) (marshalConfig cfg).
Proof.
  intros Hn. unfold marshalConfig.
  repeat (apply map_Forall_insert_2; [|]); try reflexivity;
    [| apply map_Forall_empty].
  simpl. rewrite float64OfInt_exact by exact Hn.
  apply Z.ltb_lt.
  assert (2 ^ 53 < 2 ^ 1024) by (apply Z.pow_lt_mono_r; lia). lia.
Qed.

Lemma listed (cfg : gmap string Value) (key : string) (v : Value) :
  cfg !! key = Some v → key ∈ dom cfg ∪ dom defaults.
Proof. intros Hkey. apply elem_of_union_l, elem_of_dom. by exists v. Qed.

(** What [LoadConfig] makes of a member the file has, when the
    environment does not set its variable. *)
Lemma AllSettings_from_file (env : gmap string string)
    (cfg : gmap string Value) (key : string) (v : Value) :
  getEnv env (envKey key) = None → cfg !! key = Some v →
  AllSettings env cfg key = Some v.
Proof.
  intros Henv Hkey. unfold AllSettings, find.
  rewrite decide_True by (by apply listed with v).
  by rewrite Henv, Hkey.
Qed.

Lemma ValidString_fixed (s : string) :
  ValidString s = true → toValidUTF8 s = s.
Proof. unfold ValidString. by destruct (string_dec _ _). Qed.

(** C10, under the conditions it needs: a configuration record whose
    provider, API key and base URL are well-formed UTF-8 and whose check
    interval is at most 2^53 in absolute value, saved to a configuration
    directory that can be written and reloaded by a process whose
    environment sets none of the four AUTOGIT variables of these fields
    (or sets them to the empty string), comes back with the same
    provider, API key, base URL and check interval. *)
Theorem C10_save_load_roundtrip (env : gmap string string) (cfg : Config)
    (dk : Disk) :
  readonly dk = false →
  getEnv env "AUTOGIT_AI_PROVIDER" = None →
  getEnv env "AUTOGIT_API_KEY" = None →
  getEnv env "AUTOGIT_BASE_URL" = None →
  getEnv env "AUTOGIT_CHECK_INTERVAL_MINUTES" = None →
  ValidString (AIProvider cfg) = true →
  ValidString (APIKey cfg) = true →
  ValidString (BaseURL cfg) = true →
  - 2 ^ 53 <= CheckIntervalMinutes cfg <= 2 ^ 53 →
  ∃ dk' cfg',
    SaveConfig cfg dk = (dk', None)
    ∧ LoadConfig ParseInt env dk' = (dk', Ok cfg')
    ∧ AIProvider cfg' = AIProvider cfg
    ∧ APIKey cfg' = APIKey cfg
    ∧ BaseURL cfg' = BaseURL cfg
    ∧ CheckIntervalMinutes cfg' = CheckIntervalMinutes cfg.
Proof.
  intros Hrw Hp Hk Hu Hi Vp Vk Vu Hn.
  destruct (saved_members cfg) as (Mp & Mk & Mu & Mi).
  eexists _, _. split.
  { unfold SaveConfig, WriteFile. rewrite Hrw. reflexivity. }
  unfold LoadConfig. simpl. rewrite lookup_insert_eq.
  unfold ReadInConfig.
  rewrite decide_True by (by apply saved_representable).
  unfold Unmarshal.
  rewrite (AllSettings_from_file env _ "check_interval_minutes" _ Hi Mi).
  rewrite (AllSettings_from_file env _ "ai_provider" _ Hp Mp).
  rewrite (AllSettings_from_file env _ "api_key" _ Hk Mk).
  rewrite (AllSettings_from_file env _ "base_url" _ Hu Mu).
  simpl. split; [reflexivity |]. simpl.
  rewrite !ValidString_fixed by done.
  repeat split.
  rewrite float64OfInt_exact by exact Hn.
  apply intOfFloat64_in_range. lia.
Qed.

End RoundTrip.

Lemma C10_save_load_roundtrip_witness :
  ∃ dk' cfg',
    config.SaveConfig sample.cfg sample.emptyDisk = (dk', None)
    ∧ config.LoadConfig sample.parseDecimal ∅ dk' = (dk', Ok cfg')
    ∧ config.AIProvider cfg' = "gemini"
    ∧ config.APIKey cfg' = "AIzaSyA-0123456789abcdef"
    ∧ config.BaseURL cfg' = ""
    ∧ config.CheckIntervalMinutes cfg' = 5.
Proof.
  apply (C10_save_load_roundtrip sample.parseDecimal ∅ sample.cfg sample.emptyDisk);
    try reflexivity.
  vm_compute. split; discriminate.
Defined.

(** C10 does not hold for every record and environment: a record saved
    while AUTOGIT_API_KEY is set in the environment is reloaded with the
    API key of the environment, not with the one that was saved. *)
Lemma C10_environment_overrides_file :
  let env : gmap string string := {[ "AUTOGIT_API_KEY" := "sk-from-the-environment" ]} in
  ∃ dk' cfg',
    config.SaveConfig sample.cfg sample.emptyDisk = (dk', None)
    ∧ config.LoadConfig sample.parseDecimal env dk' = (dk', Ok cfg')
    ∧ config.APIKey cfg' = "sk-from-the-environment"
    ∧ config.APIKey cfg' ≠ config.APIKey sample.cfg.
Proof.
  exists (fst (config.SaveConfig sample.cfg sample.emptyDisk)),
    {| config.AIProvider := "gemini";
       config.APIKey := "sk-from-the-environment";
       config.BaseURL := "";
       config.CheckIntervalMinutes := 5;
       config.RootPath := "/home/dev/site" |}.
  split; [reflexivity |]. split; [vm_compute; reflexivity |].
  split; [reflexivity | discriminate].
Qed.

(** Two more records that do not come back, in an empty environment: a
    check interval above 2^53 is rounded by the float64 the file is read
    through, and a byte that is not UTF-8 is written as U+FFFD. *)
Lemma stray_byte_is_replaced :
  let key := String (ascii_of_nat 255) "key" in
  let cfg := {| config.AIProvider := "gemini"; config.APIKey := key;
                config.BaseURL := ""; config.CheckIntervalMinutes := 10;
                config.RootPath := "" |} in
  ∃ cfg',
    snd (config.LoadConfig sample.parseDecimal ∅
           (fst (config.SaveConfig cfg sample.emptyDisk))) = Ok cfg'
    ∧ config.APIKey cfg' = (replacementChar ++ "key")%string
    ∧ config.APIKey cfg' ≠ key.
Proof.
  eexists. split; [vm_compute; reflexivity |].
  split; [reflexivity | discriminate].
Qed.

Lemma large_interval_is_rounded :
  ∃ dk' cfg',
    config.SaveConfig (obs.withInterval (2 ^ 53 + 1)) sample.emptyDisk = (dk', None)
    ∧ config.LoadConfig sample.parseDecimal ∅ dk' = (dk', Ok cfg')
    ∧ config.CheckIntervalMinutes cfg' = 2 ^ 53.
Proof.
  exists (fst (config.SaveConfig (obs.withInterval (2 ^ 53 + 1)) sample.emptyDisk)),
    (obs.withInterval (2 ^ 53)).
  split; [reflexivity |]. split; [vm_compute; reflexivity |].
  reflexivity.
Qed.

(** * Further properties *)

#[local] Set Warnings "-clear-no-such-hyp".

(** ** The state store *)

Section Store.

Import config obs2.

Variable ParseInt : string → option Z.

(** X1: a descriptor whose process id fits an [int] and whose path and
    status are well-formed UTF-8, saved to a directory that can be
    written, is loaded back as it was. *)
Theorem X1_descriptor_roundtrip (info : DaemonInfo) (dk : Disk) :
  readonly dk = false →
  inInt64 (PID info) = true →
  ValidString (RepoPath info) = true →
  ValidString (Status info) = true →
  ∃ dk', SaveDaemonInfo info dk = (dk', None)
         ∧ LoadDaemonInfo dk' = Ok (Some info).
Proof.
  intros Hrw Hpid Vr Vs. eexists. split.
  { unfold SaveDaemonInfo, WriteFile. rewrite Hrw. reflexivity. }
  unfold LoadDaemonInfo. simpl. rewrite lookup_insert_eq.
  unfold unmarshalDaemonInfo, memberInt, memberString, marshalDaemonInfo.
  simplify_map_eq. rewrite Hpid.
  rewrite !ValidString_fixed by done. by destruct info.
Qed.

Lemma LoadConfig_depends_on (env : gmap string string) (dk dk' : Disk) :
  files dk' !! ConfigFileName = files dk !! ConfigFileName →
  readonly dk' = readonly dk →
  snd (LoadConfig ParseInt env dk') = snd (LoadConfig ParseInt env dk).
Proof.
  intros Hfile Hro. unfold LoadConfig, SaveConfig, WriteFile.
  rewrite Hfile, Hro.
  destruct (files dk !! ConfigFileName) as [[lines | o] |]; [done | |].
  - destruct (ReadInConfig o); [| done]. by destruct (Unmarshal _ _).
  - by destruct (readonly dk).
Qed.

Lemma WriteFile_readonly (name : string) (f : File) (dk : Disk) :
  readonly (fst (WriteFile name f dk)) = readonly dk.
Proof. unfold WriteFile. by destruct (readonly dk) eqn:Hro. Qed.

Lemma Remove_readonly (name : string) (dk : Disk) :
  readonly (fst (Remove name dk)) = readonly dk.
Proof.
  unfold Remove. destruct (readonly dk) eqn:Hro; [done |].
  by destruct (files dk !! name).
Qed.

Lemma WriteFile_other (name other : string) (f : File) (dk : Disk) :
  other ≠ name →
  files (fst (WriteFile name f dk)) !! other = files dk !! other.
Proof.
  intros Hne. unfold WriteFile. destruct (readonly dk); [done |].
  simpl. by rewrite lookup_insert_ne.
Qed.

Lemma Remove_other (name other : string) (dk : Disk) :
  other ≠ name →
  files (fst (Remove name dk)) !! other = files dk !! other.
Proof.
  intros Hne. unfold Remove. destruct (readonly dk); [done |].
  destruct (files dk !! name); [| done]. simpl. by rewrite lookup_delete_ne.
Qed.

Lemma SaveConfig_disk (cfg : Config) (dk : Disk) :
  fst (SaveConfig cfg dk) = fst (WriteFile ConfigFileName (Doc (marshalConfig cfg)) dk).
Proof.
  unfold SaveConfig. by destruct (WriteFile _ _ _) as [dk' [e |]].
Qed.

Lemma SaveDaemonInfo_disk (info : DaemonInfo) (dk : Disk) :
  fst (SaveDaemonInfo info dk)
  = fst (WriteFile DaemonFileName (Doc (marshalDaemonInfo info)) dk).
Proof.
  unfold SaveDaemonInfo. by destruct (WriteFile _ _ _) as [dk' [e |]].
Qed.

(** X2: the two records do not interfere. Saving the configuration
    leaves what [LoadDaemonInfo] reads as it is, and saving or deleting
    the descriptor leaves what [LoadConfig] returns as it is. *)
Theorem X2_records_do_not_interfere (env : gmap string string) (cfg : Config)
    (info : DaemonInfo) (dk : Disk) :
  LoadDaemonInfo (fst (SaveConfig cfg dk)) = LoadDaemonInfo dk
  ∧ snd (LoadConfig ParseInt env (fst (SaveDaemonInfo info dk)))
    = snd (LoadConfig ParseInt env dk)
  ∧ snd (LoadConfig ParseInt env (fst (DeleteDaemonInfo dk)))
    = snd (LoadConfig ParseInt env dk).
Proof.
  split; [| split].
  - unfold LoadDaemonInfo. rewrite SaveConfig_disk.
    by rewrite WriteFile_other.
  - apply LoadConfig_depends_on.
    + rewrite SaveDaemonInfo_disk. by apply WriteFile_other.
    + rewrite SaveDaemonInfo_disk. apply WriteFile_readonly.
  - apply LoadConfig_depends_on.
    + by apply Remove_other.
    + apply Remove_readonly.
Qed.

(** X3: without a configuration file, [LoadConfig] returns the defaults
    (gemini, no key, 10 minutes) and writes them to [config.json],
    leaving every other file alone -- whatever the environment holds:
    the AUTOGIT variables are not looked at on this path. When the
    directory cannot be written it fails and writes nothing. *)
Theorem X3_first_load_writes_defaults (env : gmap string string) (dk : Disk) :
  files dk !! ConfigFileName = None →
  (readonly dk = false →
     ∃ dk', LoadConfig ParseInt env dk = (dk', Ok firstConfig)
            ∧ files dk' !! ConfigFileName = Some (Doc (marshalConfig firstConfig))
            ∧ ∀ name, name ≠ ConfigFileName → files dk' !! name = files dk !! name)
  ∧ (readonly dk = true →
     LoadConfig ParseInt env dk
     = (dk, Err "failed to create default config: failed to write config: permission denied")).
Proof.
  intros Habs. unfold LoadConfig, SaveConfig, WriteFile. rewrite Habs.
  split; intros ->; [| reflexivity].
  eexists. split; [reflexivity |]. simpl. split.
  - by rewrite lookup_insert_eq.
  - intros name Hne. by rewrite lookup_insert_ne.
Qed.

(** X4: once the configuration file exists, [LoadConfig] only reads: the
    directory is the same afterwards, whether the load succeeds or not;
    and a file that is not a JSON object makes it fail. *)
Theorem X4_load_only_reads (env : gmap string string) (dk : Disk) (f : File) :
  files dk !! ConfigFileName = Some f →
  fst (LoadConfig ParseInt env dk) = dk
  ∧ ((∃ lines, f = Text lines) →
     snd (LoadConfig ParseInt env dk) = Err "failed to read config").
Proof.
  intros Hfile. unfold LoadConfig. rewrite Hfile. split.
  - destruct f as [lines | o]; [done |].
    destruct (ReadInConfig o); [| done]. by destruct (Unmarshal _ _).
  - by intros [lines ->].
Qed.

End Store.

Lemma X1_descriptor_roundtrip_witness :
  let info := {| config.PID := 4242; config.RepoPath := "/home/dev/site";
                 config.Status := "running" |} in
  ∃ dk', config.SaveDaemonInfo info sample.emptyDisk = (dk', None)
         ∧ config.LoadDaemonInfo dk' = Ok (Some info).
Proof. apply X1_descriptor_roundtrip; reflexivity. Defined.

Lemma X3_first_load_writes_defaults_witness :
  let env : gmap string string :=
    {[ "AUTOGIT_API_KEY" := "sk-from-the-environment" ]} in
  ∃ dk', config.LoadConfig sample.parseDecimal env sample.emptyDisk
         = (dk', Ok obs2.firstConfig)
         ∧ config.files dk' !! config.ConfigFileName
           = Some (config.Doc (config.marshalConfig obs2.firstConfig)).
Proof.
  intros env.
  destruct (X3_first_load_writes_defaults sample.parseDecimal env
              sample.emptyDisk) as [Hrw _]; [reflexivity |].
  destruct Hrw as (dk' & Hload & Hfile & _); [reflexivity |].
  exists dk'. by split.
Defined.

Lemma X4_load_only_reads_witness :
  let dk := fst (config.SaveConfig sample.cfg sample.emptyDisk) in
  fst (config.LoadConfig sample.parseDecimal ∅ dk) = dk.
Proof.
  intros dk.
  apply (X4_load_only_reads sample.parseDecimal ∅ dk
           (config.Doc (config.marshalConfig sample.cfg))).
  reflexivity.
Defined.

(** ** The providers *)

Section Providers.

Import ai validate obs2.

Lemma known_dec (p : string) : Decision (knownProvider p).
Proof. unfold knownProvider. apply _. Qed.

(** X5: [NewProvider] makes a provider exactly for the five names it
    knows, compared in lower case (of ASCII letters), and the provider
    carries the API key
    it was given; a base URL that is given is kept. With no base URL, the
    endpoint of OpenAI is chosen only for the name spelled "openai"
    exactly: any other spelling of it ("OpenAI") gets the endpoint of
    OpenRouter. *)
Theorem X5_NewProvider_names (provider apiKey baseURL : string) :
  (knownProvider (ToLower provider) ↔
     ∃ p, NewProvider provider apiKey baseURL = Ok p)
  ∧ (¬ knownProvider (ToLower provider) →
     NewProvider provider apiKey baseURL = Err ("unknown AI provider: " ++ provider))
  ∧ (∀ p, NewProvider provider apiKey baseURL = Ok p → keyOf p = apiKey)
  ∧ (∀ k u, NewProvider provider apiKey baseURL = Ok (OpenAIProvider k u) →
       baseURL ≠ "" → u = baseURL)
  ∧ (ToLower provider = "openai" → baseURL = "" →
       NewProvider provider apiKey baseURL
       = Ok (OpenAIProvider apiKey
               (if decide (provider = "openai") then "https://api.openai.com/v1"
                else "https://openrouter.ai/api/v1"))).
Proof.
  split_and!.
  - unfold NewProvider, knownProvider. repeat case_decide; naive_solver.
  - unfold NewProvider, knownProvider. repeat case_decide; naive_solver.
  - intros p. unfold NewProvider. repeat case_decide; intros [= <-]; done.
  - intros k u. unfold NewProvider. repeat case_decide; naive_solver.
  - intros Hp ->. unfold NewProvider. rewrite Hp.
    rewrite decide_False by done. rewrite decide_True by (by left).
    destruct (decide (provider = "openai")) as [-> |].
    + by rewrite decide_True.
    + rewrite decide_False by naive_solver. by rewrite decide_True.
Qed.

Lemma keyShape_known (provider apiKey : string) :
  keyShape provider apiKey = None → knownProvider (ToLower provider).
Proof.
  unfold keyShape, knownProvider.
  destruct (decide (ToLower provider = "gemini")); [naive_solver |].
  destruct (decide (_ ∨ _)) as [? | ?]; [naive_solver |].
  destruct (decide (_ ∨ _)) as [? | ?]; [naive_solver |].
  discriminate.
Qed.

Lemma known_makes_provider (provider apiKey baseURL : string) :
  knownProvider (ToLower provider) →
  ∃ p, NewProvider provider apiKey baseURL = Ok p ∧ keyOf p = apiKey.
Proof.
  unfold NewProvider, knownProvider. intros Hk.
  destruct (decide (ToLower provider = "gemini")); [by eexists |].
  destruct (decide (_ ∨ _)) as [? | ?]; [by eexists |].
  destruct (decide (_ ∨ _)) as [? | ?]; [by eexists |].
  naive_solver.
Qed.

(** X6: a key passes [ValidateAPIKey] exactly when it is not blank and
    has the shape its provider asks for; the creation of a provider,
    tried last, cannot fail any more. With a key that passed, a provider
    is made that carries that key, and each of its generations gets as
    far as its request. *)
Theorem X6_validated_key_can_generate (provider apiKey baseURL : string) :
  (ValidateAPIKey provider apiKey baseURL = None ↔
     apiKey ≠ "" ∧ TrimSpace apiKey ≠ "" ∧ keyShape provider apiKey = None)
  ∧ (ValidateAPIKey provider apiKey baseURL = None →
     ∃ p, NewProvider provider apiKey baseURL = Ok p
          ∧ keyOf p = apiKey
          ∧ ∀ diff net, ∃ req, sent (GenerateCommitMsg p diff net) = Some req).
Proof.
  assert (ValidateAPIKey provider apiKey baseURL = None ↔
          apiKey ≠ "" ∧ TrimSpace apiKey ≠ "" ∧ keyShape provider apiKey = None)
    as Hiff.
  { unfold ValidateAPIKey.
    destruct (decide (apiKey = "")); [naive_solver |].
    destruct (decide (TrimSpace apiKey = "")); [naive_solver |].
    destruct (keyShape provider apiKey) as [e |] eqn:Hshape; [naive_solver |].
    destruct (known_makes_provider provider apiKey baseURL) as (p & -> & _);
      [by apply (keyShape_known provider apiKey) |]. done. }
  split; [exact Hiff |].
  intros Hvalid. apply Hiff in Hvalid as (Hkey & _ & Hshape).
  destruct (known_makes_provider provider apiKey baseURL) as (p & Hp & Hk);
    [by apply (keyShape_known provider apiKey) |].
  exists p. split; [done |]. split; [done |].
  intros diff net.
  destruct (sent_with_key p diff net) as (req & Hsent & _); [by rewrite Hk |].
  by exists req.
Qed.

(** X7: what a generation returns. It sends no request exactly when the
    provider has no key, and then fails; it succeeds only on a response
    with status 200, and a response with any other status makes it fail
    with that status and the body in the error. *)
Theorem X7_generation_outcomes (p : AIProvider) (diff : string)
    (net : HTTPOutcome) :
  (sent (GenerateCommitMsg p diff net) = None ↔ keyOf p = "")
  ∧ (keyOf p = "" → ∃ e, answer (GenerateCommitMsg p diff net) = Err e)
  ∧ (∀ msg, answer (GenerateCommitMsg p diff net) = Ok msg →
       keyOf p ≠ "" ∧ ∃ b, net = Response 200 b)
  ∧ (∀ status b, net = Response status b → status ≠ 200 → keyOf p ≠ "" →
       answer (GenerateCommitMsg p diff net)
       = Err ("API error (status " ++ Itoa status ++ "): " ++ raw b)).
Proof.
  assert (∀ r, doRequest net = Ok r → net = Response 200 r) as Hok.
  { intros r. unfold doRequest. destruct net as [e | e | e | st b]; try discriminate.
    unfold StatusOK. destruct (Z.eqb_spec st 200) as [-> |]; simpl; congruence. }
  assert (∀ status b, net = Response status b → status ≠ 200 →
            doRequest net = Err ("API error (status " ++ Itoa status ++ "): " ++ raw b))
    as Hbad.
  { intros st b -> Hst. unfold doRequest, StatusOK.
    by destruct (Z.eqb_spec st 200). }
  destruct p as [k | k u | k];
    unfold GenerateCommitMsg, keyOf, GeminiProvider_GenerateCommitMsg,
      OpenAIProvider_GenerateCommitMsg, AnthropicProvider_GenerateCommitMsg;
    (destruct (decide (k = "")) as [-> | Hk];
      [ simpl; repeat split; try done; try (by eexists); intros; discriminate |]);
    simpl; (split; [split; [discriminate | done] |]);
    (split; [done |]);
    (split;
      [ intros msg Hmsg; split; [done |];
        destruct (doRequest net) as [r | e] eqn:Hreq; [| discriminate];
        exists r; by apply Hok
      | intros st b Hnet Hst _; by rewrite (Hbad st b Hnet Hst) ]).
Qed.

End Providers.

Lemma X5_NewProvider_names_witness :
  ai.NewProvider "OpenAI" "sk-live-0001" ""
  = Ok (ai.OpenAIProvider "sk-live-0001" "https://openrouter.ai/api/v1").
Proof.
  destruct (X5_NewProvider_names "OpenAI" "sk-live-0001" "")
    as (_ & _ & _ & _ & Hopenai).
  apply Hopenai; reflexivity.
Defined.

Lemma X6_validated_key_can_generate_witness :
  ∃ p, ai.NewProvider "Claude" "sk-ant-api03-0001" "" = Ok p
       ∧ ai.keyOf p = "sk-ant-api03-0001"
       ∧ ∀ diff net, ∃ req, ai.sent (ai.GenerateCommitMsg p diff net) = Some req.
Proof.
  destruct (X6_validated_key_can_generate "Claude" "sk-ant-api03-0001" "")
    as [_ Hvalid].
  apply Hvalid. reflexivity.
Defined.

Lemma X7_generation_outcomes_witness :
  ai.answer (ai.GenerateCommitMsg (ai.GeminiProvider "AIzaSy-0123456789-abcdef") "+x"
               (ai.Response 429 {| ai.raw := "quota exceeded"; ai.asGemini := None;
                                   ai.asOpenAI := None; ai.asAnthropic := None |}))
  = Err "API error (status 429): quota exceeded".
Proof.
  destruct (X7_generation_outcomes (ai.GeminiProvider "AIzaSy-0123456789-abcdef") "+x"
              (ai.Response 429 {| ai.raw := "quota exceeded"; ai.asGemini := None;
                                  ai.asOpenAI := None; ai.asAnthropic := None |}))
    as (_ & _ & _ & Hstatus).
  apply (Hstatus 429 _ eq_refl); [lia | discriminate].
Defined.

(** ** The commit message and the prompt *)

Section Messages.

Import ai obs2.

Lemma trimLeft_first (p : ascii → bool) (s : string) (c : ascii) :
  firstByte (trimLeft p s) = Some c → p c = false.
Proof.
  induction s as [| a t IH]; simpl; [discriminate |].
  destruct (p a) eqn:Ha; [exact IH |]. simpl. by intros [= <-].
Qed.

Lemma trimRight_first (p : ascii → bool) (s : string) (c : ascii) :
  firstByte (trimRight p s) = Some c → firstByte s = Some c.
Proof.
  destruct s as [| a t]; simpl; [done |].
  destruct (trimRight p t); [destruct (p a) |]; simpl; done.
Qed.

Lemma trimRight_last (p : ascii → bool) (s : string) (c : ascii) :
  lastByte (trimRight p s) = Some c → p c = false.
Proof.
  induction s as [| a t IH]; simpl; [discriminate |].
  destruct (trimRight p t) as [| b t'] eqn:Ht.
  - destruct (p a) eqn:Ha; simpl; [discriminate |]. by intros [= <-].
  - exact IH.
Qed.

Lemma answer_is_clean (p : AIProvider) (diff : string) (net : HTTPOutcome)
    (msg : string) :
  answer (GenerateCommitMsg p diff net) = Ok msg →
  ∃ text, msg = cleanMessage text.
Proof.
  destruct p as [k | k u | k];
    unfold GenerateCommitMsg, GeminiProvider_GenerateCommitMsg,
      OpenAIProvider_GenerateCommitMsg, AnthropicProvider_GenerateCommitMsg;
    (destruct (decide (k = "")); [discriminate |]); simpl;
    (destruct (doRequest net) as [r | e]; [| discriminate]).
  - destruct (asGemini r) as [resp |]; [| discriminate].
    destruct (Candidates resp) as [| c ?]; [discriminate |].
    destruct (Parts (CandidateContent c)) as [| part ?]; [discriminate |].
    intros [= <-]. by eexists.
  - destruct (asOpenAI r) as [resp |]; [| discriminate].
    destruct (Choices resp) as [| c ?]; [discriminate |].
    intros [= <-]. by eexists.
  - destruct (asAnthropic r) as [resp |]; [| discriminate].
    destruct (ResponseContent resp) as [| c ?]; [discriminate |].
    intros [= <-]. by eexists.
Qed.

(** X8: a commit message that [GenerateCommitMsg] returns neither
    begins nor ends with one of the three quote characters, whatever the
    backend answered. *)
Theorem X8_message_without_quotes_around (p : AIProvider) (diff : string)
    (net : HTTPOutcome) (msg : string) :
  answer (GenerateCommitMsg p diff net) = Ok msg →
  (∀ c, firstByte msg = Some c → isQuote c = false)
  ∧ (∀ c, lastByte msg = Some c → isQuote c = false).
Proof.
  intros Hmsg. apply answer_is_clean in Hmsg as [text ->].
  unfold cleanMessage, Trim, isQuote. split; intros c Hc.
  - apply trimRight_first in Hc. by apply trimLeft_first in Hc.
  - by apply trimRight_last in Hc.
Qed.

Lemma string_length_app (a b : string) :
  String.length (a ++ b) = (String.length a + String.length b)%nat.
Proof.
  induction a as [| c a IH]; [reflexivity |].
  change (S (String.length (a ++ b)) = S (String.length a + String.length b)%nat).
  by rewrite IH.
Qed.

Lemma len_app (a b : string) : len (a ++ b) = len a + len b.
Proof. unfold len. rewrite string_length_app. lia. Qed.

Lemma substring_0_app (a b : string) (n : nat) :
  String.length a = n → String.substring 0 n (a ++ b) = a.
Proof.
  revert n. induction a as [| c a IH]; intros n Hn; simpl in Hn; subst n.
  - by destruct b.
  - change (String c a ++ b) with (String c (a ++ b)). simpl.
    by rewrite IH.
Qed.

Lemma truncateDiff_cases (diff : string) :
  (len diff <= MaxDiffLen ∧ truncateDiff diff = diff)
  ∨ (MaxDiffLen < len diff
     ∧ truncateDiff diff = sliceTo diff MaxDiffLen ++ TruncationMarker
     ∧ len (sliceTo diff MaxDiffLen) = MaxDiffLen).
Proof.
  unfold truncateDiff. destruct (Z.ltb_spec MaxDiffLen (len diff)) as [Hlong | Hshort].
  - right. split; [done |]. split; [done |].
    apply sliceTo_spec. unfold MaxDiffLen in *. lia.
  - by left.
Qed.

(** X9: the diff that goes into the prompt has at most 100016 bytes,
    truncating it a second time changes nothing, and the prompt of every
    request is the system prompt, the line "Code diff:" and that diff: at
    most 13 bytes more than the two together. *)
Theorem X9_prompt_is_bounded (diff : string) :
  len (truncateDiff diff) <= 100016
  ∧ truncateDiff (truncateDiff diff) = truncateDiff diff
  ∧ ∀ p net req, sent (GenerateCommitMsg p diff net) = Some req →
      ∃ prompt, promptIn (body req) = [prompt]
                ∧ len prompt <= len SystemPrompt + 13 + 100016.
Proof.
  assert (len TruncationMarker = 16) as Hmarker by reflexivity.
  assert (len (truncateDiff diff) <= 100016) as Hbound.
  { destruct (truncateDiff_cases diff) as [[Hshort ->] | (Hlong & -> & Hcut)].
    - unfold MaxDiffLen in Hshort. lia.
    - rewrite len_app, Hcut, Hmarker. unfold MaxDiffLen. lia. }
  split; [exact Hbound |]. split.
  - destruct (truncateDiff_cases diff) as [[Hshort Heq] | (Hlong & Heq & Hcut)].
    + by rewrite !Heq.
    + rewrite Heq. unfold truncateDiff at 1.
      rewrite len_app, Hcut, Hmarker.
      destruct (Z.ltb_spec MaxDiffLen (MaxDiffLen + 16)) as [_ | Hno]; [| lia].
      f_equal. unfold sliceTo at 1. apply substring_0_app.
      unfold len in Hcut. lia.
  - intros p net req Hsent.
    assert (keyOf p ≠ "") as Hkey.
    { intros Hempty.
      destruct p as [k | k u | k]; simpl in Hempty; subst k;
        unfold GenerateCommitMsg, GeminiProvider_GenerateCommitMsg,
          OpenAIProvider_GenerateCommitMsg, AnthropicProvider_GenerateCommitMsg
          in Hsent; discriminate. }
    destruct (sent_with_key p diff net Hkey) as (req' & Hsent' & Hprompt).
    rewrite Hsent in Hsent'. injection Hsent' as <-.
    eexists. split; [exact Hprompt |].
    unfold promptOf. rewrite !len_app.
    change (len LF) with 1. change (len "Code diff:") with 10. lia.
Qed.

End Messages.

Lemma X8_message_without_quotes_around_witness :
  ai.answer (ai.GenerateCommitMsg (ai.GeminiProvider "AIzaSy-0123456789-abcdef") "+x"
               (sample.reply ("  `fix: update index`" ++ LF)))
  = Ok "fix: update index"
  ∧ obs2.isQuote "f" = false ∧ obs2.isQuote "x" = false.
Proof.
  destruct (X8_message_without_quotes_around
              (ai.GeminiProvider "AIzaSy-0123456789-abcdef") "+x"
              (sample.reply ("  `fix: update index`" ++ LF)) "fix: update index")
    as [Hfirst Hlast]; [reflexivity |].
  split; [reflexivity |]. split; [by apply Hfirst | by apply Hlast].
Defined.

(** ** Paths *)

Section Paths.

Import rt git cli obs2.

Lemma hasSlash_lastElement (s : string) : hasSlash (lastElement s) = false.
Proof.
  induction s as [| c t IH]; simpl; [done |].
  destruct (hasSlash t) eqn:Ht; [exact IH |].
  destruct (isSlash c) eqn:Hc; [exact Ht |].
  simpl. by rewrite Hc, Ht.
Qed.

Lemma hasSlash_app (a b : string) : hasSlash (a ++ b) = hasSlash a || hasSlash b.
Proof.
  induction a as [| c a IH]; [by destruct b |].
  change (String c a ++ b) with (String c (a ++ b)). simpl.
  rewrite IH. by rewrite orb_assoc.
Qed.

Lemma lastElement_app (dir name : string) :
  hasSlash name = false →
  lastElement (dir ++ "/" ++ name) = name.
Proof.
  intros Hname. induction dir as [| c dir IH].
  - change ("" ++ "/" ++ name) with (String "/" name). simpl. by rewrite Hname.
  - change (String c dir ++ "/" ++ name) with (String c (dir ++ "/" ++ name)).
    simpl. rewrite hasSlash_app.
    change ("/" ++ name) with (String "/" name).
    replace (hasSlash (String "/" name)) with true by reflexivity.
    rewrite orb_true_r. exact IH.
Qed.

Lemma trimRight_keeps (p : ascii → bool) (s : string) :
  (∀ c, lastByte s = Some c → p c = false) → trimRight p s = s.
Proof.
  induction s as [| a t IH]; [done |]. intros Hlast. simpl.
  destruct t as [| b t'].
  - simpl. by rewrite (Hlast a eq_refl).
  - rewrite IH by exact Hlast. done.
Qed.

Lemma lastByte_app (a b : string) :
  b ≠ "" → lastByte (a ++ b) = lastByte b.
Proof.
  intros Hb. induction a as [| c a IH]; [by destruct b |].
  change (String c a ++ b) with (String c (a ++ b)).
  destruct (a ++ b) as [| d r] eqn:Hab.
  - destruct a; [destruct b |]; done.
  - exact IH.
Qed.

Lemma hasSlash_lastByte (s : string) (c : ascii) :
  hasSlash s = false → lastByte s = Some c → isSlash c = false.
Proof.
  induction s as [| a t IH]; [discriminate |]. simpl.
  intros [Ha Ht]%orb_false_elim. destruct t; [by intros [= <-] | by apply IH].
Qed.

(** X10: the name of a repository, which names its log file, is never
    empty and holds no slash unless it is the root "/" itself; it is the
    last element of the root path. *)
Theorem X10_repo_name (rootPath : string) :
  GetRepoName rootPath ≠ ""
  ∧ (hasSlash (GetRepoName rootPath) = false ∨ GetRepoName rootPath = "/")
  ∧ ∀ dir name, rootPath = dir ++ "/" ++ name → name ≠ "" → hasSlash name = false →
      GetRepoName rootPath = name.
Proof.
  unfold GetRepoName, Base. split_and!.
  - repeat case_decide; done.
  - repeat case_decide; [by left | by right |]. left. apply hasSlash_lastElement.
  - intros dir name -> Hname Hslash.
    rewrite decide_False by (by destruct dir).
    rewrite trimRight_keeps.
    + rewrite lastElement_app by done. by rewrite decide_False.
    + intros c. rewrite lastByte_app by (by destruct name).
      change ("/" ++ name) with (String "/" name). simpl.
      destruct name as [| a t]; [done |]. by apply hasSlash_lastByte.
Qed.

(** X11: [GetRootPath] runs one git command and nothing else. When git
    fails it fails; otherwise it returns the output without the blanks
    around it, made absolute, or left as it is when that fails. *)
Theorem X11_GetRootPath (revparse : result string) (abs : string → result string)
    (w : World) :
  exec (GetRootPath revparse abs) w
  = withTrace (trace w ++ [GitExec ["rev-parse"; "--show-toplevel"]]) w
  ∧ (∀ err, revparse = Err err →
       eval (GetRootPath revparse abs) w
       = Err ("not a git repository or git not found: " ++ err))
  ∧ (∀ output, revparse = Ok output →
       ∃ rootPath, eval (GetRootPath revparse abs) w = Ok rootPath
         ∧ (abs (TrimSpace output) = Ok rootPath
            ∨ (rootPath = TrimSpace output ∧ ∃ e, abs (TrimSpace output) = Err e))).
Proof.
  unfold GetRootPath, exec, eval, emit, mbind, M_bind, mret, M_ret.
  split_and!.
  - destruct revparse as [output | err]; [| done].
    by destruct (abs (TrimSpace output)).
  - by intros err ->.
  - intros output ->. destruct (abs (TrimSpace output)) as [a | e] eqn:Habs.
    + exists a. by split; [| left].
    + exists (TrimSpace output). split; [done |]. right. split; [done | by exists e].
Qed.

End Paths.

Lemma X10_repo_name_witness :
  git.GetRepoName "/home/dev/site" = "site".
Proof.
  destruct (X10_repo_name "/home/dev/site") as (_ & _ & Hlast).
  apply (Hlast "/home/dev"); [reflexivity | discriminate | reflexivity].
Defined.

Lemma X11_GetRootPath_witness :
  ∃ rootPath,
    rt.eval (cli.GetRootPath (Ok ("/home/dev/site" ++ LF)) (λ _, Err "getwd failed"))
      sample.quiet = Ok rootPath
    ∧ rootPath = "/home/dev/site".
Proof.
  destruct (X11_GetRootPath (Ok ("/home/dev/site" ++ LF)) (λ _, Err "getwd failed")
              sample.quiet) as (_ & _ & Hok).
  destruct (Hok _ eq_refl) as (rootPath & Heval & [Habs | [-> _]]); [discriminate |].
  exists (TrimSpace ("/home/dev/site" ++ LF)). split; [exact Heval | reflexivity].
Defined.

(** ** One cycle, and the loop *)

(** Splits a cycle into its outcomes and runs [tac] on each. *)
Ltac outcomes e d tac :=
  run;
  destruct (git.detected _) as [[|] | ?]; simpl; [| tac ..];
  destruct (git.retrieved _) as [diff | ?] eqn:Hdiff; simpl; [| tac];
  destruct (ai.sent _); simpl;
    (destruct (ai.answer _) as [msg | ?] eqn:Hmsg; simpl; [| tac]);
    (destruct (daemon.gitAdd e); simpl; [tac |]);
    (destruct (daemon.gitCommit e msg); simpl; [tac |]);
    (destruct (daemon.gitPush e) eqn:Hpush; simpl; [| tac]);
    (destruct (daemon.ticker d) as [[per [|]] |] eqn:Hticker; simpl; tac).

Section Loop.

Import rt daemon obs obs2.

(** X12: what a cycle leaves alone. The configuration, the provider,
    the paths and the log of the daemon and the period of its ticker are
    the same afterwards; a ticker that was stopped is not started again;
    the effects so far are kept, and the answers of the operating system
    and the permissions of the directory are not touched. *)
Theorem X12_cycle_frame (e : CycleEnv) (d : Daemon) (w : World) :
  let d' := eval (checkAndCommit e d) w in
  let w' := exec (checkAndCommit e d) w in
  config d' = config d ∧ aiProvider d' = aiProvider d
  ∧ rootPath d' = rootPath d ∧ repoName d' = repoName d
  ∧ logFile d' = logFile d
  ∧ period <$> ticker d' = period <$> ticker d
  ∧ (∀ t, ticker d = Some t → stopped t = true → ticker d' = Some t)
  ∧ (∃ effects, trace w' = (trace w ++ effects)%list)
  ∧ findProcessErr w' = findProcessErr w ∧ signalErr w' = signalErr w
  ∧ config.readonly (disk w') = config.readonly (disk w).
Proof.
  unfold eval, exec.
  outcomes e d
    ltac:(rewrite <- ?app_assoc;
          repeat split; try done; try (by eexists); try (by rewrite Hticker);
          try (by intros t' [= <-] Hs')).
Qed.

(** X13: the commands of a cycle. Whatever the collaborators answer, a
    cycle runs the git commands of a complete cycle in their order, up
    to the step that fails; it asks for the status exactly once and for a
    message at most once; it notifies exactly once if it got as far as
    the push and not at all otherwise; and a cycle that did not get that
    far leaves the daemon as it was. *)
Theorem X13_cycle_commands (e : CycleEnv) (d : Daemon) (w : World) :
  let d' := eval (checkAndCommit e d) w in
  let effects := since w (exec (checkAndCommit e d) w) in
  (∃ msg rest, fullCycle msg = (gitCommands effects ++ rest)%list)
  ∧ cycles effects = 1%nat
  ∧ (length (generations effects) <= 1)%nat
  ∧ length (notifications effects) = (if pushed effects then 1 else 0)%nat
  ∧ (pushed effects = false → d' = d).
Proof.
  unfold eval, exec, since.
  outcomes e d
    ltac:(rewrite <- ?app_assoc; rewrite drop_app_length;
          split; [first [exists msg | exists ""]; eexists; simpl; reflexivity |];
          repeat split; simpl; try done; lia).
Qed.

(** X14: a cycle that attempts the push and whose push succeeds has run
    the five git commands; the message it committed is the one the
    provider returned for the diff, and the one it puts in the
    notification; the daemon ends with status [running] and is otherwise
    as it was. *)
Theorem X14_pushed_cycle (e : CycleEnv) (d : Daemon) (w : World) :
  let d' := eval (checkAndCommit e d) w in
  let effects := since w (exec (checkAndCommit e d) w) in
  pushed effects = true → gitPush e = None →
  ∃ diff msg,
    git.retrieved (gitDiff e) = Ok diff
    ∧ ai.answer (ai.GenerateCommitMsg (aiProvider d) diff (http e)) = Ok msg
    ∧ gitCommands effects = fullCycle msg
    ∧ notifications effects
      = [("Autogit: Committed to " ++ repoName d, "Commit: " ++ msg)]
    ∧ d' = setStatus StatusRunning d.
Proof.
  unfold eval, exec, since.
  outcomes e d
    ltac:(rewrite <- ?app_assoc; rewrite drop_app_length; simpl;
          try (by intros); try (intros _ _; by exists diff, msg)).
Qed.

Lemma cycle_ticker (e : CycleEnv) (d : Daemon) (w : World) :
  logFile (fst (checkAndCommit e d w)) = logFile d
  ∧ (ticker (fst (checkAndCommit e d w)) = ticker d
     ∨ ∃ t, ticker d = Some t
            ∧ ticker (fst (checkAndCommit e d w))
              = Some {| period := period t; stopped := true |}).
Proof.
  outcomes e d
    ltac:(split; [done |]; first [by left | by (right; eexists)]).
Qed.

Lemma cycle_settled (e : CycleEnv) (d : Daemon) (w : World) :
  status d = StatusRunning → tickerRuns d →
  settled (fst (checkAndCommit e d w)).
Proof.
  unfold settled, tickerRuns. intros Hst (t & Ht & Hs). revert Hst Ht.
  outcomes e d
    ltac:(intros Hst Ht;
          first [ by (left; split; [done |]; exists t)
                | by (right; split; [done |]; eexists; split; reflexivity) ]).
Qed.

Lemma cycles_app (a b : list Effect) :
  cycles (a ++ b) = (cycles a + cycles b)%nat.
Proof.
  unfold cycles, gitCommands. by rewrite omap_app, List.filter_app, length_app.
Qed.

Lemma cycle_trace (e : CycleEnv) (d : Daemon) (w : World) :
  ∃ effects, trace (snd (checkAndCommit e d w)) = (trace w ++ effects)%list
             ∧ cycles effects = 1%nat.
Proof.
  outcomes e d ltac:(rewrite <- ?app_assoc; by eexists).
Qed.

Lemma expiries_cons (ev : Event) (events : list Event) :
  expiries (ev :: events)
  = (match ev with TimerExpiry _ => 1 | StopRequest => 0 end + expiries events)%nat.
Proof. by destruct ev. Qed.

Lemma serve_trace (events : list Event) (d : Daemon) (w : World) :
  ∃ effects, trace (snd (serve events d w)) = (trace w ++ effects)%list
             ∧ (cycles effects <= expiries events)%nat.
Proof.
  assert (cycles [] = 0%nat) as Hnone by reflexivity.
  revert d w. induction events as [| ev events IH]; intros d w.
  - cbn [serve]. destruct (ticker d); exists []; rewrite app_nil_r, Hnone; by split.
  - rewrite expiries_cons. cbn [serve].
    destruct (ticker d) as [t |] eqn:Ht.
    2:{ exists []. rewrite app_nil_r, Hnone. split; [done | lia]. }
    destruct ev as [e |].
    + destruct (stopped t).
      * destruct (IH d w) as (effects & -> & Hle). exists effects.
        split; [done | lia].
      * unfold mbind, M_bind.
        destruct (cycle_trace e d w) as (e1 & H1 & Hc1).
        destruct (checkAndCommit e d w) as [d1 w1]. simpl in H1.
        destruct (IH d1 w1) as (e2 & -> & Hle). exists (e1 ++ e2)%list.
        rewrite H1, <- app_assoc. split; [done |].
        rewrite cycles_app, Hc1. lia.
    + unfold stopTicker. rewrite Ht. exists [TickerStop]. split; [done |].
      change (cycles [TickerStop]) with 0%nat. lia.
Qed.

Lemma serve_after_stop (events rest : list Event) (d : Daemon) (w : World) :
  serve (events ++ StopRequest :: rest) d w = serve (events ++ [StopRequest]) d w.
Proof.
  revert d w. induction events as [| ev events IH]; intros d w; [done |].
  simpl. destruct (ticker d) as [t |]; [| done].
  destruct ev as [e |]; [| done].
  destruct (stopped t); [apply IH |].
  unfold mbind, M_bind. destruct (checkAndCommit e d w) as [d1 w1]. apply IH.
Qed.

(** X15: the stop request. Once a stop request is taken nothing that
    follows it is looked at; and a loop whose daemon has a ticker takes
    it after any number of expiries, whatever their cycles did: it
    returns, with the ticker stopped. *)
Theorem X15_stop_request (events rest : list Event) (d : Daemon) (w : World) :
  serve (events ++ StopRequest :: rest) d w = serve (events ++ [StopRequest]) d w
  ∧ (ticker d ≠ None →
     ∃ d', eval (serve (events ++ [StopRequest]) d) w = Returned d'
           ∧ tickerStopped d').
Proof.
  split; [apply serve_after_stop |].
  unfold eval. revert d w.
  induction events as [| ev events IH]; intros d w Hticker.
  - simpl. destruct (ticker d) as [t |] eqn:Ht; [| done].
    unfold stopTicker. rewrite Ht.
    eexists. split; [reflexivity |]. by eexists.
  - simpl. destruct (ticker d) as [t |] eqn:Ht; [| done].
    destruct ev as [e |].
    + destruct (stopped t); [apply IH; congruence |].
      unfold mbind, M_bind.
      destruct (cycle_ticker e d w) as [_ Hkeep].
      destruct (checkAndCommit e d w) as [d1 w1]. simpl in Hkeep.
      apply IH.
      destruct Hkeep as [-> | (t' & _ & ->)]; [by rewrite Ht | done].
    + unfold stopTicker. rewrite Ht.
      eexists. split; [reflexivity |]. by eexists.
Qed.

Lemma serve_settled (events : list Event) (d : Daemon) (w : World) :
  settled d →
  match fst (serve events d w) with
  | Waiting d' => settled d'
  | Returned d' =>
      tickerStopped d' ∧ (status d' = StatusRunning ∨ status d' = StatusError)
  | Crashed => False
  end.
Proof.
  revert d w. induction events as [| ev events IH]; intros d w Hd; simpl.
  - destruct Hd as [(? & t & Ht & ?) | (? & t & Ht & ?)]; rewrite Ht; simpl;
      [left | right]; split; try done; by exists t.
  - destruct ev as [e |].
    + destruct Hd as [(Hst & t & Ht & Hs) | (Hst & t & Ht & Hs)];
        rewrite Ht, Hs.
      * unfold mbind, M_bind.
        pose proof (cycle_settled e d w Hst (ex_intro _ t (conj Ht Hs))) as H1.
        destruct (checkAndCommit e d w) as [d1 w1]. by apply IH.
      * apply IH. right. split; [done |]. by exists t.
    + assert (∃ t, ticker d = Some t) as [t Ht].
      { destruct Hd as [(_ & t & Ht & _) | (_ & t & Ht & _)]; by exists t. }
      rewrite Ht. unfold stopTicker. rewrite Ht. simpl.
      split; [by eexists |].
      destruct Hd as [(Hst & _) | (Hst & _)]; [by left | by right].
Qed.

(** X16: the states of the loop. A daemon that starts its loop with
    status [running] and a running ticker is, whenever it waits, either
    still so or has status [error] and a stopped ticker; it returns only
    with its ticker stopped, and it never meets a missing ticker. Its
    status is never [paused]. *)
Theorem X16_loop_states (first : CycleEnv) (events : list Event) (d : Daemon)
    (w : World) :
  status d = StatusRunning → tickerRuns d →
  match eval (runLoop first events d) w with
  | Waiting d' => settled d' ∧ status d' ≠ StatusPaused
  | Returned d' =>
      tickerStopped d' ∧ (status d' = StatusRunning ∨ status d' = StatusError)
  | Crashed => False
  end.
Proof.
  intros Hst Hrun. unfold eval, runLoop, mbind, M_bind.
  pose proof (cycle_settled first d w Hst Hrun) as H1.
  destruct (checkAndCommit first d w) as [d1 w1].
  pose proof (serve_settled events d1 w1 H1) as Hserve.
  destruct (fst (serve events d1 w1)) as [d' | d' |]; [| done ..].
  split; [done |].
  destruct Hserve as [(-> & _) | (-> & _)]; discriminate.
Qed.

(** X17: cycles need expiries. The loop begins one cycle when it starts
    and at most one more for each expiry of the ticker: nothing else
    makes it run git. *)
Theorem X17_cycles_need_expiries (first : CycleEnv) (events : list Event)
    (d : Daemon) (w : World) :
  (1 <= cycles (since w (exec (runLoop first events d) w))
     <= 1 + expiries events)%nat.
Proof.
  unfold exec, runLoop, mbind, M_bind, since.
  destruct (cycle_trace first d w) as (e1 & H1 & Hc1).
  destruct (checkAndCommit first d w) as [d1 w1]. simpl in H1.
  destruct (serve_trace events d1 w1) as (e2 & -> & Hle).
  rewrite H1, <- app_assoc, drop_app_length, cycles_app, Hc1. lia.
Qed.

End Loop.

Lemma X14_pushed_cycle_witness :
  ∃ diff msg,
    git.retrieved (daemon.gitDiff sample.allGood) = Ok diff
    ∧ ai.answer (ai.GenerateCommitMsg (daemon.aiProvider sample.running) diff
                   (daemon.http sample.allGood)) = Ok msg
    ∧ obs2.gitCommands
        (obs.since sample.quiet
           (rt.exec (daemon.checkAndCommit sample.allGood sample.running) sample.quiet))
      = obs2.fullCycle msg
    ∧ obs2.notifications
        (obs.since sample.quiet
           (rt.exec (daemon.checkAndCommit sample.allGood sample.running) sample.quiet))
      = [("Autogit: Committed to " ++ daemon.repoName sample.running, "Commit: " ++ msg)]
    ∧ rt.eval (daemon.checkAndCommit sample.allGood sample.running) sample.quiet
      = daemon.setStatus daemon.StatusRunning sample.running.
Proof.
  apply (X14_pushed_cycle sample.allGood sample.running sample.quiet);
    vm_compute; reflexivity.
Defined.

Lemma X15_stop_request_witness :
  ∃ d', rt.eval (daemon.serve ([daemon.TimerExpiry sample.pushFails]
                               ++ [daemon.StopRequest])
                   sample.running) sample.quiet = daemon.Returned d'
        ∧ obs2.tickerStopped d'.
Proof.
  apply (X15_stop_request [daemon.TimerExpiry sample.pushFails] [] sample.running
           sample.quiet).
  discriminate.
Defined.

Lemma X16_loop_states_witness :
  match rt.eval (daemon.runLoop sample.allGood
                   [daemon.TimerExpiry sample.pushFails; daemon.TimerExpiry sample.allGood]
                   sample.running) sample.quiet with
  | daemon.Waiting d' => obs2.settled d' ∧ daemon.status d' ≠ daemon.StatusPaused
  | daemon.Returned d' =>
      obs2.tickerStopped d'
      ∧ (daemon.status d' = daemon.StatusRunning ∨ daemon.status d' = daemon.StatusError)
  | daemon.Crashed => False
  end.
Proof.
  apply (X16_loop_states sample.allGood
           [daemon.TimerExpiry sample.pushFails; daemon.TimerExpiry sample.allGood]
           sample.running sample.quiet).
  - reflexivity.
  - eexists. split; reflexivity.
Defined.

(** ** Starting a daemon *)

Section Starting.

Import rt daemon obs obs2.

(** X18: [Start] changes to the root of the repository and runs no
    cycle itself. When the change of directory fails, the daemon gets
    status [error] and no ticker, and the failure is the second line
    added to the log. Otherwise, for an interval of at most 153722867
    minutes, the loop is started with a running ticker of a positive
    period: that many minutes, or ten when the number is not positive.
    [Start] ends in the panic of the ticker only above that number. *)
Theorem X18_Start (chdir : error) (d : Daemon) (w : World) :
  let r := eval (Start chdir d) w in
  let w' := exec (Start chdir d) w in
  since w w' = [Chdir (rootPath d)]
  ∧ (∀ err, chdir = Some err →
       r = NotLooping (setStatus StatusError d)
       ∧ disk w'
         = disk (after d []
                   ["Daemon started for repository: " ++ rootPath d;
                    "ERROR: Failed to change to root directory: " ++ err] w))
  ∧ (chdir = None → config.CheckIntervalMinutes (config d) <= MaxMinutes →
       ∃ per, r = Looping (setTicker (Some {| period := per; stopped := false |}) d)
              ∧ 0 < per
              ∧ per = (if config.CheckIntervalMinutes (config d) <=? 0
                       then 10 * config.Minute
                       else config.CheckIntervalMinutes (config d) * config.Minute))
  ∧ (r = Panicked →
       chdir = None ∧ MaxMinutes < config.CheckIntervalMinutes (config d)).
Proof.
  unfold eval, exec, since, Start, Printf, git.ChangeToRoot, emit, after,
    withTrace, withDisk, mbind, M_bind, mret, M_ret.
  destruct chdir as [err |]; simpl.
  - split; [by rewrite drop_app_length |]. split; [| done].
    intros ? [= <-]. done.
  - assert (config.CheckIntervalMinutes (config d) <= MaxMinutes →
            0 < config.GetCheckInterval (config d)
            ∧ config.GetCheckInterval (config d)
              = (if config.CheckIntervalMinutes (config d) <=? 0
                 then 10 * config.Minute
                 else config.CheckIntervalMinutes (config d) * config.Minute))
      as Hper.
    { intros Hmax.
      destruct (Z.leb_spec (config.CheckIntervalMinutes (config d)) 0) as [Hn | Hp].
      - destruct (GetCheckInterval_nonpositive (config d) Hn) as [-> _].
        unfold config.DefaultCheckInterval, config.Minute. lia.
      - destruct (GetCheckInterval_minutes (config d)) as [-> ?]; [lia |].
        unfold MaxMinutes, config.Minute in *. lia. }
    destruct (Z.leb_spec (config.GetCheckInterval (config d)) 0) as [Hbad | Hgood];
      simpl.
    + split; [by rewrite drop_app_length |]. split; [done |]. split.
      * intros _ Hmax. apply Hper in Hmax. lia.
      * intros _. split; [done |].
        destruct (Z.le_gt_cases (config.CheckIntervalMinutes (config d)) MaxMinutes)
          as [Hmax | Hover]; [apply Hper in Hmax |]; lia.
    + split; [by rewrite drop_app_length |]. split; [done |]. split; [| done].
      intros _ Hmax. apply Hper in Hmax as [? ?]. by eexists.
Qed.

Lemma saved_descriptor_loads (info : config.DaemonInfo) (dk : config.Disk) :
  config.files dk !! config.DaemonFileName
  = Some (config.Doc (config.marshalDaemonInfo info)) →
  inInt64 (config.PID info) = true →
  ValidString (config.RepoPath info) = true →
  ValidString (config.Status info) = true →
  config.LoadDaemonInfo dk = Ok (Some info).
Proof.
  intros Hfile Hpid Vr Vs. unfold config.LoadDaemonInfo. rewrite Hfile.
  unfold config.unmarshalDaemonInfo, config.memberInt, config.memberString,
    config.marshalDaemonInfo.
  simplify_map_eq. rewrite Hpid.
  rewrite !ValidString_fixed by done. by destruct info.
Qed.

(** X19: the spawn. [StartDaemonProcess] starts at most one process,
    with the arguments [start-daemon] and the root path. A failure before
    or at the start of the process leaves the directory as it is, and so
    does a failure to write the descriptor -- but then the process has
    been started and is recorded nowhere. On success the descriptor
    holds the process id of the child, the root path and the status
    [running], and reads back so. *)
Theorem X19_spawn (se : SpawnEnv) (root : string) (w : World) :
  let r := eval (StartDaemonProcess se root) w in
  let w' := exec (StartDaemonProcess se root) w in
  (r ≠ None → disk w' = disk w)
  ∧ (length (since w w') <= 1)%nat
  ∧ (∀ pid e a, executable se = Ok e → absolute se e = Ok a → started se = Ok pid →
       since w w' = [StartProcess [a; "start-daemon"; root]]
       ∧ (config.readonly (disk w) = true →
          r = Some "failed to save daemon info: failed to write daemon info: permission denied")
       ∧ (config.readonly (disk w) = false → r = None))
  ∧ (r = None →
       ∃ pid, started se = Ok pid
         ∧ config.files (disk w') !! config.DaemonFileName
           = Some (config.Doc (config.marshalDaemonInfo
                     {| config.PID := pid; config.RepoPath := root;
                        config.Status := StatusRunning |}))
         ∧ (inInt64 pid = true → ValidString root = true →
            config.LoadDaemonInfo (disk w')
            = Ok (Some {| config.PID := pid; config.RepoPath := root;
                          config.Status := StatusRunning |}))).
Proof.
  unfold eval, exec, since, StartDaemonProcess, onDisk, emit, withTrace, withDisk,
    mbind, M_bind, mret, M_ret, config.SaveDaemonInfo, config.WriteFile.
  destruct (executable se) as [e |]; simpl.
  2:{ rewrite drop_all. split_and!; try done. simpl. lia. }
  destruct (absolute se e) as [a |] eqn:Habs; simpl.
  2:{ rewrite drop_all. split_and!; try done; [simpl; lia |].
      intros ? ? ? [= <-]. congruence. }
  destruct (started se) as [pid |]; simpl.
  2:{ rewrite drop_app_length. split_and!; try done. }
  destruct (config.readonly (disk w)) eqn:Hro; simpl; rewrite drop_app_length.
  - split_and!; try done.
    intros ? ? ? [= <-] Ha [= <-]. rewrite Habs in Ha. injection Ha as <-.
    by split_and!.
  - split_and!; try done.
    + intros ? ? ? [= <-] Ha [= <-]. rewrite Habs in Ha. injection Ha as <-.
      by split_and!.
    + intros _. exists pid. split; [done |].
      split; [by rewrite lookup_insert_eq |].
      intros Hpid Vr. apply saved_descriptor_loads; try done.
      simpl. by rewrite lookup_insert_eq.
Qed.

End Starting.

Lemma X18_Start_witness :
  ∃ per, rt.eval (daemon.Start None
                    (daemon.setTicker None sample.running)) sample.quiet
         = daemon.Looping
             (daemon.setTicker (Some {| daemon.period := per; daemon.stopped := false |})
                (daemon.setTicker None sample.running))
         ∧ 0 < per
         ∧ per = 5 * config.Minute.
Proof.
  destruct (X18_Start None (daemon.setTicker None sample.running) sample.quiet)
    as (_ & _ & Hloop & _).
  apply Hloop; [reflexivity |]. vm_compute. discriminate.
Defined.

Lemma X19_spawn_witness :
  ∃ pid, daemon.started sample.spawn = Ok pid
    ∧ config.files (rt.disk (rt.exec (daemon.StartDaemonProcess sample.spawn
                                        "/home/dev/site") sample.quiet))
      !! config.DaemonFileName
      = Some (config.Doc (config.marshalDaemonInfo
                {| config.PID := pid; config.RepoPath := "/home/dev/site";
                   config.Status := daemon.StatusRunning |}))
    ∧ (inInt64 pid = true → ValidString "/home/dev/site" = true →
       config.LoadDaemonInfo
         (rt.disk (rt.exec (daemon.StartDaemonProcess sample.spawn "/home/dev/site")
                     sample.quiet))
       = Ok (Some {| config.PID := pid; config.RepoPath := "/home/dev/site";
                     config.Status := daemon.StatusRunning |})).
Proof.
  destruct (X19_spawn sample.spawn "/home/dev/site" sample.quiet)
    as (_ & _ & _ & Hok).
  apply Hok. reflexivity.
Defined.

(** ** The init command *)

Section Init.

Import rt config daemon cli obs obs2.

Variable ParseInt : string → option Z.

#[local] Arguments LoadConfig : simpl never.
#[local] Arguments SaveConfig : simpl never.
#[local] Arguments marshalConfig : simpl never.
#[local] Arguments validate.ValidateAPIKey : simpl never.
#[local] Arguments StartDaemonProcess : simpl never.
#[local] Arguments Itoa : simpl never.
#[local] Arguments main.isProcessRunning : simpl never.

Lemma GetRootPath_exec (revparse : result string) (abs : string → result string)
    (w : World) :
  snd (GetRootPath revparse abs w)
  = withTrace (trace w ++ [GitExec ["rev-parse"; "--show-toplevel"]]) w.
Proof.
  unfold GetRootPath, emit, mbind, M_bind, mret, M_ret.
  destruct revparse as [output |]; [| done]. by destruct (abs (TrimSpace output)).
Qed.

Lemma LoadConfig_fresh (env : gmap string string) (dk : Disk) :
  files dk !! ConfigFileName = None → readonly dk = false →
  LoadConfig ParseInt env dk
  = ({| files := <[ConfigFileName := Doc (marshalConfig firstConfig)]> (files dk);
        readonly := false |}, Ok firstConfig).
Proof.
  intros Habs Hrw. unfold LoadConfig, SaveConfig, WriteFile. by rewrite Habs, Hrw.
Qed.

(** X20: the first [init]. In a configuration directory that holds
    neither a configuration nor a descriptor, [init] writes the default
    configuration and then fails for want of an API key, whatever the
    environment holds -- a key given in AUTOGIT_API_KEY is not seen. No
    process is started and no descriptor is written. *)
Theorem X20_first_init_needs_a_key (environ : gmap string string)
    (revparse : result string) (abs : string → result string) (se : SpawnEnv)
    (root : string) (w : World) :
  eval (GetRootPath revparse abs) w = Ok root →
  files (disk w) !! ConfigFileName = None →
  files (disk w) !! DaemonFileName = None →
  readonly (disk w) = false →
  let w' := exec (initCmd ParseInt environ revparse abs se) w in
  eval (initCmd ParseInt environ revparse abs se) w
  = Some ("API key validation failed: API key is required" ++ LF
          ++ "Please configure your API key using 'autogit --menu'")
  ∧ files (disk w') !! ConfigFileName = Some (Doc (marshalConfig firstConfig))
  ∧ files (disk w') !! DaemonFileName = None
  ∧ since w w' = [GitExec ["rev-parse"; "--show-toplevel"];
                  Stdout ("Detected Git root: " ++ root ++ LF)].
Proof.
  intros Hroot Hcfg Hdae Hrw. unfold eval, exec, since in *.
  unfold initCmd, mbind, M_bind.
  pose proof (GetRootPath_exec revparse abs w) as Hw1.
  destruct (GetRootPath revparse abs w) as [r w1]. simpl in Hroot, Hw1. subst r w1.
  unfold cli.Printf, alreadyRunning, readDisk, ask, onDisk, emit, loadedDescriptor,
    mbind, M_bind, mret, M_ret.
  simpl. rewrite (absent_descriptor _ Hdae). simpl.
  rewrite (LoadConfig_fresh _ _ Hcfg Hrw). simpl.
  split_and!.
  - reflexivity.
  - by rewrite lookup_insert_eq.
  - by rewrite lookup_insert_ne.
  - by rewrite <- app_assoc, drop_app_length.
Qed.

Lemma isProcessRunning_reads (pid : Z) (w : World) :
  main.isProcessRunning pid w = (live w pid, w).
Proof.
  unfold live, eval, main.isProcessRunning, main.FindProcess, main.Signal, ask,
    mbind, M_bind, mret, M_ret.
  by destruct (findProcessErr w pid).
Qed.

Lemma live_withTrace (t : list Effect) (w : World) (pid : Z) :
  live (withTrace t w) pid = live w pid.
Proof.
  unfold live, eval, main.isProcessRunning, main.FindProcess, main.Signal, ask,
    mbind, M_bind, mret, M_ret. simpl.
  by destruct (findProcessErr w pid).
Qed.

(** X21: [init] refuses a second daemon. When the descriptor names this
    repository and its process is alive, [init] fails with the process
    id in the message, having printed the root it detected and done
    nothing else: no file is written and no process is started. *)
Theorem X21_init_refuses_second_daemon (environ : gmap string string)
    (revparse : result string) (abs : string → result string) (se : SpawnEnv)
    (root : string) (info : DaemonInfo) (w : World) :
  eval (GetRootPath revparse abs) w = Ok root →
  LoadDaemonInfo (disk w) = Ok (Some info) →
  RepoPath info = root →
  live w (PID info) = true →
  initCmd ParseInt environ revparse abs se w
  = (Some ("daemon is already running for this repository (PID: "
           ++ Itoa (PID info) ++ ")"),
     withTrace (trace w ++ [GitExec ["rev-parse"; "--show-toplevel"];
                            Stdout ("Detected Git root: " ++ root ++ LF)]) w).
Proof.
  intros Hroot Hload Hrepo Hlive. unfold eval in Hroot.
  unfold initCmd, mbind, M_bind.
  pose proof (GetRootPath_exec revparse abs w) as Hw1.
  destruct (GetRootPath revparse abs w) as [r w1]. simpl in Hroot, Hw1. subst r w1.
  unfold cli.Printf, alreadyRunning, readDisk, ask, emit, loadedDescriptor,
    mbind, M_bind, mret, M_ret.
  simpl. rewrite Hload. rewrite decide_True by done.
  rewrite isProcessRunning_reads, !live_withTrace, Hlive.
  by rewrite <- app_assoc.
Qed.

Lemma alreadyRunning_reads (root : string) (w : World) :
  alreadyRunning root w
  = (match loadedDescriptor (disk w) with
     | Some info =>
         if decide (RepoPath info = root)
         then if live w (PID info) then Some (PID info) else None
         else None
     | None => None
     end, w).
Proof.
  unfold alreadyRunning, readDisk, ask, mbind, M_bind, mret, M_ret.
  destruct (loadedDescriptor (disk w)) as [info |]; [| done].
  destruct (decide (RepoPath info = root)); [| done].
  by rewrite isProcessRunning_reads.
Qed.

Lemma SaveConfig_written (cfg : Config) (dk dk' : Disk) :
  SaveConfig cfg dk = (dk', None) →
  files dk' !! ConfigFileName = Some (Doc (marshalConfig cfg))
  ∧ readonly dk' = false
  ∧ ∀ name, name ≠ ConfigFileName → files dk' !! name = files dk !! name.
Proof.
  unfold SaveConfig, WriteFile. destruct (readonly dk); [discriminate |].
  intros [= <-]. simpl. split; [by rewrite lookup_insert_eq |]. split; [done |].
  intros name Hne. by rewrite lookup_insert_ne.
Qed.

Lemma LoadConfig_writes_config_only (env : gmap string string) (dk : Disk)
    (name : string) :
  name ≠ ConfigFileName →
  files (fst (LoadConfig ParseInt env dk)) !! name = files dk !! name.
Proof.
  intros Hne. unfold LoadConfig, SaveConfig, WriteFile.
  destruct (files dk !! ConfigFileName) as [[lines | o] |]; [done | |].
  - destruct (ReadInConfig o); [| done]. by destruct (Unmarshal _ _).
  - destruct (readonly dk); [done |]. simpl. by rewrite lookup_insert_ne.
Qed.

Lemma spawn_success (se : SpawnEnv) (root : string) (w : World) :
  fst (StartDaemonProcess se root w) = None →
  ∃ pid a, started se = Ok pid
    ∧ trace (snd (StartDaemonProcess se root w))
      = (trace w ++ [StartProcess [a; "start-daemon"; root]])%list
    ∧ files (disk (snd (StartDaemonProcess se root w))) !! DaemonFileName
      = Some (Doc (marshalDaemonInfo {| PID := pid; RepoPath := root;
                                        Status := StatusRunning |}))
    ∧ ∀ name, name ≠ DaemonFileName →
        files (disk (snd (StartDaemonProcess se root w))) !! name
        = files (disk w) !! name.
Proof.
  unfold StartDaemonProcess, onDisk, emit, withTrace, withDisk,
    mbind, M_bind, mret, M_ret, SaveDaemonInfo, WriteFile.
  destruct (executable se) as [e |]; [| discriminate].
  destruct (absolute se e) as [a |]; [| discriminate]. simpl.
  destruct (started se) as [pid |]; [| discriminate]. simpl.
  destruct (readonly (disk w)); [discriminate |]. simpl. intros _.
  exists pid, a. split; [done |]. split; [done |].
  split; [by rewrite lookup_insert_eq |].
  intros name Hne. by rewrite lookup_insert_ne.
Qed.

(** X22: a successful [init]. [init] succeeds only if no live daemon is
    recorded for the repository, the configuration loads, and its key
    passes the validation. It has then started one process, saved the
    loaded configuration -- with what the environment overrode in it --
    under the detected root, and written a descriptor with the new
    process id, the root and the status [running], in place of any
    descriptor there was. *)
Theorem X22_init_success (environ : gmap string string)
    (revparse : result string) (abs : string → result string) (se : SpawnEnv)
    (w : World) :
  let w' := exec (initCmd ParseInt environ revparse abs se) w in
  eval (initCmd ParseInt environ revparse abs se) w = None →
  ∃ root cfg pid,
    eval (GetRootPath revparse abs) w = Ok root
    ∧ snd (LoadConfig ParseInt environ (disk w)) = Ok cfg
    ∧ validate.ValidateAPIKey (AIProvider cfg) (APIKey cfg) (BaseURL cfg) = None
    ∧ started se = Ok pid
    ∧ (∀ info, LoadDaemonInfo (disk w) = Ok (Some info) → RepoPath info = root →
         live w (PID info) = false)
    ∧ files (disk w') !! ConfigFileName
      = Some (Doc (marshalConfig (setRootPath root cfg)))
    ∧ files (disk w') !! DaemonFileName
      = Some (Doc (marshalDaemonInfo {| PID := pid; RepoPath := root;
                                        Status := StatusRunning |}))
    ∧ length (List.filter (λ ef, match ef with StartProcess _ => true | _ => false end)
                (since w w')) = 1%nat.
Proof.
  intros w'. subst w'. unfold eval, exec, since.
  destruct (initCmd ParseInt environ revparse abs se w) as [r wf] eqn:Hrun.
  simpl. intros ->.
  unfold initCmd, cli.Printf, emit, onDisk, mbind, M_bind, mret, M_ret in Hrun.
  pose proof (GetRootPath_exec revparse abs w) as Hw1.
  destruct (GetRootPath revparse abs w) as [[root | e] w1]; [| discriminate].
  simpl in Hw1. subst w1.
  rewrite alreadyRunning_reads in Hrun.
  set (w1 := withTrace _ (withTrace _ w)) in Hrun.
  assert (disk w1 = disk w) as Hdisk by reflexivity.
  destruct (match loadedDescriptor (disk w1) with Some _ => _ | None => _ end)
    as [pid0 |] eqn:Hlive; [discriminate |].
  pose proof (LoadConfig_writes_config_only environ (disk w1) DaemonFileName) as Hkeep.
  destruct (LoadConfig ParseInt environ (disk w1)) as [dk2 [cfg | e]] eqn:Hload;
    [| discriminate].
  destruct (validate.ValidateAPIKey _ _ _) as [e |] eqn:Hvalid; [discriminate |].
  destruct (SaveConfig (setRootPath root cfg) _) as [dk3 [e |]] eqn:Hsave;
    [discriminate |].
  apply SaveConfig_written in Hsave as (Hcfg3 & _ & Hother3).
  set (w3 := withDisk dk3 _) in Hrun.
  pose proof (spawn_success se root w3) as Hspawn.
  destruct (StartDaemonProcess se root w3) as [[e |] w4]; [discriminate |].
  destruct (Hspawn eq_refl) as (pid & a & Hpid & Htrace & Hdae4 & Hother4).
  simpl in Htrace, Hdae4, Hother4. injection Hrun as <-.
  exists root, cfg, pid. split_and!; try done.
  - rewrite Hdisk in Hload. by rewrite Hload.
  - intros info Hinfo Hrepo. unfold loadedDescriptor in Hlive.
    rewrite Hdisk, Hinfo in Hlive. rewrite decide_True in Hlive by done.
    unfold w1 in Hlive. rewrite !live_withTrace in Hlive.
    by destruct (live w (PID info)).
  - simpl. rewrite Hother4 by done. exact Hcfg3.
  - simpl. rewrite Htrace.
    rewrite <- !app_assoc. rewrite drop_app_length. reflexivity.
Qed.

End Init.

Lemma X20_first_init_needs_a_key_witness :
  rt.eval (cli.initCmd sample.parseDecimal scenario.keyInEnvironment
             scenario.toplevel (λ p, Ok p) scenario.spawn) sample.quiet
  = Some ("API key validation failed: API key is required" ++ LF
          ++ "Please configure your API key using 'autogit --menu'").
Proof.
  destruct (X20_first_init_needs_a_key sample.parseDecimal scenario.keyInEnvironment
              scenario.toplevel (λ p, Ok p) scenario.spawn "/home/dev/site"
              sample.quiet) as [Hfails _];
    [reflexivity | reflexivity | reflexivity | reflexivity | exact Hfails].
Defined.

Lemma X21_init_refuses_second_daemon_witness :
  rt.eval (cli.initCmd sample.parseDecimal ∅ scenario.toplevel (λ p, Ok p)
             scenario.spawn)
    (rt.exec (daemon.StartDaemonProcess sample.spawn "/home/dev/site") sample.alive)
  = Some "daemon is already running for this repository (PID: 4242)".
Proof.
  unfold rt.eval.
  rewrite (X21_init_refuses_second_daemon sample.parseDecimal ∅ scenario.toplevel
             (λ p, Ok p) scenario.spawn "/home/dev/site"
             {| config.PID := 4242; config.RepoPath := "/home/dev/site";
                config.Status := daemon.StatusRunning |});
    reflexivity.
Defined.

Lemma X22_init_success_witness :
  ∃ root pid,
    rt.eval (cli.GetRootPath scenario.toplevel (λ p, Ok p)) scenario.busy = Ok root
    ∧ daemon.started scenario.spawn = Ok pid
    ∧ config.files
        (rt.disk (rt.exec (cli.initCmd sample.parseDecimal ∅ scenario.toplevel
                             (λ p, Ok p) scenario.spawn) scenario.busy))
      !! config.DaemonFileName
      = Some (config.Doc (config.marshalDaemonInfo
                {| config.PID := pid; config.RepoPath := root;
                   config.Status := daemon.StatusRunning |})).
Proof.
  destruct (X22_init_success sample.parseDecimal ∅ scenario.toplevel (λ p, Ok p)
              scenario.spawn scenario.busy)
    as (root & cfg & pid & Hroot & _ & _ & Hpid & _ & _ & Hdescriptor & _).
  - vm_compute. reflexivity.
  - exists root, pid. split; [exact Hroot |]. split; [exact Hpid | exact Hdescriptor].
Defined.

(** ** The settings of the dashboard *)

Section Settings.

Import rt config tui validate obs2.

Lemma substring_0_all (s : string) : String.substring 0 (String.length s) s = s.
Proof. induction s as [| c s IH]; simpl; [done | by rewrite IH]. Qed.

Lemma substring_split (s : string) (n : nat) :
  (n <= String.length s)%nat →
  s = String.substring 0 n s ++ String.substring n (String.length s - n) s.
Proof.
  revert n. induction s as [| c s IH]; intros [| n] Hn; simpl in Hn; try lia.
  - reflexivity.
  - change (String c s = String.substring 0 (String.length (String c s)) (String c s)).
    by rewrite substring_0_all.
  - change (String c s
            = String c (String.substring 0 n s
                        ++ String.substring n (String.length s - n) s)).
    f_equal. apply IH. lia.
Qed.

Lemma length_substring (s : string) (n m : nat) :
  (n + m <= String.length s)%nat → String.length (String.substring n m s) = m.
Proof.
  revert n m. induction s as [| c s IH]; intros [| n] [| m] Hn; simpl in *;
    try reflexivity; try lia.
  - f_equal. apply (IH 0%nat). lia.
  - apply IH. lia.
  - apply IH. lia.
Qed.

(** X23: the API key on the screen. A key of more than eight bytes is
    shown as its first four bytes, three dots and its last four bytes; a
    shorter key is shown as three stars, and no key as "Not set". What is
    shown has at most eleven bytes. *)
Theorem X23_api_key_display (apiKey : string) :
  (apiKey = "" → apiKeyDisplay apiKey = "Not set")
  ∧ (0 < len apiKey <= 8 → apiKeyDisplay apiKey = "***")
  ∧ (8 < len apiKey →
       ∃ a mid b, apiKey = a ++ mid ++ b ∧ len a = 4 ∧ len b = 4
                  ∧ apiKeyDisplay apiKey = a ++ "..." ++ b)
  ∧ len (apiKeyDisplay apiKey) <= 11.
Proof.
  assert (8 < len apiKey →
          ∃ a mid b, apiKey = a ++ mid ++ b ∧ len a = 4 ∧ len b = 4
                     ∧ apiKeyDisplay apiKey = a ++ "..." ++ b) as Hlong.
  { intros Hlen. unfold apiKeyDisplay.
    rewrite decide_False by (intros ->; unfold len in Hlen; simpl in Hlen; lia).
    destruct (Z.ltb_spec 8 (len apiKey)) as [_ | ?]; [| lia].
    destruct apiKey as [| c1 [| c2 [| c3 [| c4 t]]]];
      try (unfold len in Hlen; simpl in Hlen; lia).
    set (k := (String.length t - 4)%nat).
    assert (String.length t = (k + 4)%nat) as Ht.
    { unfold len in Hlen. simpl in Hlen. lia. }
    exists (String c1 (String c2 (String c3 (String c4 "")))),
      (String.substring 0 k t), (String.substring k 4 t).
    split.
    { change (String c1 (String c2 (String c3 (String c4 t)))
              = String c1 (String c2 (String c3 (String c4
                  (String.substring 0 k t ++ String.substring k 4 t))))).
      do 4 f_equal. pose proof (substring_split t k) as Hsplit.
      replace (String.length t - k)%nat with 4%nat in Hsplit by lia.
      apply Hsplit. lia. }
    split; [reflexivity |].
    split; [unfold len; rewrite length_substring; lia |].
    assert (sliceTo (String c1 (String c2 (String c3 (String c4 t)))) 4
            = String c1 (String c2 (String c3 (String c4 "")))) as ->
      by (unfold sliceTo; change (Z.to_nat 4) with 4%nat; simpl; by destruct t).
    do 2 f_equal. unfold sliceFrom, len.
    replace (Z.to_nat (Z.of_nat (String.length (String c1 (String c2 (String c3
               (String c4 t))))) - 4)) with (S (S (S (S k))))
      by (simpl String.length; lia).
    replace (String.length (String c1 (String c2 (String c3 (String c4 t))))
             - S (S (S (S k))))%nat with 4%nat by (simpl String.length; lia).
    reflexivity. }
  split_and!.
  - by intros ->.
  - intros [Hpos Hle]. unfold apiKeyDisplay.
    rewrite decide_False by (intros ->; unfold len in Hpos; simpl in Hpos; lia).
    destruct (Z.ltb_spec 8 (len apiKey)); [lia | done].
  - exact Hlong.
  - destruct (Z.lt_ge_cases 8 (len apiKey)) as [Hl | Hs].
    + destruct (Hlong Hl) as (a & mid & b & _ & Ha & Hb & ->).
      rewrite !len_app, Ha, Hb. change (len "...") with 3. lia.
    + unfold apiKeyDisplay. destruct (decide (apiKey = "")); [by vm_compute |].
      destruct (Z.ltb_spec 8 (len apiKey)); [lia |]. by vm_compute.
Qed.

Lemma validated_shape (provider apiKey baseURL : string) :
  ValidateAPIKey provider apiKey baseURL = None →
  apiKey ≠ "" ∧ keyShape provider apiKey = None.
Proof.
  unfold ValidateAPIKey.
  destruct (decide (apiKey = "")); [discriminate |].
  destruct (decide (TrimSpace apiKey = "")); [discriminate |].
  by destruct (keyShape provider apiKey).
Qed.

(** Closes the goals of a save that is refused, but for the converse of
    the condition. *)
Ltac refused :=
  split_and!; try done;
  try (intros Heq; exfalso; vm_compute in Heq; discriminate Heq);
  try (split; [intros Heq; exfalso; vm_compute in Heq; discriminate Heq |]).

(** X24: saving the settings. The configuration is written exactly when
    the interval reads as a positive number, the key passes the
    validation and the directory can be written, and the message then
    says so. A save that is refused leaves the directory as it is. A
    saved configuration has a positive interval and a provider that
    [importAIProvider] accepts, with a key that is not empty. Nothing
    but the file is touched. *)
Theorem X24_save_settings (Sscan : string → option Z) (st : Settings)
    (cfg : Config) (w : World) :
  let saved := main.CHECKMARK ++ " Settings saved successfully!" in
  let cfg' := fst (eval (saveSettings Sscan st cfg) w) in
  let shown := snd (eval (saveSettings Sscan st cfg) w) in
  let w' := exec (saveSettings Sscan st cfg) w in
  trace w' = trace w
  ∧ (shown = saved ↔
       (∃ n, Sscan (intervalInput st) = Some n ∧ 0 < n)
       ∧ ValidateAPIKey (selectedProvider st) (apiKeyInput st) (baseURLInput st) = None
       ∧ readonly (disk w) = false)
  ∧ (shown ≠ saved → disk w' = disk w)
  ∧ (shown = saved →
       files (disk w') !! ConfigFileName = Some (Doc (marshalConfig cfg'))
       ∧ 0 < CheckIntervalMinutes cfg'
       ∧ ∃ p, daemon.importAIProvider cfg' = Ok p ∧ ai.keyOf p ≠ "").
Proof.
  unfold eval, exec, saveSettings, onDisk, SaveConfig, WriteFile,
    mbind, M_bind, mret, M_ret.
  destruct (Sscan (intervalInput st)) as [n |] eqn:Hscan; simpl.
  2:{ refused. by intros [[? [? _]] _]. }
  destruct (Z.leb_spec n 0) as [Hn | Hn]; simpl.
  { refused. intros [[n' [[= <-] ?]] _]. lia. }
  destruct (ValidateAPIKey (selectedProvider st) (apiKeyInput st) (baseURLInput st))
    as [e |] eqn:Hvalid; simpl.
  { refused. by intros (_ & ? & _). }
  destruct (readonly (disk w)) eqn:Hro; simpl.
  { refused. by intros (_ & _ & ?). }
  split_and!; try done.
  - split; [| done]. intros _. split; [by exists n | done].
  - intros _. split; [by rewrite lookup_insert_eq |]. split; [done |].
    apply validated_shape in Hvalid as [Hkey Hshape].
    destruct (known_makes_provider (selectedProvider st) (apiKeyInput st)
                (baseURLInput st)) as (p & Hp & Hk);
      [by apply (keyShape_known _ (apiKeyInput st)) |].
    exists p. split; [exact Hp | by rewrite Hk].
Qed.

End Settings.

Lemma X23_api_key_display_witness :
  ∃ a mid b, "AIzaSyA-0123456789abcdef" = a ++ mid ++ b ∧ len a = 4 ∧ len b = 4
             ∧ tui.apiKeyDisplay "AIzaSyA-0123456789abcdef" = a ++ "..." ++ b.
Proof.
  destruct (X23_api_key_display "AIzaSyA-0123456789abcdef") as (_ & _ & Hlong & _).
  apply Hlong. reflexivity.
Defined.

Lemma X24_save_settings_witness :
  let st := {| tui.selectedProvider := "anthropic";
               tui.apiKeyInput := "sk-ant-api03-0001";
               tui.baseURLInput := "";
               tui.intervalInput := "15" |} in
  snd (rt.eval (tui.saveSettings sample.parseDecimal st sample.cfg) sample.quiet)
  = main.CHECKMARK ++ " Settings saved successfully!".
Proof.
  intros st.
  destruct (X24_save_settings sample.parseDecimal st sample.cfg sample.quiet)
    as (_ & [_ Hsaved] & _).
  apply Hsaved. split; [exists 15; split; [reflexivity | lia] |].
  split; reflexivity.
Defined.

(** ** The descriptor, over every run *)

Section Descriptor.

Import rt config daemon cli tui obs obs2.

Variable ParseInt : string → option Z.

#[local] Arguments LoadConfig : simpl never.
#[local] Arguments SaveConfig : simpl never.
#[local] Arguments validate.ValidateAPIKey : simpl never.
#[local] Arguments StartDaemonProcess : simpl never.
#[local] Arguments Itoa : simpl never.

Lemma touched_refl (dk : Disk) : touched dk dk.
Proof. by left. Qed.

Lemma touched_same (dk dk' : Disk) :
  files dk' !! DaemonFileName = files dk !! DaemonFileName → touched dk dk'.
Proof. by left. Qed.

Lemma touched_running (dk dk' : Disk) :
  touched dk dk' → descriptorsRunning dk → descriptorsRunning dk'.
Proof.
  unfold descriptorsRunning, LoadDaemonInfo.
  intros [-> | [-> | (pid & root & ->)]] Hdk info; [apply Hdk | done |].
  unfold unmarshalDaemonInfo, memberInt, memberString, marshalDaemonInfo.
  simplify_map_eq. destruct (inInt64 pid); [| done]. by intros [= <-].
Qed.

Lemma Delete_touched (dk : Disk) : touched dk (fst (DeleteDaemonInfo dk)).
Proof.
  unfold DeleteDaemonInfo, Remove. destruct (readonly dk); [by left |].
  destruct (files dk !! DaemonFileName) eqn:Hfile; [| by left].
  right. left. simpl. by rewrite lookup_delete_eq.
Qed.

Lemma SaveConfig_touched (cfg : Config) (dk : Disk) :
  files (fst (SaveConfig cfg dk)) !! DaemonFileName = files dk !! DaemonFileName.
Proof. rewrite SaveConfig_disk. by apply WriteFile_other. Qed.

Lemma spawn_touched (se : SpawnEnv) (root : string) (w : World) :
  touched (disk w) (disk (snd (StartDaemonProcess se root w))).
Proof.
  unfold StartDaemonProcess, onDisk, emit, withTrace, withDisk,
    mbind, M_bind, mret, M_ret, SaveDaemonInfo, WriteFile.
  destruct (executable se) as [e |]; [| by left].
  destruct (absolute se e) as [a |]; [| by left]. simpl.
  destruct (started se) as [pid |]; [| by left]. simpl.
  destruct (readonly (disk w)); [by left |]. simpl.
  right. right. exists pid, root. simpl. by rewrite lookup_insert_eq.
Qed.

Lemma statusCmd_touched (w : World) :
  touched (disk w) (disk (exec main.statusCmd w)).
Proof.
  destruct (statusCmd_only_prints w) as [-> _]. by left.
Qed.

Lemma pauseCmd_touched (w : World) :
  touched (disk w) (disk (exec main.pauseCmd w)).
Proof.
  pose proof (Delete_touched (disk w)) as Hdel.
  step. destruct (LoadDaemonInfo (disk w)) as [[info |] | ?]; simpl;
    [| by left ..].
  destruct (findProcessErr w (PID info)) eqn:Hfind; simpl.
  { destruct (DeleteDaemonInfo (disk w)); exact Hdel. }
  destruct (bool_decide _); simpl.
  - rewrite Hfind. simpl.
    destruct (signalErr w (PID info) SIGTERM); simpl; [by left |].
    destruct (DeleteDaemonInfo (disk w)); exact Hdel.
  - destruct (DeleteDaemonInfo (disk w)); exact Hdel.
Qed.

Lemma initCmd_touched (environ : gmap string string) (revparse : result string)
    (abs : string → result string) (se : SpawnEnv) (w : World) :
  touched (disk w) (disk (exec (initCmd ParseInt environ revparse abs se) w)).
Proof.
  unfold exec.
  destruct (initCmd ParseInt environ revparse abs se w) as [r wf] eqn:Hrun.
  unfold initCmd, cli.Printf, emit, onDisk, mbind, M_bind, mret, M_ret in Hrun.
  pose proof (GetRootPath_exec revparse abs w) as Hw1.
  destruct (GetRootPath revparse abs w) as [[root | e] w1]; simpl in Hw1; subst w1.
  2:{ injection Hrun as <- <-. by left. }
  rewrite alreadyRunning_reads in Hrun.
  set (w1 := withTrace _ (withTrace _ w)) in Hrun.
  destruct (match loadedDescriptor (disk w1) with Some _ => _ | None => _ end)
    as [pid0 |].
  { injection Hrun as <- <-. by left. }
  pose proof (LoadConfig_writes_config_only ParseInt environ (disk w1) DaemonFileName)
    as Hkeep.
  destruct (LoadConfig ParseInt environ (disk w1)) as [dk2 [cfg | e]].
  2:{ injection Hrun as <- <-. left. by apply Hkeep. }
  simpl in Hkeep.
  destruct (validate.ValidateAPIKey _ _ _) as [e |].
  { injection Hrun as <- <-. left. by apply Hkeep. }
  pose proof (SaveConfig_touched (setRootPath root cfg) dk2) as Hkeep3.
  destruct (SaveConfig (setRootPath root cfg) _) as [dk3 [e |]].
  { injection Hrun as <- <-. left. simpl in *. by rewrite Hkeep3, Hkeep. }
  simpl in Hkeep3.
  set (w3 := withDisk dk3 _) in Hrun.
  pose proof (spawn_touched se root w3) as Hspawn.
  destruct (StartDaemonProcess se root w3) as [[e |] w4];
    injection Hrun as <- <-; simpl in *;
    (destruct Hspawn as [Hsame | [Hnone | Hnew]];
      [left; by rewrite Hsame, Hkeep3, Hkeep | right; by left | right; by right]).
Qed.

Lemma saveSettings_touched (Sscan : string → option Z) (st : Settings)
    (cfg : Config) (w : World) :
  touched (disk w) (disk (exec (saveSettings Sscan st cfg) w)).
Proof.
  unfold exec, saveSettings, onDisk, mbind, M_bind, mret, M_ret.
  destruct (Sscan (intervalInput st)) as [n |]; [| by left].
  destruct (n <=? 0); [by left |].
  destruct (validate.ValidateAPIKey _ _ _); [by left |].
  pose proof (SaveConfig_touched
                (withCheckInterval n (withInputs st cfg)) (disk w)) as Hkeep.
  destruct (SaveConfig _ (disk w)) as [dk [e |]]; by left.
Qed.

Lemma log_is_not_descriptor (name : string) :
  ("logs/" ++ name)%string ≠ DaemonFileName.
Proof. discriminate. Qed.

Lemma cycle_touched (e : CycleEnv) (d : Daemon) (name : string) (w : World) :
  logFile d = ("logs/" ++ name)%string →
  touched (disk w) (disk (exec (checkAndCommit e d) w)).
Proof.
  intros Hlog. left. unfold exec.
  apply (extends_lookup (logFile d)); [apply checkAndCommit_extends_log |].
  rewrite Hlog. intros Heq. symmetry in Heq. by apply log_is_not_descriptor in Heq.
Qed.

Lemma stop_touched (d : Daemon) (name : string) (w : World) :
  logFile d = ("logs/" ++ name)%string →
  touched (disk w) (disk (exec (serve [StopRequest] d) w)).
Proof.
  intros Hlog. left. unfold exec. simpl.
  destruct (ticker d) as [t |] eqn:Ht; [| done].
  unfold stopTicker. rewrite Ht. simpl.
  rewrite lookup_insert_ne; [done |]. rewrite Hlog. apply log_is_not_descriptor.
Qed.

Lemma load_touched (environ : gmap string string) (w : World) :
  touched (disk w) (disk (exec (onDisk (LoadConfig ParseInt environ)) w)).
Proof.
  left. unfold exec, onDisk.
  pose proof (LoadConfig_writes_config_only ParseInt environ (disk w) DaemonFileName)
    as Hkeep.
  destruct (LoadConfig ParseInt environ (disk w)). by apply Hkeep.
Qed.

Lemma new_touched (cfg : Config) (rootPath : string) (mkdir open : error)
    (w : World) :
  touched (disk w) (disk (exec (NewDaemon cfg rootPath mkdir open) w)).
Proof.
  left. unfold exec, NewDaemon, mret, M_ret.
  destruct (importAIProvider cfg); [| done].
  destruct mkdir; [done |]. destruct open; [done |]. simpl.
  by rewrite lookup_insert_ne.
Qed.

Lemma start_touched (chdir : error) (d : Daemon) (name : string) (w : World) :
  logFile d = ("logs/" ++ name)%string →
  touched (disk w) (disk (exec (Start chdir d) w)).
Proof.
  intros Hlog. left.
  assert (logFile d ≠ DaemonFileName) as Hne
    by (rewrite Hlog; apply log_is_not_descriptor).
  unfold exec, Start, Printf, git.ChangeToRoot, emit, mbind, M_bind, mret, M_ret.
  destruct chdir; simpl.
  - by rewrite !lookup_insert_ne.
  - destruct (GetCheckInterval (config d) <=? 0); simpl; by rewrite lookup_insert_ne.
Qed.

(** X25: the descriptor over every run. Whatever the commands, the
    settings and the daemons of any repositories do, in any order and
    with any answers of their collaborators, a descriptor that loads
    says [running]: starting from a directory where that is so (an empty
    one, say), no reachable state has a descriptor with another status,
    and the dashboard never shows "Error". *)
Theorem X25_descriptor_always_running (w0 w : World) :
  reaches ParseInt w0 w →
  descriptorsRunning (disk w0) →
  descriptorsRunning (disk w)
  ∧ dashboardStatus (disk w) ≠ BULLET ++ " Error".
Proof.
  intros Hreach H0.
  assert (descriptorsRunning (disk w)) as Hw.
  { induction Hreach as [| w w' _ IH Hstep]; [exact H0 |].
    apply (touched_running (disk w)); [| exact IH].
    destruct Hstep.
    - apply statusCmd_touched.
    - apply pauseCmd_touched.
    - apply initCmd_touched.
    - apply saveSettings_touched.
    - apply load_touched.
    - apply new_touched.
    - by eapply start_touched.
    - by eapply cycle_touched.
    - by eapply stop_touched.
    - unfold exec, onDisk. pose proof (Delete_touched (disk w)) as Hdel.
      destruct (DeleteDaemonInfo (disk w)); exact Hdel. }
  split; [exact Hw |].
  unfold dashboardStatus, statusLabel, loadedDescriptor.
  destruct (LoadDaemonInfo (disk w)) as [[info |] | ?] eqn:Hload;
    [| vm_compute; discriminate ..].
  rewrite decide_True by (by apply Hw). vm_compute. discriminate.
Qed.

End Descriptor.

Lemma X25_descriptor_always_running_witness :
  tui.dashboardStatus
    (rt.disk (rt.exec (daemon.checkAndCommit sample.pushFails sample.running)
                (rt.exec (cli.initCmd sample.parseDecimal ∅ scenario.toplevel
                            (λ p, Ok p) scenario.spawn) scenario.busy)))
  ≠ tui.BULLET ++ " Error".
Proof.
  apply (X25_descriptor_always_running sample.parseDecimal scenario.busy).
  - eapply obs2.reaches_step; [eapply obs2.reaches_step; [apply obs2.reaches_refl |] |].
    + apply obs2.step_init.
    + by apply (obs2.step_cycle _ sample.pushFails sample.running "site.log").
  - intros info. vm_compute. by intros [= <-].
Defined.

(** ** The daemon from its making to its loop *)

Section Making.

Import rt config daemon tui obs obs2.

(** X26: the making of a daemon. [NewDaemon] succeeds exactly when the
    provider of the configuration is a known one and the log directory
    and file can be made; it does not ask for an API key. The daemon it
    makes has status [running], no ticker yet, the given configuration
    and root, and logs to the file named after the last element of the
    root; the lines already in that file are kept. It has no effect
    outside the directory. *)
Theorem X26_NewDaemon (cfg : Config) (root : string) (mkdir open : error)
    (w : World) :
  let r := eval (NewDaemon cfg root mkdir open) w in
  let w' := exec (NewDaemon cfg root mkdir open) w in
  trace w' = trace w
  ∧ (∀ path, linesOf path (disk w') = linesOf path (disk w))
  ∧ ((∃ d, r = Ok d) ↔
       knownProvider (ToLower (AIProvider cfg)) ∧ mkdir = None ∧ open = None)
  ∧ (∀ d, r = Ok d →
       daemon.config d = cfg ∧ status d = StatusRunning ∧ ticker d = None
       ∧ rootPath d = root ∧ repoName d = git.GetRepoName root
       ∧ logFile d = "logs/" ++ git.GetRepoName root ++ ".log"
       ∧ ai.keyOf (aiProvider d) = APIKey cfg).
Proof.
  unfold eval, exec, NewDaemon, importAIProvider, mret, M_ret.
  destruct (decide (knownProvider (ToLower (AIProvider cfg)))) as [Hk | Hk].
  - destruct (known_makes_provider (AIProvider cfg) (APIKey cfg) (BaseURL cfg) Hk)
      as (p & -> & Hkey).
    destruct mkdir as [e |]; simpl.
    { split_and!; try done. split; [by intros [? ?] | by intros (_ & ? & _)]. }
    destruct open as [e |]; simpl.
    { split_and!; try done. split; [by intros [? ?] | by intros (_ & _ & ?)]. }
    split_and!; try done.
    + intros path. unfold linesOf at 1. simpl.
      destruct (decide (path = "logs/" ++ git.GetRepoName root ++ ".log")) as [-> |].
      * by rewrite lookup_insert_eq.
      * by rewrite lookup_insert_ne.
    + split; [done | by eexists].
    + by intros d [= <-].
  - assert (ai.NewProvider (AIProvider cfg) (APIKey cfg) (BaseURL cfg)
            = Err ("unknown AI provider: " ++ AIProvider cfg)) as ->.
    { unfold ai.NewProvider, knownProvider in *. repeat case_decide; naive_solver. }
    split_and!; try done. split; [by intros [? ?] | by intros (? & _)].
Qed.

(** X27: from the making to the loop. A daemon made by [NewDaemon] and
    started by [Start] enters its loop with status [running] and a
    running ticker; from then on it never meets a missing ticker, waits
    only at work or stopped by an error, and returns only with its
    ticker stopped. *)
Theorem X27_made_started_looping (cfg : Config) (root : string)
    (mkdir open chdir : error) (first : CycleEnv) (events : list Event)
    (d0 d1 : Daemon) (w0 w1 w2 : World) :
  eval (NewDaemon cfg root mkdir open) w0 = Ok d0 →
  eval (Start chdir d0) w1 = Looping d1 →
  status d1 = StatusRunning ∧ tickerRuns d1 ∧ 0 < GetCheckInterval cfg
  ∧ match eval (runLoop first events d1) w2 with
    | Waiting d' => settled d'
    | Returned d' => tickerStopped d'
    | Crashed => False
    end.
Proof.
  unfold eval. intros Hnew Hstart.
  assert (status d0 = StatusRunning ∧ daemon.config d0 = cfg) as [Hst Hcfg].
  { revert Hnew. unfold NewDaemon, mret, M_ret.
    destruct (importAIProvider cfg); [| discriminate].
    destruct mkdir; [discriminate |]. destruct open; [discriminate |].
    by intros [= <-]. }
  assert (status d1 = StatusRunning ∧ tickerRuns d1 ∧ 0 < GetCheckInterval cfg)
    as (Hst1 & Hrun1 & Hpos).
  { revert Hstart.
    unfold Start, Printf, git.ChangeToRoot, emit, mbind, M_bind, mret, M_ret.
    destruct chdir; [discriminate |]. simpl. rewrite Hcfg.
    destruct (Z.leb_spec (GetCheckInterval cfg) 0); [discriminate |].
    intros [= <-]. split; [done |]. split; [by eexists | done]. }
  split; [done |]. split; [done |]. split; [done |].
  unfold runLoop, mbind, M_bind.
  pose proof (cycle_settled first d1 w2 Hst1 Hrun1) as H1.
  destruct (checkAndCommit first d1 w2) as [d2 w3].
  pose proof (serve_settled events d2 w3 H1) as Hserve.
  destruct (fst (serve events d2 w3)) as [d' | d' |]; [done | by destruct Hserve | done].
Qed.

(** X28: the provider of the settings. Cycling the provider runs
    through gemini, openai, openrouter and anthropic and comes back; from
    any other name, [claude] among them, it goes to gemini; so the
    provider it selects is always one [NewProvider] knows. *)
Theorem X28_nextProvider (selected : string) :
  nextProvider selected ∈ providers
  ∧ knownProvider (ToLower (nextProvider selected))
  ∧ (selected ∉ providers → nextProvider selected = "gemini")
  ∧ (selected ∈ providers →
       nextProvider selected ≠ selected
       ∧ nextProvider (nextProvider (nextProvider (nextProvider selected)))
         = selected).
Proof.
  assert (selected ∈ providers ↔
          selected = "gemini" ∨ selected = "openai" ∨ selected = "openrouter"
          ∨ selected = "anthropic") as Hin.
  { unfold providers. rewrite !elem_of_cons, elem_of_nil. naive_solver. }
  assert (∀ p, p = "gemini" ∨ p = "openai" ∨ p = "openrouter" ∨ p = "anthropic" →
               p ∈ providers ∧ knownProvider (ToLower p)) as Hknown.
  { intros p Hp. split.
    - unfold providers. rewrite !elem_of_cons. naive_solver.
    - unfold knownProvider.
      destruct Hp as [-> | [-> | [-> | ->]]]; vm_compute; naive_solver. }
  assert (nextProvider selected
          = if decide (selected = "gemini") then "openai"
            else if decide (selected = "openai") then "openrouter"
            else if decide (selected = "openrouter") then "anthropic"
            else "gemini") as Hnext.
  { unfold nextProvider, providers, indexOf.
    destruct (decide ("gemini" = selected)) as [<- | ?]; [reflexivity |].
    rewrite (decide_False (P := selected = "gemini")) by congruence.
    destruct (decide ("openai" = selected)) as [<- | ?]; [reflexivity |].
    rewrite (decide_False (P := selected = "openai")) by congruence.
    destruct (decide ("openrouter" = selected)) as [<- | ?]; [reflexivity |].
    rewrite (decide_False (P := selected = "openrouter")) by congruence.
    by destruct (decide ("anthropic" = selected)). }
  split_and!.
  - rewrite Hnext. apply Hknown. repeat case_decide; naive_solver.
  - rewrite Hnext. apply Hknown. repeat case_decide; naive_solver.
  - rewrite Hnext, Hin. intros Hout. repeat case_decide; naive_solver.
  - rewrite Hin. intros [-> | [-> | [-> | ->]]]; split; by vm_compute.
Qed.

End Making.

Lemma X27_made_started_looping_witness :
  daemon.status sample.running = daemon.StatusRunning
  ∧ obs2.tickerRuns sample.running
  ∧ 0 < config.GetCheckInterval sample.cfg
  ∧ match rt.eval (daemon.runLoop sample.pushFails [daemon.StopRequest] sample.running)
            sample.quiet with
    | daemon.Waiting d' => obs2.settled d'
    | daemon.Returned d' => obs2.tickerStopped d'
    | daemon.Crashed => False
    end.
Proof.
  apply (X27_made_started_looping sample.cfg "/home/dev/site" None None None
           sample.pushFails [daemon.StopRequest]
           (daemon.setTicker None sample.running) sample.running
           sample.quiet sample.quiet sample.quiet);
    reflexivity.
Defined.

Lemma X28_nextProvider_witness :
  tui.nextProvider "claude" = "gemini".
Proof.
  destruct (X28_nextProvider "claude") as (_ & _ & Hother & _).
  apply Hother. unfold tui.providers. rewrite !elem_of_cons, elem_of_nil.
  intros [? | [? | [? | [? | []]]]]; discriminate.
Defined.

Lemma X26_NewDaemon_witness :
  ∃ d, rt.eval (daemon.NewDaemon (obs.withInterval 5) "/home/dev/site" None None)
         sample.quiet = Ok d
       ∧ ai.keyOf (daemon.aiProvider d) = "".
Proof.
  destruct (X26_NewDaemon (obs.withInterval 5) "/home/dev/site" None None sample.quiet)
    as (_ & _ & [_ Hmade] & Hfields).
  destruct Hmade as [d Hd].
  - split; [by left | done].
  - exists d. split; [exact Hd |]. by destruct (Hfields d Hd) as (_ & _ & _ & _ & _ & _ & ?).
Defined.
